(** * The align tool of [pymacros/align_tool_plugin.py]

    A shallow embedding of the feature finder ([find_selection],
    [consider_edge_selection], [find_nearest_edge_point]) and of the
    alignment resolver ([commit_align]) of the KLayout align tool plugin.

    The plugin is written against the [pya] scripting interface of the host
    editor.  The plain data of [pya] (points, edges, boxes) are records of
    integer coordinates; the geometric operations of [pya] that the plugin
    calls ([Edge.clipped], [Edge.distance_abs], [Point.distance], ...) are the
    fields of the class [PyaGeometry], so every theorem below holds for every
    implementation of that interface.  [RefGeometry] is one such
    implementation, on which concrete queries are evaluated. *)

From Stdlib Require Import ZArith QArith Qabs Qround List Bool String Lia Lqa.
From Stdlib Require Import Ascii DecimalString.
Import ListNotations.
Local Open Scope Z_scope.

(** ** Plain data of the scripting interface *)

Module Point.
(** [pya.Point]: a point with integer (database unit) coordinates. *)
Record t : Set := new { x : Z; y : Z }.
End Point.

Module Edge.
(** [pya.Edge]: a directed segment from [p1] to [p2]. *)
Record t : Set := new { p1 : Point.t; p2 : Point.t }.

Definition x1 (e : t) : Z := Point.x (p1 e).
Definition y1 (e : t) : Z := Point.y (p1 e).
Definition x2 (e : t) : Z := Point.x (p2 e).
Definition y2 (e : t) : Z := Point.y (p2 e).
End Edge.

Module Box.
(** [pya.Box]: an axis-parallel rectangle. *)
Record t : Set := mk { left : Z; bottom : Z; right : Z; top : Z }.

(** [pya.Box(left, bottom, right, top)]: coordinates given in the wrong
    order are swapped. *)
Definition new (l b r t' : Z) : t :=
  mk (Z.min l r) (Z.min b t') (Z.max l r) (Z.max b t').
End Box.

(** [pya.Polygon], by the points of its hull. *)
Record Polygon : Set := { hull : list Point.t }.

(** [pya.ICplxTrans]: the accumulated transformation of a recursive
    iterator. *)
Record ICplxTrans : Set := {
  disp : Point.t;
  rot90 : Z;
  mirror : bool;
  mag : Q
}.

(** ** The geometric operations of [pya] called by the plugin *)

Class PyaGeometry : Type := {
  (** [Edge.clipped(box)]: the part of the edge inside the box, [None] when
      the edge does not meet the box. *)
  Edge_clipped : Edge.t -> Box.t -> option Edge.t;
  (** [Edge.distance_abs(point)]. *)
  Edge_distance_abs : Edge.t -> Point.t -> Z;
  (** [Edge.is_parallel(edge)]. *)
  Edge_is_parallel : Edge.t -> Edge.t -> bool;
  (** [Edge.dx()] and [Edge.dy()]. *)
  Edge_dx : Edge.t -> Z;
  Edge_dy : Edge.t -> Z;
  (** [Point.distance(point)], a float. *)
  Point_distance : Point.t -> Point.t -> Q;
  (** The conversion of a Python float passed where [pya] takes an integer
      coordinate, as in [pya.Point(float, float)]. *)
  coord_of_float : Q -> Z;
  (** [Box.contains(point)]. *)
  Box_contains : Box.t -> Point.t -> bool;
  (** [Box.center()]. *)
  Box_center : Box.t -> Point.t;
  (** [Box.transformed(trans)]. *)
  Box_transformed : Box.t -> ICplxTrans -> Box.t;
  (** Iteration over [pya.Edges(box)]. *)
  Edges_of_box : Box.t -> list Edge.t;
  (** [pya.Polygon(box).each_edge()]. *)
  Polygon_of_box_each_edge : Box.t -> list Edge.t;
  (** [Polygon.transformed(trans)], [Polygon.each_edge()], [Polygon.bbox()]. *)
  Polygon_transformed : Polygon -> ICplxTrans -> Polygon;
  Polygon_each_edge : Polygon -> list Edge.t;
  Polygon_bbox : Polygon -> Box.t
}.

(** ** Scene objects *)

(** [pya.Instance]. *)
Record Instance : Set := {
  inst_id : nat;
  inst_cell_index : nat;   (* inst.cell.cell_index() *)
  inst_bbox : Box.t        (* inst.bbox() *)
}.

(** [pya.InstElement], one step of an instantiation path. *)
Record InstElement : Set := { inst : Instance }.

(** [pya.Shape]; [polygon] is [None] for a shape without a polygon
    representation. *)
Record Shape : Set := {
  shape_id : nat;
  polygon : option Polygon
}.

(** What the [shape] field of a selection holds: a shape, or the bounding
    box of an instance. *)
Inductive ShapeRef : Set :=
| ShapeObj (sh : Shape)
| BoxObj (b : Box.t).

(** The data class [AlignToolSelection]. *)
Record AlignToolSelection : Set := {
  location : Point.t;
  search_box : Box.t;
  edge : option Edge.t;
  path : list InstElement;
  shape : option ShapeRef;
  bbox_of_instance : option Instance;
  layer : option Z;
  snap_point : option Point.t
}.

(** The assignment [selection.snap_point = p]. *)
Definition set_snap_point (s : AlignToolSelection) (p : Point.t)
  : AlignToolSelection :=
  {| location := location s; search_box := search_box s; edge := edge s;
     path := path s; shape := shape s;
     bbox_of_instance := bbox_of_instance s; layer := layer s;
     snap_point := Some p |}.

(** ** The host view, as far as the finder reads it *)

(** A layer entry of [view.each_layer()]. *)
Record LayerProperties : Set := {
  visible : bool;
  valid : bool;
  layer_index : Z
}.

(** The position of a [RecursiveInstanceIterator]:
    [iter.current_inst_element().inst()], [iter.trans()], [iter.path()]. *)
Record InstIterPos : Set := {
  current_inst : Instance;
  inst_iter_trans : ICplxTrans;
  inst_iter_path : list InstElement
}.

(** The position of a [RecursiveShapeIterator]:
    [iter.shape()], [iter.itrans()], [iter.path()]. *)
Record ShapeIterPos : Set := {
  iter_shape : Shape;
  iter_itrans : ICplxTrans;
  shape_iter_path : list InstElement
}.

(** [pya.Annotation.Outline*]. *)
Inductive Outline : Set :=
| OutlineDiag | OutlineXY | OutlineDiagXY | OutlineDiagYX
| OutlineBox | OutlineEllipse | OutlineAngle | OutlineRadius.

(** A ruler; [ann_box] is [a.box().to_itype(dbu)] and [ann_points] is
    [[dp.to_itype(dbu) for dp in a.points]]. *)
Record Annotation : Set := {
  outline : Outline;
  ann_box : Box.t;
  ann_points : list Point.t
}.

(** The current top cell [cell_view.cell].  A recursive iterator is the list
    of the positions it visits; the two integers are its [min_depth] and
    [max_depth]. *)
Record Cell : Type := {
  cell_index : nat;
  begin_instances_rec_overlapping : Box.t -> Z -> Z -> list InstIterPos;
  begin_shapes_rec_overlapping : Z -> Box.t -> Z -> Z -> list ShapeIterPos
}.

(** [pya.LayoutView] with its active cell view. *)
Record LayoutView : Type := {
  max_hier_levels : Z;
  min_hier_levels : Z;
  each_layer : list LayerProperties;
  is_cell_hidden : nat -> bool;
  each_annotation : list Annotation;
  cell : Cell
}.

(** ** Exceptions *)

Inductive PyError : Set :=
| AttributeError
| TypeError
| ZeroDivisionError.

Inductive Result (A : Type) : Type :=
| Ok (a : A)
| Raise (e : PyError).
Arguments Ok {A} a.
Arguments Raise {A} e.

Definition bind {A B : Type} (r : Result A) (k : A -> Result B) : Result B :=
  match r with
  | Ok a => k a
  | Raise e => Raise e
  end.

Notation "x <- c ;; k" := (bind c (fun x => k))
  (at level 61, c at next level, right associativity).

(** A [for] loop whose body updates one variable and may raise. *)
Fixpoint for_each {A S : Type} (l : list A) (body : A -> S -> Result S)
    (s : S) : Result S :=
  match l with
  | [] => Ok s
  | a :: rest => s' <- body a s ;; for_each rest body s'
  end.

(** The comparison [a < b] of two numbers. *)
Definition Qltb (a b : Q) : bool :=
  match a ?= b with
  | Lt => true
  | _ => false
  end%Q.

Section Finder.

Context {G : PyaGeometry}.

(** ** [find_nearest_edge_point] *)

(** The inner function [halfway]; [/] is the true division of Python, so the
    result is a float, exact for 32 bit coordinates. *)
Definition halfway (a b : Z) : Q :=
  if a <? b then (inject_Z a + inject_Z (b - a) / 2)%Q
  else (inject_Z b + inject_Z (a - b) / 2)%Q.

(** The initial value of [nearest_distance]. *)
Definition nearest_distance_init : Q := 9999999999.

(** [pya.Point(float, float)]. *)
Definition Point_of_floats (fx fy : Q) : Point.t :=
  Point.new (coord_of_float fx) (coord_of_float fy).

Definition edge_center (e : Edge.t) : Point.t :=
  Point_of_floats (halfway (Edge.x1 e) (Edge.x2 e))
                  (halfway (Edge.y1 e) (Edge.y2 e)).

(** [points = [edge_center, edge.p1, edge.p2]]. *)
Definition edge_points (e : Edge.t) : list Point.t :=
  [edge_center e; Edge.p1 e; Edge.p2 e].

(** The loop [for point, distance in zip(points, distances)]. *)
Fixpoint nearest_loop (pds : list (Point.t * Q))
    (nearest_point : option Point.t) (nearest_distance : Q)
  : option Point.t :=
  match pds with
  | [] => nearest_point
  | (point, distance) :: rest =>
      if Qltb distance nearest_distance
      then nearest_loop rest (Some point) distance
      else nearest_loop rest nearest_point nearest_distance
  end.

(** The distance that the function compares: [abs(p.distance(location))]. *)
Definition point_dist (loc p : Point.t) : Q := Qabs (Point_distance p loc).

Definition find_nearest_edge_point (loc : Point.t) (e : Edge.t)
  : option Point.t :=
  let points := edge_points e in
  let distances := map (point_dist loc) points in
  nearest_loop (combine points distances) None nearest_distance_init.

(** ** [visible_layer_indexes] *)

Fixpoint visible_layer_indexes_of (layers : list LayerProperties) : list Z :=
  match layers with
  | [] => []
  | lref :: rest =>
      if visible lref && valid lref then
        if layer_index lref =? -1 then visible_layer_indexes_of rest
        else layer_index lref :: visible_layer_indexes_of rest
      else visible_layer_indexes_of rest
  end.

Definition visible_layer_indexes (view : LayoutView) : list Z :=
  visible_layer_indexes_of (each_layer view).

(** ** [find_selection] *)

(** The initial value of [nearest]: no candidate yet. *)
Definition no_selection (loc : Point.t) (sb : Box.t) : AlignToolSelection :=
  {| location := loc; search_box := sb; edge := None; path := [];
     shape := None; bbox_of_instance := None; layer := None;
     snap_point := None |}.

(** The inner function [consider_edge_selection]; [sb] and [loc] are the
    captured [search_box] and [location], [nearest] is the captured variable
    it assigns, returned here. *)
Definition consider_edge_selection (sb : Box.t) (loc : Point.t)
    (selection nearest : AlignToolSelection) : Result AlignToolSelection :=
  match edge selection with
  | None => Raise AttributeError
  | Some e =>
      match Edge_clipped e sb with
      | None => Ok nearest
      | Some intersection =>
          match edge nearest with
          | None => Ok selection
          | Some ne =>
              match Edge_clipped ne sb with
              | None => Raise AttributeError
              | Some old_intersection =>
                  let dist_old := Edge_distance_abs old_intersection loc in
                  let dist_new := Edge_distance_abs intersection loc in
                  if dist_new <? dist_old then Ok selection else Ok nearest
              end
          end
      end
  end.

Definition iteration_limit : Z := 1000.

(** The loop
    [i = 0; while not iter.at_end(): body; iter.next(); i += 1;
     if i >= iteration_limit: break]
    over the positions [elems] that remain to be visited. *)
Fixpoint limited_loop {A : Type} (elems : list A)
    (body : A -> AlignToolSelection -> Result AlignToolSelection)
    (i : Z) (nearest : AlignToolSelection) : Result AlignToolSelection :=
  match elems with
  | [] => Ok nearest
  | cur :: rest =>
      nearest' <- body cur nearest ;;
      let i' := i + 1 in
      if i' >=? iteration_limit then Ok nearest'
      else limited_loop rest body i' nearest'
  end.

(** The candidate built for an edge of the bounding box of an instance. *)
Definition inst_edge_selection (sb : Box.t) (loc : Point.t) (it : InstIterPos)
    (inst_bbox_from_top : Box.t) (e : Edge.t) : AlignToolSelection :=
  {| location := loc; search_box := sb; edge := Some e;
     path := inst_iter_path it; shape := Some (BoxObj inst_bbox_from_top);
     bbox_of_instance := Some (current_inst it); layer := None;
     snap_point := None |}.

(** The candidate built for the center of the bounding box of an instance. *)
Definition inst_midpoint_selection (sb : Box.t) (loc : Point.t)
    (it : InstIterPos) (inst_bbox_from_top : Box.t) (midpoint : Point.t)
  : AlignToolSelection :=
  {| location := loc; search_box := sb;
     edge := Some (Edge.new midpoint midpoint);
     path := inst_iter_path it; shape := Some (BoxObj inst_bbox_from_top);
     bbox_of_instance := Some (current_inst it); layer := None;
     snap_point := Some midpoint |}.

(** The body of the instance loop. *)
Definition instance_body (view : LayoutView) (sb : Box.t) (loc : Point.t)
    (it : InstIterPos) (nearest : AlignToolSelection)
  : Result AlignToolSelection :=
  let inst := current_inst it in
  let hidden := is_cell_hidden view (inst_cell_index inst) in
  if negb hidden then
    let inst_bbox_from_top :=
      Box_transformed (inst_bbox inst) (inst_iter_trans it) in
    let edges := Edges_of_box inst_bbox_from_top in
    nearest <- for_each edges
      (fun e nearest =>
         match Edge_clipped e sb with
         | Some _ =>
             consider_edge_selection sb loc
               (inst_edge_selection sb loc it inst_bbox_from_top e) nearest
         | None => Ok nearest
         end) nearest ;;
    let midpoint := Box_center inst_bbox_from_top in
    consider_edge_selection sb loc
      (inst_midpoint_selection sb loc it inst_bbox_from_top midpoint) nearest
  else Ok nearest.

(** The candidate built for an edge of a polygon on layer [lyr]. *)
Definition shape_edge_selection (sb : Box.t) (loc : Point.t)
    (it : ShapeIterPos) (lyr : Z) (e : Edge.t) : AlignToolSelection :=
  {| location := loc; search_box := sb; edge := Some e;
     path := shape_iter_path it; shape := Some (ShapeObj (iter_shape it));
     bbox_of_instance := None; layer := Some lyr;
     snap_point := None |}.

(** The candidate built for the center of the bounding box of a polygon. *)
Definition shape_midpoint_selection (sb : Box.t) (loc : Point.t)
    (it : ShapeIterPos) (midpoint : Point.t) : AlignToolSelection :=
  {| location := loc; search_box := sb;
     edge := Some (Edge.new midpoint midpoint);
     path := shape_iter_path it; shape := Some (ShapeObj (iter_shape it));
     bbox_of_instance := None; layer := None;
     snap_point := Some midpoint |}.

(** The body of the shape loop of layer [lyr]. *)
Definition shape_body (sb : Box.t) (loc : Point.t) (lyr : Z)
    (it : ShapeIterPos) (nearest : AlignToolSelection)
  : Result AlignToolSelection :=
  let sh := iter_shape it in
  match polygon sh with
  | None => Ok nearest
  | Some pg =>
      let p := Polygon_transformed pg (iter_itrans it) in
      nearest <- for_each (Polygon_each_edge p)
        (fun e nearest =>
           consider_edge_selection sb loc
             (shape_edge_selection sb loc it lyr e) nearest) nearest ;;
      let midpoint := Box_center (Polygon_bbox p) in
      consider_edge_selection sb loc
        (shape_midpoint_selection sb loc it midpoint) nearest
  end.

(** The candidate built for an edge of a box ruler. *)
Definition ruler_edge_selection (sb : Box.t) (loc : Point.t) (e : Edge.t)
  : AlignToolSelection :=
  {| location := loc; search_box := sb; edge := Some e; path := [];
     shape := None; bbox_of_instance := None; layer := None;
     snap_point := None |}.

(** The candidate built for a point of a ruler. *)
Definition ruler_point_selection (sb : Box.t) (loc : Point.t) (p : Point.t)
  : AlignToolSelection :=
  {| location := loc; search_box := sb; edge := Some (Edge.new p p);
     path := []; shape := None; bbox_of_instance := None; layer := None;
     snap_point := Some p |}.

(** The body of the loop over the rulers. *)
Definition annotation_body (sb : Box.t) (loc : Point.t) (a : Annotation)
    (nearest : AlignToolSelection) : Result AlignToolSelection :=
  let '(points, edges) :=
    match outline a with
    | OutlineBox => ([], Polygon_of_box_each_edge (ann_box a))
    | _ => (ann_points a, [])
    end in
  nearest <- for_each edges
    (fun e nearest =>
       match Edge_clipped e sb with
       | Some _ =>
           consider_edge_selection sb loc (ruler_edge_selection sb loc e)
             nearest
       | None => Ok nearest
       end) nearest ;;
  for_each points
    (fun p nearest =>
       if Box_contains sb p then
         consider_edge_selection sb loc (ruler_point_selection sb loc p)
           nearest
       else Ok nearest) nearest.

(** The search box of a query: [max_distance] is the float that the
    property of this name returns, and [pya.Box] converts each of the four
    floats to a coordinate. *)
Definition search_box_of (loc : Point.t) (max_distance : Q) : Box.t :=
  Box.new (coord_of_float (inject_Z (Point.x loc) - max_distance))
          (coord_of_float (inject_Z (Point.y loc) - max_distance))
          (coord_of_float (inject_Z (Point.x loc) + max_distance))
          (coord_of_float (inject_Z (Point.y loc) + max_distance)).

(** The instance pass. *)
Definition instance_pass (view : LayoutView) (sb : Box.t) (loc : Point.t)
    (nearest : AlignToolSelection) : Result AlignToolSelection :=
  if max_hier_levels view >=? 1 then
    let iter :=
      begin_instances_rec_overlapping (cell view) sb
        (Z.max (min_hier_levels view - 1) 0)
        (Z.max (max_hier_levels view - 1) 0) in
    limited_loop iter (instance_body view sb loc) 0 nearest
  else Ok nearest.

(** The shape pass, layer by layer. *)
Definition shape_pass (view : LayoutView) (sb : Box.t) (loc : Point.t)
    (nearest : AlignToolSelection) : Result AlignToolSelection :=
  if max_hier_levels view >=? 1 then
    for_each (visible_layer_indexes view)
      (fun lyr nearest =>
         let iter :=
           begin_shapes_rec_overlapping (cell view) lyr sb
             (Z.max (min_hier_levels view - 1) 0)
             (Z.max (max_hier_levels view - 1) 0) in
         limited_loop iter (shape_body sb loc lyr) 0 nearest) nearest
  else Ok nearest.

(** The ruler pass. *)
Definition annotation_pass (view : LayoutView) (sb : Box.t) (loc : Point.t)
    (consider_rulers : bool) (nearest : AlignToolSelection)
  : Result AlignToolSelection :=
  if consider_rulers then
    for_each (each_annotation view) (annotation_body sb loc) nearest
  else Ok nearest.

(** The three passes in the order of the source; the result is the final
    value of [nearest]. *)
Definition scan (view : LayoutView) (sb : Box.t) (loc : Point.t)
    (consider_rulers : bool) : Result AlignToolSelection :=
  nearest <- instance_pass view sb loc (no_selection loc sb) ;;
  nearest <- shape_pass view sb loc nearest ;;
  annotation_pass view sb loc consider_rulers nearest.

(** The last lines of [find_selection]: the snap point of the winner.  When
    [find_nearest_edge_point] returns [None], [search_box.contains(None)]
    raises. *)
Definition finish (sb : Box.t) (loc : Point.t) (nearest : AlignToolSelection)
  : Result (option AlignToolSelection) :=
  match edge nearest with
  | None => Ok None
  | Some e =>
      match find_nearest_edge_point loc e with
      | None => Raise TypeError
      | Some nearest_point =>
          if Box_contains sb nearest_point
          then Ok (Some (set_snap_point nearest nearest_point))
          else Ok (Some nearest)
      end
  end.

(** [find_selection]; [loc] is [location.to_itype(dbu)] and [max_distance]
    a float, the value of the property of this name. *)
Definition find_selection (view : LayoutView) (loc : Point.t)
    (max_distance : Q) (consider_rulers : bool)
  : Result (option AlignToolSelection) :=
  let sb := search_box_of loc max_distance in
  if is_cell_hidden view (cell_index (cell view)) then Ok None
  else
    nearest <- scan view sb loc consider_rulers ;;
    finish sb loc nearest.

(** ** The candidates of a query, in the order of their registration

    The lists of the selections that the three passes hand to
    [consider_edge_selection], in the order of the calls. *)

Definition meets (sb : Box.t) (e : Edge.t) : bool :=
  match Edge_clipped e sb with
  | Some _ => true
  | None => false
  end.

Definition instance_registrations_at (view : LayoutView) (sb : Box.t)
    (loc : Point.t) (it : InstIterPos) : list AlignToolSelection :=
  if negb (is_cell_hidden view (inst_cell_index (current_inst it))) then
    let bb := Box_transformed (inst_bbox (current_inst it))
                (inst_iter_trans it) in
    map (inst_edge_selection sb loc it bb) (filter (meets sb) (Edges_of_box bb))
    ++ [inst_midpoint_selection sb loc it bb (Box_center bb)]
  else [].

Definition instance_registrations (view : LayoutView) (sb : Box.t)
    (loc : Point.t) : list AlignToolSelection :=
  if max_hier_levels view >=? 1 then
    flat_map (instance_registrations_at view sb loc)
      (firstn (Z.to_nat iteration_limit)
         (begin_instances_rec_overlapping (cell view) sb
            (Z.max (min_hier_levels view - 1) 0)
            (Z.max (max_hier_levels view - 1) 0)))
  else [].

Definition shape_registrations_at (sb : Box.t) (loc : Point.t) (lyr : Z)
    (it : ShapeIterPos) : list AlignToolSelection :=
  match polygon (iter_shape it) with
  | None => []
  | Some pg =>
      let p := Polygon_transformed pg (iter_itrans it) in
      map (shape_edge_selection sb loc it lyr) (Polygon_each_edge p)
      ++ [shape_midpoint_selection sb loc it (Box_center (Polygon_bbox p))]
  end.

Definition shape_registrations (view : LayoutView) (sb : Box.t)
    (loc : Point.t) : list AlignToolSelection :=
  if max_hier_levels view >=? 1 then
    flat_map
      (fun lyr =>
         flat_map (shape_registrations_at sb loc lyr)
           (firstn (Z.to_nat iteration_limit)
              (begin_shapes_rec_overlapping (cell view) lyr sb
                 (Z.max (min_hier_levels view - 1) 0)
                 (Z.max (max_hier_levels view - 1) 0))))
      (visible_layer_indexes view)
  else [].

Definition annotation_registrations_at (sb : Box.t) (loc : Point.t)
    (a : Annotation) : list AlignToolSelection :=
  match outline a with
  | OutlineBox =>
      map (ruler_edge_selection sb loc)
        (filter (meets sb) (Polygon_of_box_each_edge (ann_box a)))
  | _ =>
      map (ruler_point_selection sb loc)
        (filter (Box_contains sb) (ann_points a))
  end.

Definition annotation_registrations (view : LayoutView) (sb : Box.t)
    (loc : Point.t) (consider_rulers : bool) : list AlignToolSelection :=
  if consider_rulers then
    flat_map (annotation_registrations_at sb loc) (each_annotation view)
  else [].

(** Instances before shapes before rulers. *)
Definition registrations (view : LayoutView) (sb : Box.t) (loc : Point.t)
    (consider_rulers : bool) : list AlignToolSelection :=
  instance_registrations view sb loc
  ++ shape_registrations view sb loc
  ++ annotation_registrations view sb loc consider_rulers.

(** The distance that [consider_edge_selection] compares: the one of the
    clip of the edge of a selection against the search box to the query
    location; [None] when there is no clip. *)
Definition clip_distance (sb : Box.t) (loc : Point.t)
    (s : AlignToolSelection) : option Z :=
  match edge s with
  | None => None
  | Some e =>
      match Edge_clipped e sb with
      | None => None
      | Some intersection => Some (Edge_distance_abs intersection loc)
      end
  end.

(** The view whose recursive iterators stop after [iteration_limit]
    positions. *)
Definition truncate_cell (c : Cell) : Cell :=
  {| cell_index := cell_index c;
     begin_instances_rec_overlapping := fun b lo hi =>
       firstn (Z.to_nat iteration_limit)
         (begin_instances_rec_overlapping c b lo hi);
     begin_shapes_rec_overlapping := fun lyr b lo hi =>
       firstn (Z.to_nat iteration_limit)
         (begin_shapes_rec_overlapping c lyr b lo hi) |}.

Definition truncate_view (view : LayoutView) : LayoutView :=
  {| max_hier_levels := max_hier_levels view;
     min_hier_levels := min_hier_levels view;
     each_layer := each_layer view;
     is_cell_hidden := is_cell_hidden view;
     each_annotation := each_annotation view;
     cell := truncate_cell (cell view) |}.

End Finder.

(** ** The alignment resolver *)

(** The states of the tool. *)
Inductive AlignToolState : Set :=
| INACTIVE
| PENDING_SELECTION1
| PENDING_SELECTION2.

(** A Python object that may end up in [transformees]. *)
Inductive PyObject : Set :=
| PyInstance (i : Instance)
| PyShape (sh : Shape)
| PyBox (b : Box.t)
| PyNone.

(** The fields of [AlignToolPlugin] that [commit_align] reads. *)
Record AlignToolPlugin : Set := {
  _state : AlignToolState;
  _pre_selected_objects : list PyObject;
  _selection1 : option AlignToolSelection
}.

(** The property [pre_selected_objects]. *)
Definition pre_selected_objects (self : AlignToolPlugin) : list PyObject :=
  _pre_selected_objects self.

(** [pya.Trans(dx, dy)]: a translation. *)
Record Trans : Set := { trans_dx : Z; trans_dy : Z }.

(** The integers that [pya] takes as a coordinate: those of 32 bits. *)
Definition coord_in_range (v : Z) : bool :=
  (- 2 ^ 31 <=? v) && (v <=? 2 ^ 31 - 1).

(** The call [pya.Trans(dx, dy)] on two Python integers: it raises when one
    of them is not a coordinate. *)
Definition Trans_new (dx dy : Z) : Result Trans :=
  if coord_in_range dx && coord_in_range dy
  then Ok {| trans_dx := dx; trans_dy := dy |}
  else Raise TypeError.

(** The calls that [commit_align] makes on the host, in the order made. *)
Inductive HostCall : Set :=
| MessageBoxWarning (title text : string)  (* pya.QMessageBox.warning *)
| SendEscapeKey                            (* self.deactivate() *)
| Transaction (name : string)              (* self.view.transaction *)
| Transform (t : PyObject) (trans : Trans) (* t.transform(trans) *)
| Commit.                                  (* self.view.commit() *)

(** The value of [selection.shape] as a Python object. *)
Definition object_of_shape (s : option ShapeRef) : PyObject :=
  match s with
  | Some (ShapeObj sh) => PyShape sh
  | Some (BoxObj b) => PyBox b
  | None => PyNone
  end.

(** The choice of [transformees]. *)
Definition transformees_of (self : AlignToolPlugin)
    (selection1 : AlignToolSelection) : list PyObject :=
  if (1 <=? List.length (pre_selected_objects self))%nat then
    pre_selected_objects self
  else if (List.length (path selection1) =? 0)%nat then
    match bbox_of_instance selection1 with
    | None => [object_of_shape (shape selection1)]
    | Some inst1 => [PyInstance inst1]
    end
  else if (1 <=? List.length (path selection1))%nat then
    match path selection1 with
    | p0 :: _ => [PyInstance (inst p0)]
    | [] => []
    end
  else [].

(** The built-in [round] on a float: to the nearest integer, a tie to the
    even one. *)
Definition py_round (q : Q) : Z :=
  let f := Qfloor q in
  match (q - inject_Z f ?= 1 # 2)%Q with
  | Lt => f
  | Gt => f + 1
  | Eq => if Z.even f then f else f + 1
  end.

(** [round(d / grid_dbu) * grid_dbu], for [grid_dbu] other than 0.  The
    quotient is the exact one; the float quotient of Python rounds to the
    same integer for 32 bit [d] and [grid_dbu] below 2^21. *)
Definition snap_to_grid (d grid_dbu : Z) : Z :=
  py_round (inject_Z d / inject_Z grid_dbu) * grid_dbu.

(** The loop [for t in transformees: t.transform(trans)]: the calls made and
    whether the loop ended by an exception. *)
Fixpoint transform_all (transformees : list PyObject) (trans : Trans)
  : list HostCall * Result unit :=
  match transformees with
  | [] => ([], Ok tt)
  | t :: rest =>
      match t with
      | PyInstance _ | PyShape _ =>
          let '(calls, r) := transform_all rest trans in
          (Transform t trans :: calls, r)
      | PyBox _ | PyNone => ([], Raise AttributeError)
      end
  end.

Section Resolver.

Context {G : PyaGeometry}.

(** The offset of the branch for an axis-parallel edge: [along_y] is the
    value of [dy] for a horizontal edge, [along_x] the value of [dx] for a
    vertical one; [(0, 0)] stays when the edge is neither. *)
Definition axis_offset (e : Edge.t) (along_x along_y : Z) : Z * Z :=
  let is_horizontal := Edge_dy e =? 0 in
  let is_vertical := Edge_dx e =? 0 in
  if is_horizontal then (0, along_y)
  else if is_vertical then (along_x, 0)
  else (0, 0).

(** The case table of [commit_align]: [Ok (Some (dx, dy))], or [Ok None] in
    the branch that returns early. *)
Definition offset_of (selection1 selection2 : AlignToolSelection)
  : Result (option (Z * Z)) :=
  match snap_point selection1, snap_point selection2 with
  | Some s1, Some s2 =>
      Ok (Some (Point.x s2 - Point.x s1, Point.y s2 - Point.y s1))
  | Some s1, None =>
      match edge selection2 with
      | None => Raise AttributeError
      | Some edge2 =>
          Ok (Some (axis_offset edge2
                      (Edge.x1 edge2 - Point.x s1)
                      (Edge.y1 edge2 - Point.y s1)))
      end
  | None, Some s2 =>
      match edge selection1 with
      | None => Raise AttributeError
      | Some edge1 =>
          Ok (Some (axis_offset edge1
                      (Point.x s2 - Edge.x1 edge1)
                      (Point.y s2 - Edge.y1 edge1)))
      end
  | None, None =>
      match edge selection1, edge selection2 with
      | None, _ => Raise AttributeError
      | Some _, None => Raise TypeError
      | Some edge1, Some edge2 =>
          if Edge_is_parallel edge1 edge2 then
            Ok (Some (axis_offset edge1
                        (Edge.x1 edge2 - Edge.x1 edge1)
                        (Edge.y1 edge2 - Edge.y1 edge1)))
          else Ok None
      end
  end.

(** [commit_align]; [grid_dbu] is [int(drc_tech_grid_um() / self.dbu)].  The
    result is the list of the calls made on the host and whether the method
    ends by an exception.  [pya.Trans] is called inside the [try]: when it
    raises, no object is transformed and the [finally] part still runs. *)
Definition commit_align (self : AlignToolPlugin) (grid_dbu : Z)
    (selection1 selection2 : AlignToolSelection)
  : list HostCall * Result unit :=
  let transformees := transformees_of self selection1 in
  match offset_of selection1 selection2 with
  | Raise e => ([], Raise e)
  | Ok None =>
      ([MessageBoxWarning "Unsupported use case"%string
          "Aligning non-parallel edges is not yet supported."%string;
        SendEscapeKey], Ok tt)
  | Ok (Some (dx, dy)) =>
      if grid_dbu =? 0 then ([], Raise ZeroDivisionError)
      else
        let snapped_dx := snap_to_grid dx grid_dbu in
        let snapped_dy := snap_to_grid dy grid_dbu in
        match Trans_new snapped_dx snapped_dy with
        | Raise e =>
            ([Transaction "align"%string; Commit; SendEscapeKey], Raise e)
        | Ok trans =>
            let '(calls, r) := transform_all transformees trans in
            ([Transaction "align"%string] ++ calls
             ++ [Commit; SendEscapeKey], r)
        end
  end.

End Resolver.

(** ** A reference implementation of the geometric interface

    Integer and rational arithmetic in place of the native code of [pya].  It
    is exact on axis-parallel and on degenerate edges, the only ones the
    concrete queries below use; on other edges the rounding of a clipped end
    point and of a distance may differ from the native one by a unit. *)

Module Ref.

(** Coordinates of [pya] are 32 bit integers; an operation reads the
    coordinates of its arguments as such. *)
Definition int32 (z : Z) : Z := (z + 2 ^ 31) mod 2 ^ 32 - 2 ^ 31.

Definition contains (b : Box.t) (p : Point.t) : bool :=
  (Box.left b <=? Point.x p) && (Point.x p <=? Box.right b) &&
  (Box.bottom b <=? Point.y p) && (Point.y p <=? Box.top b).

(** Rounding of a rational to the nearest integer, a half upwards. *)
Definition round_half_up (q : Q) : Z := Qfloor (q + (1 # 2)).

(** One constraint [p * t <= q] of the parametric clip of a segment; the
    state is the interval [(t0, t1)] of the parameter kept so far. *)
Definition clip_step (p q : Z) (st : option (Q * Q)) : option (Q * Q) :=
  match st with
  | None => None
  | Some (t0, t1) =>
      if p =? 0 then (if q <? 0 then None else Some (t0, t1))
      else
        let r := (inject_Z q / inject_Z p)%Q in
        if p <? 0 then
          (if Qltb t1 r then None
           else Some (if Qltb t0 r then r else t0, t1))
        else
          (if Qltb r t0 then None
           else Some (t0, if Qltb r t1 then r else t1))
  end.

Definition point_at (e : Edge.t) (t' : Q) : Point.t :=
  let dx := Edge.x2 e - Edge.x1 e in
  let dy := Edge.y2 e - Edge.y1 e in
  Point.new (Edge.x1 e + round_half_up (t' * inject_Z dx))
            (Edge.y1 e + round_half_up (t' * inject_Z dy)).

Definition clipped (e : Edge.t) (b : Box.t) : option Edge.t :=
  let dx := Edge.x2 e - Edge.x1 e in
  let dy := Edge.y2 e - Edge.y1 e in
  let st :=
    clip_step dy (Box.top b - Edge.y1 e)
      (clip_step (- dy) (Edge.y1 e - Box.bottom b)
         (clip_step dx (Box.right b - Edge.x1 e)
            (clip_step (- dx) (Edge.x1 e - Box.left b) (Some (0, 1)%Q)))) in
  match st with
  | None => None
  | Some (t0, t1) => Some (Edge.new (point_at e t0) (point_at e t1))
  end.

Definition dx (e : Edge.t) : Z := Edge.x2 e - Edge.x1 e.
Definition dy (e : Edge.t) : Z := Edge.y2 e - Edge.y1 e.

(** The distance of a point from the line through the edge; 0 for a
    degenerate edge. *)
Definition distance_abs (e : Edge.t) (p : Point.t) : Z :=
  if (dx e =? 0) && (dy e =? 0) then 0
  else
    let axb := dx e * (Point.y p - Edge.y1 e)
               - dy e * (Point.x p - Edge.x1 e) in
    round_half_up
      (inject_Z (Z.abs axb) / inject_Z (Z.sqrt (dx e * dx e + dy e * dy e))).

Definition is_parallel (e1 e2 : Edge.t) : bool :=
  dx e1 * dy e2 =? dx e2 * dy e1.

(** The integer part of the Euclidean distance. *)
Definition distance (p q : Point.t) : Q :=
  let ddx := int32 (Point.x q) - int32 (Point.x p) in
  let ddy := int32 (Point.y q) - int32 (Point.y p) in
  inject_Z (Z.sqrt (ddx * ddx + ddy * ddy)).

(** A float is cut to its integer part. *)
Definition coord (q : Q) : Z := Z.quot (Qnum q) (Zpos (Qden q)).

Definition center (b : Box.t) : Point.t :=
  Point.new (Box.left b + (Box.right b - Box.left b) / 2)
            (Box.bottom b + (Box.top b - Box.bottom b) / 2).

(** Mirror at the x axis, quarter turns, magnification, displacement. *)
Definition transform_point (t' : ICplxTrans) (p : Point.t) : Point.t :=
  let y0 := if mirror t' then - Point.y p else Point.y p in
  let '(x1, y1) :=
    match rot90 t' mod 4 with
    | 0 => (Point.x p, y0)
    | 1 => (- y0, Point.x p)
    | 2 => (- Point.x p, - y0)
    | _ => (y0, - Point.x p)
    end in
  Point.new (round_half_up (mag t' * inject_Z x1) + Point.x (disp t'))
            (round_half_up (mag t' * inject_Z y1) + Point.y (disp t')).

Definition box_transformed (b : Box.t) (t' : ICplxTrans) : Box.t :=
  let p := transform_point t' (Point.new (Box.left b) (Box.bottom b)) in
  let q := transform_point t' (Point.new (Box.right b) (Box.top b)) in
  Box.new (Point.x p) (Point.y p) (Point.x q) (Point.y q).

(** The four edges of a box, from the lower left corner, clockwise. *)
Definition box_edges (b : Box.t) : list Edge.t :=
  let ll := Point.new (Box.left b) (Box.bottom b) in
  let ul := Point.new (Box.left b) (Box.top b) in
  let ur := Point.new (Box.right b) (Box.top b) in
  let lr := Point.new (Box.right b) (Box.bottom b) in
  [Edge.new ll ul; Edge.new ul ur; Edge.new ur lr; Edge.new lr ll].

Definition polygon_transformed (pg : Polygon) (t' : ICplxTrans) : Polygon :=
  {| hull := map (transform_point t') (hull pg) |}.

(** The edges from each hull point to the next, the last one back to
    [first]. *)
Fixpoint edges_from (first : Point.t) (pts : list Point.t) : list Edge.t :=
  match pts with
  | [] => []
  | [p] => [Edge.new p first]
  | p :: ((q :: _) as rest) => Edge.new p q :: edges_from first rest
  end.

Definition polygon_each_edge (pg : Polygon) : list Edge.t :=
  match hull pg with
  | [] => []
  | first :: _ => edges_from first (hull pg)
  end.

Definition polygon_bbox (pg : Polygon) : Box.t :=
  match hull pg with
  | [] => Box.mk 1 1 (-1) (-1)
  | p :: rest =>
      fold_left
        (fun b q =>
           Box.mk (Z.min (Box.left b) (Point.x q))
                  (Z.min (Box.bottom b) (Point.y q))
                  (Z.max (Box.right b) (Point.x q))
                  (Z.max (Box.top b) (Point.y q)))
        rest (Box.mk (Point.x p) (Point.y p) (Point.x p) (Point.y p))
  end.

End Ref.

#[export] Instance RefGeometry : PyaGeometry := {|
  Edge_clipped := Ref.clipped;
  Edge_distance_abs := Ref.distance_abs;
  Edge_is_parallel := Ref.is_parallel;
  Edge_dx := Ref.dx;
  Edge_dy := Ref.dy;
  Point_distance := Ref.distance;
  coord_of_float := Ref.coord;
  Box_contains := Ref.contains;
  Box_center := Ref.center;
  Box_transformed := Ref.box_transformed;
  Edges_of_box := Ref.box_edges;
  Polygon_of_box_each_edge := Ref.box_edges;
  Polygon_transformed := Ref.polygon_transformed;
  Polygon_each_edge := Ref.polygon_each_edge;
  Polygon_bbox := Ref.polygon_bbox
|}.

(** ** Well-formed candidates *)

(** What every selection built by [find_selection] satisfies: it carries the
    location and the search box of the query and an edge, and a snap point
    set at construction is the point of a zero-length edge. *)
Definition well_formed_candidate (sb : Box.t) (loc : Point.t)
    (c : AlignToolSelection) : Prop :=
  location c = loc /\ search_box c = sb /\
  match edge c, snap_point c with
  | Some _, None => True
  | Some e, Some m => e = Edge.new m m
  | None, _ => False
  end.

(** The objects that a list of host calls transforms, in order. *)
Fixpoint transformed_objects (calls : list HostCall) : list PyObject :=
  match calls with
  | [] => []
  | Transform t _ :: rest => t :: transformed_objects rest
  | _ :: rest => transformed_objects rest
  end.

(** An object with a [transform] method. *)
Definition transformable (t : PyObject) : bool :=
  match t with
  | PyInstance _ | PyShape _ => true
  | PyBox _ | PyNone => false
  end.

(** ** Concrete scenes *)

Module Scene.

Definition unit_trans : ICplxTrans :=
  {| disp := Point.new 0 0; rot90 := 0; mirror := false; mag := 1 |}.

Definition origin : Point.t := Point.new 0 0.

(** A square of side 200 around the origin. *)
Definition square : Shape :=
  {| shape_id := 1;
     polygon := Some {| hull := [Point.new (-100) (-100);
                                 Point.new (-100) 100;
                                 Point.new 100 100;
                                 Point.new 100 (-100)] |} |}.

(** A rectangle whose left edge runs at x = 2. *)
Definition strip : Shape :=
  {| shape_id := 2;
     polygon := Some {| hull := [Point.new 2 (-50); Point.new 2 50;
                                 Point.new 40 50; Point.new 40 (-50)] |} |}.

(** An instance whose bounding box has its left edge at x = 2 too. *)
Definition macro : Instance :=
  {| inst_id := 1; inst_cell_index := 5;
     inst_bbox := Box.mk 2 (-60) 60 100 |}.

Definition metal1 : LayerProperties :=
  {| visible := true; valid := true; layer_index := 7 |}.

(** A top cell with the square alone, on layer 7. *)
Definition square_cell : Cell :=
  {| cell_index := 0;
     begin_instances_rec_overlapping := fun _ _ _ => [];
     begin_shapes_rec_overlapping := fun lyr _ _ _ =>
       if lyr =? 7 then
         [{| iter_shape := square; iter_itrans := unit_trans;
             shape_iter_path := [] |}]
       else [] |}.

Definition square_view : LayoutView :=
  {| max_hier_levels := 1; min_hier_levels := 0;
     each_layer := [metal1];
     is_cell_hidden := fun _ => false;
     each_annotation := [];
     cell := square_cell |}.

(** A top cell with the instance and, on layer 7, the strip. *)
Definition tie_cell : Cell :=
  {| cell_index := 0;
     begin_instances_rec_overlapping := fun _ _ _ =>
       [{| current_inst := macro; inst_iter_trans := unit_trans;
           inst_iter_path := [] |}];
     begin_shapes_rec_overlapping := fun lyr _ _ _ =>
       if lyr =? 7 then
         [{| iter_shape := strip; iter_itrans := unit_trans;
             shape_iter_path := [] |}]
       else [] |}.

Definition tie_view : LayoutView :=
  {| max_hier_levels := 1; min_hier_levels := 0;
     each_layer := [metal1];
     is_cell_hidden := fun _ => false;
     each_annotation := [];
     cell := tie_cell |}.

(** An edge-like selection with edge [e]. *)
Definition edge_selection (e : Edge.t) : AlignToolSelection :=
  {| location := origin; search_box := Box.mk (-5) (-5) 5 5;
     edge := Some e; path := []; shape := Some (ShapeObj strip);
     bbox_of_instance := None; layer := Some 7; snap_point := None |}.

(** A point-like selection at [p]. *)
Definition point_selection (p : Point.t) : AlignToolSelection :=
  {| location := p; search_box := Box.mk (-5) (-5) 5 5;
     edge := Some (Edge.new p p); path := [];
     shape := Some (ShapeObj strip);
     bbox_of_instance := None; layer := None; snap_point := Some p |}.

Definition horizontal : Edge.t := Edge.new (Point.new 0 0) (Point.new 10 0).
Definition vertical : Edge.t := Edge.new (Point.new 20 0) (Point.new 20 10).
Definition diagonal : Edge.t := Edge.new (Point.new 0 0) (Point.new 10 10).

(** A plugin without and one with a pre-selection. *)
Definition plain_plugin : AlignToolPlugin :=
  {| _state := INACTIVE; _pre_selected_objects := []; _selection1 := None |}.

Definition preselected_plugin : AlignToolPlugin :=
  {| _state := INACTIVE;
     _pre_selected_objects := [PyInstance macro; PyShape square];
     _selection1 := None |}.

(** An instance whose bounding box contains the search box of a query at
    the origin, with its center away from it. *)
Definition cover : Instance :=
  {| inst_id := 2; inst_cell_index := 6;
     inst_bbox := Box.mk (-100) (-100) 100 200 |}.

Definition cover_pos : InstIterPos :=
  {| current_inst := cover; inst_iter_trans := unit_trans;
     inst_iter_path := [] |}.

Definition cover_cell : Cell :=
  {| cell_index := 0;
     begin_instances_rec_overlapping := fun _ _ _ => [cover_pos];
     begin_shapes_rec_overlapping := fun _ _ _ _ => [] |}.

Definition cover_view : LayoutView :=
  {| max_hier_levels := 1; min_hier_levels := 0;
     each_layer := [metal1];
     is_cell_hidden := fun _ => false;
     each_annotation := [];
     cell := cover_cell |}.

(** The search box of a query at the origin with distance 5. *)
Definition query_box : Box.t := Box.mk (-5) (-5) 5 5.

(** The candidate registered for the center of [cover]. *)
Definition cover_midpoint : AlignToolSelection :=
  {| location := origin; search_box := query_box;
     edge := Some (Edge.new (Point.new 0 50) (Point.new 0 50));
     path := []; shape := Some (BoxObj (Box.mk (-100) (-100) 100 200));
     bbox_of_instance := Some cover; layer := None;
     snap_point := Some (Point.new 0 50) |}.

(** The candidate registered for the left edge of [macro]. *)
Definition macro_left_edge : AlignToolSelection :=
  {| location := origin; search_box := query_box;
     edge := Some (Edge.new (Point.new 2 (-60)) (Point.new 2 100));
     path := []; shape := Some (BoxObj (Box.mk 2 (-60) 60 100));
     bbox_of_instance := Some macro; layer := None;
     snap_point := None |}.

(** The candidate registered for the center of [square]. *)
Definition square_midpoint : AlignToolSelection :=
  {| location := origin; search_box := query_box;
     edge := Some (Edge.new origin origin);
     path := []; shape := Some (ShapeObj square);
     bbox_of_instance := None; layer := None;
     snap_point := Some origin |}.

(** The candidate registered for the left edge of [strip]. *)
Definition strip_left_edge : AlignToolSelection :=
  edge_selection (Edge.new (Point.new 2 (-50)) (Point.new 2 50)).

Definition strip_pos : ShapeIterPos :=
  {| iter_shape := strip; iter_itrans := unit_trans; shape_iter_path := [] |}.

Definition square_pos : ShapeIterPos :=
  {| iter_shape := square; iter_itrans := unit_trans;
     shape_iter_path := [] |}.

(** A top cell whose shape iterator of layer 7 visits the strip 1000 times
    and then the square. *)
Definition dense_cell : Cell :=
  {| cell_index := 0;
     begin_instances_rec_overlapping := fun _ _ _ => [];
     begin_shapes_rec_overlapping := fun lyr _ _ _ =>
       if lyr =? 7 then repeat strip_pos 1000 ++ [square_pos] else [] |}.

Definition dense_view : LayoutView :=
  {| max_hier_levels := 1; min_hier_levels := 0;
     each_layer := [metal1];
     is_cell_hidden := fun _ => false;
     each_annotation := [];
     cell := dense_cell |}.

(** A second layer, and a top cell whose shape iterator visits the strip
    1000 times on layer 7 and the square once on layer 8. *)
Definition metal2 : LayerProperties :=
  {| visible := true; valid := true; layer_index := 8 |}.

Definition layered_cell : Cell :=
  {| cell_index := 0;
     begin_instances_rec_overlapping := fun _ _ _ => [];
     begin_shapes_rec_overlapping := fun lyr _ _ _ =>
       if lyr =? 7 then repeat strip_pos 1000
       else if lyr =? 8 then [square_pos] else [] |}.

Definition layered_view : LayoutView :=
  {| max_hier_levels := 1; min_hier_levels := 0;
     each_layer := [metal1; metal2];
     is_cell_hidden := fun _ => false;
     each_annotation := [];
     cell := layered_cell |}.

(** An edge of length 8 on the x axis, and a location at the same distance
    from its center and from its first end point. *)
Definition segment : Edge.t := Edge.new (Point.new 0 0) (Point.new 8 0).
Definition between : Point.t := Point.new 2 5.

(** An edge of length 1 on the x axis, and a location on the x axis beyond
    its second end point. *)
Definition short_segment : Edge.t :=
  Edge.new (Point.new 0 0) (Point.new 1 0).
Definition beyond : Point.t := Point.new 5 0.

(** [tie_view] with no hierarchy level shown below the top. *)
Definition flat_view : LayoutView :=
  {| max_hier_levels := 0; min_hier_levels := 0;
     each_layer := [metal1];
     is_cell_hidden := fun _ => false;
     each_annotation := [];
     cell := tie_cell |}.

(** A horizontal edge at height 10, and a second diagonal edge, parallel to
    [diagonal]. *)
Definition rail : Edge.t := Edge.new (Point.new 0 10) (Point.new 20 10).
Definition diagonal_shifted : Edge.t :=
  Edge.new (Point.new 5 0) (Point.new 15 10).

End Scene.

(** ** The setup dock *)

(** The labels of [AlignToolSetupWidget] that change. *)
Record AlignToolSetupWidget : Set := {
  pre_selection_label : string;
  selection1_value_label : string;
  selection1_status_label : string;
  selection2_value_label : string;
  selection2_status_label : string
}.

(** The double quote character. *)
Definition dq : string := String (ascii_of_nat 34) EmptyString.

Definition underlined (s : string) : string :=
  ("<span style=" ++ dq ++ "text-decoration: underline;" ++ dq ++ ">"
   ++ s ++ "</span>")%string.

(** The text of the status label of the selection that comes next. *)
Definition next_status : string :=
  ("<span style=" ++ dq ++ "color:blue; font-weight:bold;" ++ dq
   ++ ">⬅</span> "
   ++ "<span style=" ++ dq ++ "font-weight:bold; color:blue;" ++ dq
   ++ ">Next</span>")%string.

Definition done_status : string := "✅"%string.

(** [AlignToolSetupWidget.__init__]. *)
Definition new_widget : AlignToolSetupWidget :=
  {| pre_selection_label := ""%string;
     selection1_value_label :=
       (underlined "Source ref:" ++ " None yet")%string;
     selection1_status_label := ""%string;
     selection2_value_label :=
       (underlined "Target ref:" ++ " None yet")%string;
     selection2_status_label := ""%string |}.

(** [AlignToolSetupWidget.updateState]. *)
Definition widget_updateState (w : AlignToolSetupWidget)
    (state : AlignToolState) : AlignToolSetupWidget :=
  let set_status (s1 s2 : string) :=
    {| pre_selection_label := pre_selection_label w;
       selection1_value_label := selection1_value_label w;
       selection1_status_label := s1;
       selection2_value_label := selection2_value_label w;
       selection2_status_label := s2 |} in
  match state with
  | INACTIVE => set_status ""%string ""%string
  | PENDING_SELECTION1 => set_status next_status ""%string
  | PENDING_SELECTION2 => set_status done_status next_status
  end.

(** The inner function [format_len]; [None] for an empty list. *)
Definition format_len (l : list PyObject) (singular : string)
  : option string :=
  match List.length l with
  | O => None
  | 1%nat => Some ("1 " ++ singular)%string
  | n =>
      Some (NilEmpty.string_of_uint (Nat.to_uint n) ++ " " ++ singular
            ++ "s")%string
  end.

Definition is_instance (o : PyObject) : bool :=
  match o with PyInstance _ => true | _ => false end.

Definition is_shape (o : PyObject) : bool :=
  match o with PyShape _ => true | _ => false end.

(** The entries of a list that are not [None], unwrapped. *)
Fixpoint not_none {A : Type} (l : list (option A)) : list A :=
  match l with
  | [] => []
  | Some a :: rest => a :: not_none rest
  | None :: rest => not_none rest
  end.

(** The text that [updatePreSelection] sets. *)
Definition pre_selection_text (pre_selection : list PyObject) : string :=
  if (List.length pre_selection =? 0)%nat then
    (underlined "Pre-selection:" ++ " None")%string
  else
    let instances := filter is_instance pre_selection in
    let shapes := filter is_shape pre_selection in
    let entries := [format_len instances "instance";
                    format_len shapes "shape"] in
    (underlined "Pre-selection:" ++ " "
     ++ String.concat ", " (not_none entries))%string.

(** [AlignToolSetupWidget.updatePreSelection]. *)
Definition widget_updatePreSelection (w : AlignToolSetupWidget)
    (pre_selection : list PyObject) : AlignToolSetupWidget :=
  {| pre_selection_label := pre_selection_text pre_selection;
     selection1_value_label := selection1_value_label w;
     selection1_status_label := selection1_status_label w;
     selection2_value_label := selection2_value_label w;
     selection2_status_label := selection2_status_label w |}.

(** [AlignToolSetupWidget.format_selection]. *)
Definition format_selection (selection : option AlignToolSelection)
  : string :=
  match selection with
  | None => "None yet"%string
  | Some s =>
      match snap_point s with
      | Some _ => "1 point"%string
      | None => "1 edge"%string
      end
  end.

(** [AlignToolSetupWidget.updateSelection1]. *)
Definition widget_updateSelection1 (w : AlignToolSetupWidget)
    (selection : option AlignToolSelection) : AlignToolSetupWidget :=
  {| pre_selection_label := pre_selection_label w;
     selection1_value_label :=
       (underlined "Source ref:" ++ " " ++ format_selection selection)%string;
     selection1_status_label := selection1_status_label w;
     selection2_value_label := selection2_value_label w;
     selection2_status_label := selection2_status_label w |}.

(** [AlignToolSetupDock]: its widget, and whether it is shown. *)
Record AlignToolSetupDock : Set := {
  setupWidget : AlignToolSetupWidget;
  dock_shown : bool
}.

(** ** The plugin *)

(** What a marker is set to, in database units. *)
Inductive MarkerShape : Set :=
| MarkerEdge (e : Edge.t)
| MarkerBox (b : Box.t).

(** [pya.Box(point, point)]: the box spanned by two points. *)
Definition Box_of_points (p q : Point.t) : Box.t :=
  Box.new (Point.x p) (Point.y p) (Point.x q) (Point.y q).

(** [pya.Marker]. *)
Record Marker : Set := {
  line_style : Z;
  line_width : Z;
  vertex_size : Z;
  dither_pattern : Z;
  marker_shape : MarkerShape
}.

(** The fields of [AlignToolPlugin] set by [__init__]; [core] holds the
    three that [commit_align] reads. *)
Record PluginState : Set := {
  core : AlignToolPlugin;
  setupDock : option AlignToolSetupDock;
  markers_selection1 : list Marker;
  markers_selection2 : list Marker;
  preview_selection1 : option AlignToolSelection;
  preview_selection2 : option AlignToolSelection
}.

(** [AlignToolPlugin.__init__]. *)
Definition new_plugin : PluginState :=
  {| core := {| _state := INACTIVE; _pre_selected_objects := [];
                _selection1 := None |};
     setupDock := None;
     markers_selection1 := []; markers_selection2 := [];
     preview_selection1 := None; preview_selection2 := None |}.

(** The property [state]. *)
Definition state (self : PluginState) : AlignToolState := _state (core self).

(** The property [selection1]. *)
Definition selection1 (self : PluginState) : option AlignToolSelection :=
  _selection1 (core self).

(** The dock after [f], when there is a dock. *)
Definition update_dock (f : AlignToolSetupWidget -> AlignToolSetupWidget)
    (d : option AlignToolSetupDock) : option AlignToolSetupDock :=
  match d with
  | None => None
  | Some dock => Some {| setupWidget := f (setupWidget dock);
                         dock_shown := dock_shown dock |}
  end.

(** The setter of [state]. *)
Definition set_state (self : PluginState) (s : AlignToolState)
  : PluginState :=
  {| core := {| _state := s;
                _pre_selected_objects := _pre_selected_objects (core self);
                _selection1 := _selection1 (core self) |};
     setupDock := update_dock (fun w => widget_updateState w s)
                    (setupDock self);
     markers_selection1 := markers_selection1 self;
     markers_selection2 := markers_selection2 self;
     preview_selection1 := preview_selection1 self;
     preview_selection2 := preview_selection2 self |}.

(** The setter of [pre_selected_objects]. *)
Definition set_pre_selected_objects (self : PluginState)
    (objects : list PyObject) : PluginState :=
  {| core := {| _state := _state (core self);
                _pre_selected_objects := objects;
                _selection1 := _selection1 (core self) |};
     setupDock := update_dock (fun w => widget_updatePreSelection w objects)
                    (setupDock self);
     markers_selection1 := markers_selection1 self;
     markers_selection2 := markers_selection2 self;
     preview_selection1 := preview_selection1 self;
     preview_selection2 := preview_selection2 self |}.

(** The setter of [selection1]. *)
Definition set_selection1 (self : PluginState)
    (selection : option AlignToolSelection) : PluginState :=
  {| core := {| _state := _state (core self);
                _pre_selected_objects := _pre_selected_objects (core self);
                _selection1 := selection |};
     setupDock := update_dock (fun w => widget_updateSelection1 w selection)
                    (setupDock self);
     markers_selection1 := markers_selection1 self;
     markers_selection2 := markers_selection2 self;
     preview_selection1 := preview_selection1 self;
     preview_selection2 := preview_selection2 self |}.

(** An entry of [view.each_object_selected()]: [o.is_cell_inst()],
    [o.inst()] and [o.shape]. *)
Record ObjectInstPath : Set := {
  oip_is_cell_inst : bool;
  oip_inst : Instance;
  oip_shape : option Shape
}.

(** What the handlers read of the host at the time of an event:
    [viewport_mag] is [pya.CplxTrans(view.viewport_trans(), dbu).mag], a
    float, which is positive for every transformation, and [grid_dbu] is
    [int(drc_tech_grid_um() / self.dbu)]. *)
Record Host : Type := {
  host_view : LayoutView;
  each_object_selected : list ObjectInstPath;
  widget_visible : bool;
  viewport_mag : Q;
  viewport_mag_positive : (0 < viewport_mag)%Q;
  grid_dbu : Z
}.

(** [viewport_adjust]: the quotient [v / trans.mag], a float. *)
Definition viewport_adjust (h : Host) (v : Z) : Q :=
  (inject_Z v / viewport_mag h)%Q.

(** [selected_objects]. *)
Definition selected_objects (h : Host) : list PyObject :=
  fold_left
    (fun l o =>
       if oip_is_cell_inst o then l ++ [PyInstance (oip_inst o)]
       else match oip_shape o with
            | Some sh => l ++ [PyShape sh]
            | None => l
            end)
    (each_object_selected h) [].

(** The property [max_distance]. *)
Definition max_distance (h : Host) : Q := viewport_adjust h 20.

(** The calls that the handlers make on the user interface and the host. *)
Inductive UiCall : Set :=
| DestroyMarker (m : Marker)          (* marker._destroy() *)
| ShowToolTip (text : string)         (* self.toolTip.showText *)
| UngrabMouse                         (* self.ungrab_mouse() *)
| AddDockWidget                       (* mw.addDockWidget *)
| DeferEditorOptions                  (* self.show_editor_options() *)
| Resolve (c : HostCall).             (* a call of commit_align *)

(** [_clear_markers_selection1] and [_clear_markers_selection2]. *)
Definition _clear_markers_selection1 (self : PluginState)
  : PluginState * list UiCall :=
  ({| core := core self; setupDock := setupDock self;
      markers_selection1 := [];
      markers_selection2 := markers_selection2 self;
      preview_selection1 := None;
      preview_selection2 := preview_selection2 self |},
   map DestroyMarker (markers_selection1 self)).

Definition _clear_markers_selection2 (self : PluginState)
  : PluginState * list UiCall :=
  ({| core := core self; setupDock := setupDock self;
      markers_selection1 := markers_selection1 self;
      markers_selection2 := [];
      preview_selection1 := preview_selection1 self;
      preview_selection2 := None |},
   map DestroyMarker (markers_selection2 self)).

(** [_clear_all_markers]. *)
Definition _clear_all_markers (self : PluginState)
  : PluginState * list UiCall :=
  let '(self, calls1) := _clear_markers_selection1 self in
  let '(self, calls2) := _clear_markers_selection2 self in
  (self, calls1 ++ calls2).

(** [activated]. *)
Definition activated (h : Host) (self : PluginState)
  : PluginState * list UiCall :=
  if negb (widget_visible h) then (self, [])
  else
    let '(dock, calls) :=
      match setupDock self with
      | None => ({| setupWidget := new_widget; dock_shown := false |},
                 [AddDockWidget])
      | Some dock => (dock, [])
      end in
    let self :=
      {| core := core self;
         setupDock := Some {| setupWidget := setupWidget dock;
                              dock_shown := true |};
         markers_selection1 := markers_selection1 self;
         markers_selection2 := markers_selection2 self;
         preview_selection1 := preview_selection1 self;
         preview_selection2 := preview_selection2 self |} in
    let self := set_pre_selected_objects self (selected_objects h) in
    let self := set_state self PENDING_SELECTION1 in
    (self, calls ++ [DeferEditorOptions]).

(** [deactivated]. *)
Definition deactivated (self : PluginState) : PluginState * list UiCall :=
  let self := set_state self INACTIVE in
  let self := set_pre_selected_objects self [] in
  let '(self, calls) := _clear_all_markers self in
  ({| core := core self;
      setupDock :=
        match setupDock self with
        | None => None
        | Some dock => Some {| setupWidget := setupWidget dock;
                               dock_shown := false |}
        end;
      markers_selection1 := markers_selection1 self;
      markers_selection2 := markers_selection2 self;
      preview_selection1 := preview_selection1 self;
      preview_selection2 := preview_selection2 self |},
   calls ++ [UngrabMouse]).

Section Plugin.

Context {G : PyaGeometry}.

(** [preview_markers_for_selection]; the marker of the search box is always
    there, [search_box_marker_visible] being [True].  [d] is a float, and
    [pya.Point] converts each coordinate of the two corners. *)
Definition preview_markers_for_selection (h : Host)
    (selection : AlignToolSelection) : Result (list Marker) :=
  match edge selection with
  | None => Raise AttributeError
  | Some e =>
      let edge_marker :=
        {| line_style := 0; line_width := 2; vertex_size := 0;
           dither_pattern := 2; marker_shape := MarkerEdge e |} in
      let markers := [edge_marker] in
      let markers :=
        match snap_point selection with
        | Some sp =>
            let d := viewport_adjust h 5 in
            let marker_box :=
              Box_of_points
                (Point_of_floats (inject_Z (Point.x sp) - d)
                                 (inject_Z (Point.y sp) - d))
                (Point_of_floats (inject_Z (Point.x sp) + d)
                                 (inject_Z (Point.y sp) + d)) in
            markers ++ [{| line_style := 1; line_width := 2;
                           vertex_size := 0; dither_pattern := 0;
                           marker_shape := MarkerBox marker_box |}]
        | None => markers
        end in
      Ok (markers ++ [{| line_style := 2; line_width := 1; vertex_size := 0;
                         dither_pattern := -1;
                         marker_shape :=
                           MarkerBox (search_box selection) |}])
  end.

(** [mouse_moved_event]; [loc] is the point of the event in database
    units. *)
Definition mouse_moved_event (h : Host) (self : PluginState)
    (loc : Point.t) (buttons : Z) (prio : bool)
  : PluginState * list UiCall * Result bool :=
  if prio then
    let consider_rulers :=
      match state self with PENDING_SELECTION2 => true | _ => false end in
    match find_selection (host_view h) loc (max_distance h) consider_rulers
    with
    | Raise e => (self, [], Raise e)
    | Ok None =>
        match state self with
        | INACTIVE => (self, [], Ok false)
        | PENDING_SELECTION1 =>
            (self, [ShowToolTip "Select shape feature to align"], Ok false)
        | PENDING_SELECTION2 =>
            (self, [ShowToolTip "Select shape feature to reference"],
             Ok false)
        end
    | Ok (Some selection) =>
        match state self with
        | INACTIVE => (self, [], Ok false)
        | PENDING_SELECTION1 =>
            let '(self, calls) := _clear_markers_selection1 self in
            match preview_markers_for_selection h selection with
            | Raise e => (self, calls, Raise e)
            | Ok markers =>
                ({| core := core self; setupDock := setupDock self;
                    markers_selection1 := markers;
                    markers_selection2 := markers_selection2 self;
                    preview_selection1 := Some selection;
                    preview_selection2 := preview_selection2 self |},
                 calls, Ok true)
            end
        | PENDING_SELECTION2 =>
            let '(self, calls) := _clear_markers_selection2 self in
            match preview_markers_for_selection h selection with
            | Raise e => (self, calls, Raise e)
            | Ok markers =>
                ({| core := core self; setupDock := setupDock self;
                    markers_selection1 := markers_selection1 self;
                    markers_selection2 := markers;
                    preview_selection1 := preview_selection1 self;
                    preview_selection2 := Some selection |},
                 calls, Ok true)
            end
        end
    end
  else (self, [], Ok false).

(** The second part of [mouse_click_event]: the buttons 16 and 32. *)
Definition click_reset (self : PluginState) (buttons : Z)
  : PluginState * list UiCall :=
  if (buttons =? 16) || (buttons =? 32) then
    let '(self, calls) := _clear_all_markers self in
    let self := set_state self PENDING_SELECTION1 in
    (set_selection1 self None, calls)
  else (self, []).

(** [mouse_click_event]. *)
Definition mouse_click_event (h : Host) (self : PluginState)
    (loc : Point.t) (buttons : Z) (prio : bool)
  : PluginState * list UiCall * Result bool :=
  if prio then
    let finish_click (self : PluginState) (calls : list UiCall) :=
      let '(self, calls') := click_reset self buttons in
      (self, calls ++ calls', Ok true) in
    if buttons =? 8 then
      match state self with
      | INACTIVE => (self, [], Ok false)
      | PENDING_SELECTION1 =>
          match preview_selection1 self with
          | None => (self, [], Ok false)
          | Some p =>
              let self := set_selection1 self (Some p) in
              let self := set_state self PENDING_SELECTION2 in
              finish_click self []
          end
      | PENDING_SELECTION2 =>
          match preview_selection2 self with
          | None => (self, [], Ok false)
          | Some selection2 =>
              let source := selection1 self in
              let self := set_state self INACTIVE in
              let self := set_selection1 self None in
              match source with
              | None => (self, [], Raise AttributeError)
              | Some s1 =>
                  let '(calls, r) :=
                    commit_align (core self) (grid_dbu h) s1 selection2 in
                  match r with
                  | Raise e => (self, map Resolve calls, Raise e)
                  | Ok _ => finish_click self (map Resolve calls)
                  end
              end
          end
      end
    else finish_click self []
  else (self, [], Ok false).

(** The events that the host sends to the plugin. *)
Inductive Event : Type :=
| Activated (h : Host)
| Deactivated
| MouseMoved (h : Host) (loc : Point.t) (buttons : Z) (prio : bool)
| MouseClick (h : Host) (loc : Point.t) (buttons : Z) (prio : bool).

(** The plugin after an event; an exception leaves it as it was when the
    exception was raised. *)
Definition handle (ev : Event) (self : PluginState) : PluginState :=
  match ev with
  | Activated h => fst (activated h self)
  | Deactivated => fst (deactivated self)
  | MouseMoved h loc buttons prio =>
      fst (fst (mouse_moved_event h self loc buttons prio))
  | MouseClick h loc buttons prio =>
      fst (fst (mouse_click_event h self loc buttons prio))
  end.

(** The plugin after a sequence of events, from its creation. *)
Definition run (evs : list Event) : PluginState :=
  fold_left (fun self ev => handle ev self) evs new_plugin.

End Plugin.

(** A selection that names an object of the scene to transform: it has an
    edge, and when it is not the bounding box of an instance it names a
    shape. *)
Definition names_scene_object (s : AlignToolSelection) : Prop :=
  edge s <> None
  /\ (bbox_of_instance s = None -> exists sh, shape s = Some (ShapeObj sh)).

(** The labels of the dock, when there is a dock, show the state and the
    pre-selection of the plugin: they are what [updateState] and
    [updatePreSelection] set for them. *)
Definition dock_agrees (self : PluginState) : Prop :=
  forall dock, setupDock self = Some dock ->
    let w := setupWidget dock in
    selection1_status_label w
    = selection1_status_label (widget_updateState w (state self))
    /\ selection2_status_label w
       = selection2_status_label (widget_updateState w (state self))
    /\ pre_selection_label w
       = pre_selection_text (_pre_selected_objects (core self)).

Section Invariant.

Context {G : PyaGeometry}.

(** The markers of a slot are those of its preview: none without a preview,
    and the ones built for the preview otherwise. *)
Definition markers_agree (preview : option AlignToolSelection)
    (markers : list Marker) : Prop :=
  match preview with
  | None => markers = []
  | Some s => exists h, preview_markers_for_selection h s = Ok markers
  end.

(** What every sequence of events keeps. *)
Definition plugin_invariant (self : PluginState) : Prop :=
  (state self = PENDING_SELECTION2 -> selection1 self <> None)
  /\ forallb transformable (_pre_selected_objects (core self)) = true
  /\ (forall s, selection1 self = Some s -> names_scene_object s)
  /\ (forall s, preview_selection1 self = Some s -> names_scene_object s)
  /\ (forall s, preview_selection2 self = Some s -> edge s <> None)
  /\ dock_agrees self
  /\ markers_agree (preview_selection1 self) (markers_selection1 self)
  /\ markers_agree (preview_selection2 self) (markers_selection2 self).

End Invariant.

(** ** A concrete session *)

Module Session.

(** A host showing [Scene.tie_view], zoomed so that 20 pixels are 5
    database units, with a grid of 5. *)
Definition host : Host :=
  {| host_view := Scene.tie_view;
     each_object_selected := [];
     widget_visible := true;
     viewport_mag := 4;
     viewport_mag_positive := eq_refl;
     grid_dbu := 5 |}.

(** The same host with nothing to find near the origin. *)
Definition empty_host : Host :=
  {| host_view := Scene.cover_view;
     each_object_selected := [];
     widget_visible := true;
     viewport_mag := 4;
     viewport_mag_positive := eq_refl;
     grid_dbu := 5 |}.


(** Activation, a pointer move that finds the left edge of [Scene.macro], a
    click that commits it as the source, and a second pointer move. *)
Definition to_target : list Event :=
  [Activated host;
   MouseMoved host Scene.origin 0 true;
   MouseClick host Scene.origin 8 true;
   MouseMoved host Scene.origin 0 true].

(** Activation and a first pointer move. *)
Definition to_source : list Event :=
  [Activated host; MouseMoved host Scene.origin 0 true].

End Session.

(** ** Reference points of an alignment *)

(** The point of a selection that [commit_align] reads: its snap point, and
    for an edge-like selection the first end point of its edge. *)
Definition reference_point (s : AlignToolSelection) : option Point.t :=
  match snap_point s with
  | Some p => Some p
  | None => option_map Edge.p1 (edge s)
  end.

(** The edge whose direction [commit_align] tests: the one of the source
    when the source is edge-like, the one of the target otherwise. *)
Definition deciding_edge (selection1 selection2 : AlignToolSelection)
  : option Edge.t :=
  match snap_point selection1 with
  | Some _ => edge selection2
  | None => edge selection1
  end.

(** * Properties *)

(** ** Numbers *)

Lemma Qltb_lt a b : Qltb a b = true <-> (a < b)%Q.
Proof.
  unfold Qltb. rewrite Qlt_alt. destruct (a ?= b)%Q; split; congruence.
Qed.

Lemma Qltb_ge a b : Qltb a b = false <-> (b <= a)%Q.
Proof.
  split.
  - intros H. apply Qnot_lt_le. intros L. apply Qltb_lt in L. congruence.
  - intros H. destruct (Qltb a b) eqn:E; [|reflexivity].
    apply Qltb_lt in E. exfalso. exact (Qle_not_lt _ _ H E).
Qed.

(** ** Loops *)

Lemma bind_Ok {A B} (r : Result A) (k : A -> Result B) b :
  bind r k = Ok b -> exists a, r = Ok a /\ k a = Ok b.
Proof. destruct r; simpl; [eauto | discriminate]. Qed.

Lemma for_each_app {A S} (l1 l2 : list A) (f : A -> S -> Result S) s :
  for_each (l1 ++ l2) f s = (s' <- for_each l1 f s ;; for_each l2 f s').
Proof.
  revert s. induction l1 as [|a l1 IH]; intros s; simpl; [reflexivity|].
  destruct (f a s); simpl; [apply IH | reflexivity].
Qed.

Lemma for_each_ext {A S} (l : list A) (f g : A -> S -> Result S) s :
  (forall a s', In a l -> f a s' = g a s') ->
  for_each l f s = for_each l g s.
Proof.
  revert s. induction l as [|a l IH]; intros s H; simpl; [reflexivity|].
  rewrite (H a s (or_introl eq_refl)).
  destruct (g a s); simpl; [|reflexivity].
  apply IH. intros; apply H; right; assumption.
Qed.

Lemma for_each_flat_map {A B S} (g : A -> list B) (f : B -> S -> Result S)
    (l : list A) s :
  for_each l (fun a s' => for_each (g a) f s') s = for_each (flat_map g l) f s.
Proof.
  revert s. induction l as [|a l IH]; intros s; simpl; [reflexivity|].
  rewrite for_each_app. destruct (for_each (g a) f s); simpl; auto.
Qed.

Lemma for_each_filter_map {A B S} (p : A -> bool) (h : A -> B)
    (f : B -> S -> Result S) (l : list A) s :
  for_each l (fun a s' => if p a then f (h a) s' else Ok s') s
  = for_each (map h (filter p l)) f s.
Proof.
  revert s. induction l as [|a l IH]; intros s; simpl; [reflexivity|].
  destruct (p a); simpl.
  - destruct (f (h a) s); simpl; auto.
  - apply IH.
Qed.

Section FinderProperties.

Context {G : PyaGeometry}.

(** The capped loop started at count [i] visits the next
    [iteration_limit - i] positions and no other. *)
Lemma limited_loop_from {A} (body : A -> AlignToolSelection ->
                                   Result AlignToolSelection)
    (elems : list A) (i : Z) nearest :
  0 <= i < iteration_limit ->
  limited_loop elems body i nearest
  = for_each (firstn (Z.to_nat (iteration_limit - i)) elems) body nearest.
Proof.
  revert i nearest. induction elems as [|cur rest IH]; intros i nearest Hi.
  - rewrite firstn_nil. reflexivity.
  - assert (Hk : Z.to_nat (iteration_limit - i)
                = S (Z.to_nat (iteration_limit - (i + 1)))) by lia.
    rewrite Hk. cbn [limited_loop firstn for_each].
    destruct (body cur nearest) as [n'|e]; cbn [bind]; [|reflexivity].
    destruct (i + 1 >=? iteration_limit) eqn:E.
    + apply Z.geb_le in E.
      assert (Hz : Z.to_nat (iteration_limit - (i + 1)) = 0%nat) by lia.
      rewrite Hz. reflexivity.
    + rewrite Z.geb_leb in E. apply Z.leb_gt in E.
      apply IH. lia.
Qed.

Lemma limited_loop_firstn {A} (body : A -> AlignToolSelection ->
                                     Result AlignToolSelection)
    (elems : list A) nearest :
  limited_loop elems body 0 nearest
  = for_each (firstn (Z.to_nat iteration_limit) elems) body nearest.
Proof.
  rewrite limited_loop_from by (unfold iteration_limit; lia).
  rewrite Z.sub_0_r. reflexivity.
Qed.

(** A loop that registers the edges meeting the search box. *)
Lemma for_each_meeting sb loc (h : Edge.t -> AlignToolSelection)
    (edges : list Edge.t) nearest :
  for_each edges
    (fun e n =>
       match Edge_clipped e sb with
       | Some _ => consider_edge_selection sb loc (h e) n
       | None => Ok n
       end) nearest
  = for_each (map h (filter (meets sb) edges))
      (consider_edge_selection sb loc) nearest.
Proof.
  rewrite <- for_each_filter_map. apply for_each_ext.
  intros e s' _. unfold meets. destruct (Edge_clipped e sb); reflexivity.
Qed.

Lemma for_each_map {A B S} (h : A -> B) (f : B -> S -> Result S)
    (l : list A) s :
  for_each l (fun a s' => f (h a) s') s = for_each (map h l) f s.
Proof.
  revert s. induction l as [|a l IH]; intros s; simpl; [reflexivity|].
  destruct (f (h a) s); simpl; auto.
Qed.

Lemma bind_ret {A} (r : Result A) : (a <- r ;; Ok a) = r.
Proof. destruct r; reflexivity. Qed.

Lemma for_each_snoc {A S} (l : list A) (f : A -> S -> Result S) a s :
  for_each (l ++ [a]) f s = (s' <- for_each l f s ;; f a s').
Proof.
  rewrite for_each_app. destruct (for_each l f s); simpl; [|reflexivity].
  apply bind_ret.
Qed.

(** Each body registers the candidates of its position, in order. *)
Lemma instance_body_registrations view sb loc it nearest :
  instance_body view sb loc it nearest
  = for_each (instance_registrations_at view sb loc it)
      (consider_edge_selection sb loc) nearest.
Proof.
  unfold instance_body, instance_registrations_at.
  destruct (negb _); [|reflexivity].
  rewrite for_each_snoc, for_each_meeting. reflexivity.
Qed.

Lemma shape_body_registrations sb loc lyr it nearest :
  shape_body sb loc lyr it nearest
  = for_each (shape_registrations_at sb loc lyr it)
      (consider_edge_selection sb loc) nearest.
Proof.
  unfold shape_body, shape_registrations_at.
  destruct (polygon (iter_shape it)) as [pg|]; [|reflexivity].
  rewrite for_each_snoc, <- for_each_map. reflexivity.
Qed.

Lemma annotation_body_registrations sb loc a nearest :
  annotation_body sb loc a nearest
  = for_each (annotation_registrations_at sb loc a)
      (consider_edge_selection sb loc) nearest.
Proof.
  unfold annotation_body, annotation_registrations_at.
  destruct (outline a); cbn [for_each bind];
    try (rewrite <- for_each_filter_map; reflexivity).
  rewrite for_each_meeting. apply bind_ret.
Qed.

Lemma instance_pass_registrations view sb loc nearest :
  instance_pass view sb loc nearest
  = for_each (instance_registrations view sb loc)
      (consider_edge_selection sb loc) nearest.
Proof.
  unfold instance_pass, instance_registrations.
  destruct (max_hier_levels view >=? 1); [|reflexivity].
  rewrite limited_loop_firstn, <- for_each_flat_map.
  apply for_each_ext. intros it s' _. apply instance_body_registrations.
Qed.

Lemma shape_pass_registrations view sb loc nearest :
  shape_pass view sb loc nearest
  = for_each (shape_registrations view sb loc)
      (consider_edge_selection sb loc) nearest.
Proof.
  unfold shape_pass, shape_registrations.
  destruct (max_hier_levels view >=? 1); [|reflexivity].
  rewrite <- for_each_flat_map.
  apply for_each_ext. intros lyr s' _.
  rewrite limited_loop_firstn, <- for_each_flat_map.
  apply for_each_ext. intros it s'' _. apply shape_body_registrations.
Qed.

Lemma annotation_pass_registrations view sb loc rulers nearest :
  annotation_pass view sb loc rulers nearest
  = for_each (annotation_registrations view sb loc rulers)
      (consider_edge_selection sb loc) nearest.
Proof.
  unfold annotation_pass, annotation_registrations.
  destruct rulers; [|reflexivity].
  rewrite <- for_each_flat_map.
  apply for_each_ext. intros a s' _. apply annotation_body_registrations.
Qed.

(** The scan is the fold of [consider_edge_selection] over the candidates
    in the order of their registration. *)
Lemma scan_registrations view sb loc rulers :
  scan view sb loc rulers
  = for_each (registrations view sb loc rulers)
      (consider_edge_selection sb loc) (no_selection loc sb).
Proof.
  unfold scan, registrations.
  rewrite for_each_app, instance_pass_registrations.
  destruct (for_each _ _ (no_selection loc sb)) as [n|e]; simpl;
    [|reflexivity].
  rewrite for_each_app, shape_pass_registrations.
  destruct (for_each _ _ n) as [n'|e]; simpl; [|reflexivity].
  apply annotation_pass_registrations.
Qed.

(** *** One registration *)

Lemma clip_distance_edge sb loc s d :
  clip_distance sb loc s = Some d ->
  exists e i, edge s = Some e /\ Edge_clipped e sb = Some i
              /\ d = Edge_distance_abs i loc.
Proof.
  unfold clip_distance. destruct (edge s) as [e|]; [|discriminate].
  destruct (Edge_clipped e sb) as [i|] eqn:E; [|discriminate].
  intros H; inversion H. exists e, i. auto.
Qed.

(** What one call does, by the clip distances of the two selections. *)
Lemma consider_edge_selection_cases sb loc sel n n' :
  consider_edge_selection sb loc sel n = Ok n' ->
  (clip_distance sb loc sel = None /\ n' = n)
  \/ (exists d, clip_distance sb loc sel = Some d
        /\ ((edge n = None /\ n' = sel)
            \/ exists d0, clip_distance sb loc n = Some d0
                 /\ ((d < d0 /\ n' = sel) \/ (d0 <= d /\ n' = n)))).
Proof.
  unfold consider_edge_selection, clip_distance.
  destruct (edge sel) as [e|]; [|discriminate].
  destruct (Edge_clipped e sb) as [i|].
  - destruct (edge n) as [ne|].
    + destruct (Edge_clipped ne sb) as [oi|]; [|discriminate].
      destruct (Z.ltb_spec (Edge_distance_abs i loc)
                           (Edge_distance_abs oi loc)) as [L|L];
        intros H; inversion H; subst; right; eexists; split;
          try reflexivity; right; eexists; split; try reflexivity;
          [left | right]; auto.
    + intros H; inversion H; subst. right; eexists; split; eauto.
  - intros H; inversion H; subst. left; auto.
Qed.

(** A call does not raise when the candidate has an edge and the current
    best, if there is one, has a clip. *)
Lemma consider_edge_selection_total sb loc sel n :
  edge sel <> None ->
  (edge n = None \/ clip_distance sb loc n <> None) ->
  exists n', consider_edge_selection sb loc sel n = Ok n'
             /\ (edge n' = None \/ clip_distance sb loc n' <> None).
Proof.
  intros Hsel Hn. unfold consider_edge_selection.
  destruct (edge sel) as [e|] eqn:Ee; [|congruence].
  destruct (Edge_clipped e sb) as [i|] eqn:Ec; [|eauto].
  assert (Hs : clip_distance sb loc sel <> None).
  { unfold clip_distance. rewrite Ee, Ec. discriminate. }
  destruct (edge n) as [ne|] eqn:En; [|eauto].
  destruct Hn as [Hn|Hn]; [discriminate|].
  unfold clip_distance in Hn. rewrite En in Hn.
  destruct (Edge_clipped ne sb) as [oi|] eqn:Eo; [|congruence].
  destruct (_ <? _); eexists; split; try reflexivity; right; auto.
  unfold clip_distance. rewrite En, Eo. discriminate.
Qed.

(** *** The fold over the candidates: the first of the nearest wins *)

Lemma for_each_consider_total sb loc cs n :
  Forall (fun c => edge c <> None) cs ->
  (edge n = None \/ clip_distance sb loc n <> None) ->
  exists n', for_each cs (consider_edge_selection sb loc) n = Ok n'
             /\ (edge n' = None \/ clip_distance sb loc n' <> None).
Proof.
  intros Hcs. revert n. induction Hcs as [|c cs Hc _ IH]; intros n Hn.
  - simpl. eauto.
  - destruct (consider_edge_selection_total sb loc c n Hc Hn)
      as (n1 & E1 & H1).
    simpl. rewrite E1. simpl. apply IH, H1.
Qed.

Lemma for_each_consider_first_min sb loc cs n0 n :
  for_each cs (consider_edge_selection sb loc) n0 = Ok n ->
  (n = n0
   /\ forall c d, In c cs -> clip_distance sb loc c = Some d ->
        exists d0, clip_distance sb loc n0 = Some d0 /\ d0 <= d)
  \/ (exists earlier later dn,
        cs = earlier ++ n :: later
        /\ clip_distance sb loc n = Some dn
        /\ (edge n0 = None
            \/ exists d0, clip_distance sb loc n0 = Some d0 /\ dn < d0)
        /\ (forall c d, In c earlier ->
              clip_distance sb loc c = Some d -> dn < d)
        /\ (forall c d, In c later ->
              clip_distance sb loc c = Some d -> dn <= d)).
Proof.
  revert n0. induction cs as [|c cs IH]; intros n0 H.
  - simpl in H. inversion H; subst. left. split; [reflexivity|].
    intros c d [].
  - simpl in H. apply bind_Ok in H. destruct H as (n1 & E1 & H).
    apply consider_edge_selection_cases in E1.
    specialize (IH n1 H). clear H.
    destruct E1 as [[Hc ->] | (dc & Hc & [[Hn0 ->] | (d0 & Hd0 & Hcmp)])].
    + (* the clip of [c] is empty: [c] is skipped *)
      destruct IH as [[-> IH] | (l1 & l2 & dn & -> & Hn & Hb & H1 & H2)].
      * left. split; [reflexivity|]. intros c' d [<-|Hin] Hd;
          [congruence | eauto].
      * right. exists (c :: l1), l2, dn.
        split; [reflexivity|]. split; [assumption|]. split; [assumption|].
        split; [|assumption].
        intros c' d [<-|Hin] Hd; [congruence | eauto].
    + (* no best yet: [c] is installed *)
      destruct IH as [[-> IH] | (l1 & l2 & dn & -> & Hn & Hb & H1 & H2)].
      * right. exists [], cs, dc.
        split; [reflexivity|]. split; [assumption|]. split; [left; assumption|].
        split; [intros c' d []|].
        intros c' d Hin Hd. destruct (IH c' d Hin Hd) as (d' & E & L).
        congruence.
      * assert (Hdn : dn < dc).
        { destruct Hb as [Hb | (d' & E & L')]; [|congruence].
          apply clip_distance_edge in Hc.
          destruct Hc as (e & i & E & _). congruence. }
        right. exists (c :: l1), l2, dn.
        split; [reflexivity|]. split; [assumption|]. split; [left; assumption|].
        split; [|assumption].
        intros c' d [<-|Hin] Hd; [congruence | eauto].
    + destruct Hcmp as [[L ->] | [L ->]].
      * (* [c] is strictly nearer: [c] is installed *)
        destruct IH as [[-> IH] | (l1 & l2 & dn & -> & Hn & Hb & H1 & H2)].
        -- right. exists [], cs, dc.
           split; [reflexivity|]. split; [assumption|].
           split; [right; exists d0; auto|].
           split; [intros c' d []|].
           intros c' d Hin Hd. destruct (IH c' d Hin Hd) as (d' & E & L').
           congruence.
        -- assert (Hdn : dn < dc).
           { destruct Hb as [Hb | (d' & E & L')]; [|congruence].
             apply clip_distance_edge in Hc.
             destruct Hc as (e & i & E & _). congruence. }
           right. exists (c :: l1), l2, dn.
           split; [reflexivity|]. split; [assumption|].
           split; [right; exists d0; split; [assumption | lia]|].
           split; [|assumption].
           intros c' d [<-|Hin] Hd; [congruence | eauto].
      * (* [c] is not strictly nearer: the best stays *)
        destruct IH as [[-> IH] | (l1 & l2 & dn & -> & Hn & Hb & H1 & H2)].
        -- left. split; [reflexivity|]. intros c' d [<-|Hin] Hd; [|eauto].
           exists d0. split; [assumption | congruence].
        -- assert (Hdn : dn < d0).
           { destruct Hb as [Hb | (d' & E & L')]; [|congruence].
             apply clip_distance_edge in Hd0.
             destruct Hd0 as (e & i & E & _). congruence. }
           right. exists (c :: l1), l2, dn.
           split; [reflexivity|]. split; [assumption|].
           split; [right; exists d0; auto|].
           split; [|assumption].
           intros c' d [<-|Hin] Hd; [|eauto].
           assert (d = dc) by congruence. lia.
Qed.

(** *** The candidates are well formed *)

Lemma registrations_well_formed view sb loc rulers :
  Forall (well_formed_candidate sb loc) (registrations view sb loc rulers).
Proof.
  unfold registrations. rewrite !Forall_app. repeat split.
  - unfold instance_registrations.
    destruct (max_hier_levels view >=? 1); [|constructor].
    apply Forall_flat_map, Forall_forall. intros it _.
    unfold instance_registrations_at. destruct (negb _); [|constructor].
    apply Forall_app. split.
    + apply Forall_map, Forall_forall. intros e _.
      repeat split.
    + repeat constructor.
  - unfold shape_registrations.
    destruct (max_hier_levels view >=? 1); [|constructor].
    apply Forall_flat_map, Forall_forall. intros lyr _.
    apply Forall_flat_map, Forall_forall. intros it _.
    unfold shape_registrations_at.
    destruct (polygon (iter_shape it)); [|constructor].
    apply Forall_app. split.
    + apply Forall_map, Forall_forall. intros e _. repeat split.
    + repeat constructor.
  - unfold annotation_registrations. destruct rulers; [|constructor].
    apply Forall_flat_map, Forall_forall. intros a _.
    unfold annotation_registrations_at.
    destruct (outline a); apply Forall_map, Forall_forall; intros x _;
      repeat split.
Qed.

Lemma well_formed_has_edge sb loc c :
  well_formed_candidate sb loc c -> edge c <> None.
Proof.
  intros (_ & _ & H). destruct (edge c); [discriminate | contradiction].
Qed.

(** The scan does not raise. *)
Lemma scan_total view sb loc rulers :
  exists n, scan view sb loc rulers = Ok n
            /\ (edge n = None \/ clip_distance sb loc n <> None).
Proof.
  rewrite scan_registrations. apply for_each_consider_total.
  - eapply Forall_impl; [|apply registrations_well_formed].
    intros c. apply well_formed_has_edge.
  - left. reflexivity.
Qed.

(** The winner of the scan, when there is one: a registered candidate with
    a clip, strictly nearer than every candidate registered before it and at
    least as near as every candidate registered after it. *)
Lemma scan_winner view sb loc rulers n :
  scan view sb loc rulers = Ok n -> edge n <> None ->
  exists earlier later dn,
    registrations view sb loc rulers = earlier ++ n :: later
    /\ clip_distance sb loc n = Some dn
    /\ (forall c d, In c earlier -> clip_distance sb loc c = Some d -> dn < d)
    /\ (forall c d, In c later -> clip_distance sb loc c = Some d -> dn <= d).
Proof.
  rewrite scan_registrations. intros H He.
  apply for_each_consider_first_min in H.
  destruct H as [[-> _] | (l1 & l2 & dn & E & Hn & _ & H1 & H2)].
  - exfalso. apply He. reflexivity.
  - exists l1, l2, dn. auto.
Qed.

(** [find_selection] returns the winner of the scan, with the snap point
    set when the nearest point of its edge is in the search box. *)
Lemma find_selection_Some view loc md rulers f :
  find_selection view loc md rulers = Ok (Some f) ->
  exists n e np,
    scan view (search_box_of loc md) loc rulers = Ok n
    /\ edge n = Some e
    /\ find_nearest_edge_point loc e = Some np
    /\ f = (if Box_contains (search_box_of loc md) np
            then set_snap_point n np else n).
Proof.
  unfold find_selection.
  destruct (is_cell_hidden view _); [discriminate|].
  intros H. apply bind_Ok in H. destruct H as (n & Hn & H).
  unfold finish in H. destruct (edge n) as [e|] eqn:Ee; [|discriminate].
  destruct (find_nearest_edge_point loc e) as [np|] eqn:Enp; [|discriminate].
  exists n, e, np. repeat split; auto.
  destruct (Box_contains _ np); inversion H; reflexivity.
Qed.

(** *** The nearest point of an edge *)

(** The result of [find_nearest_edge_point] is the first of the three points
    whose distance is the least, as soon as one distance is below the
    initial value of [nearest_distance]. *)
Lemma find_nearest_edge_point_cases loc e :
  let dc := point_dist loc (edge_center e) in
  let d1 := point_dist loc (Edge.p1 e) in
  let d2 := point_dist loc (Edge.p2 e) in
  (find_nearest_edge_point loc e = Some (edge_center e)
   /\ dc < nearest_distance_init /\ dc <= d1 /\ dc <= d2)%Q
  \/ (find_nearest_edge_point loc e = Some (Edge.p1 e)
      /\ d1 < nearest_distance_init /\ d1 < dc /\ d1 <= d2)%Q
  \/ (find_nearest_edge_point loc e = Some (Edge.p2 e)
      /\ d2 < nearest_distance_init /\ d2 < dc /\ d2 < d1)%Q
  \/ (find_nearest_edge_point loc e = None
      /\ nearest_distance_init <= dc /\ nearest_distance_init <= d1
      /\ nearest_distance_init <= d2)%Q.
Proof.
  intros dc d1 d2.
  unfold find_nearest_edge_point, edge_points.
  cbn [map combine nearest_loop]. fold dc d1 d2.
  destruct (Qltb dc nearest_distance_init) eqn:Ec.
  - apply Qltb_lt in Ec.
    destruct (Qltb d1 dc) eqn:E1.
    + apply Qltb_lt in E1.
      destruct (Qltb d2 d1) eqn:E2.
      * apply Qltb_lt in E2. right; right; left.
        repeat split; try reflexivity; lra.
      * apply Qltb_ge in E2. right; left.
        repeat split; try reflexivity; lra.
    + apply Qltb_ge in E1.
      destruct (Qltb d2 dc) eqn:E2.
      * apply Qltb_lt in E2. right; right; left.
        repeat split; try reflexivity; lra.
      * apply Qltb_ge in E2. left.
        repeat split; try reflexivity; lra.
  - apply Qltb_ge in Ec.
    destruct (Qltb d1 nearest_distance_init) eqn:E1.
    + apply Qltb_lt in E1.
      destruct (Qltb d2 d1) eqn:E2.
      * apply Qltb_lt in E2. right; right; left.
        repeat split; try reflexivity; lra.
      * apply Qltb_ge in E2. right; left.
        repeat split; try reflexivity; lra.
    + apply Qltb_ge in E1.
      destruct (Qltb d2 nearest_distance_init) eqn:E2.
      * apply Qltb_lt in E2. right; right; left.
        repeat split; try reflexivity; lra.
      * apply Qltb_ge in E2. right; right; right.
        repeat split; try reflexivity; lra.
Qed.

Lemma find_nearest_edge_point_In loc e p :
  find_nearest_edge_point loc e = Some p -> In p (edge_points e).
Proof.
  intros H. unfold edge_points.
  destruct (find_nearest_edge_point_cases loc e)
    as [(E & _) | [(E & _) | [(E & _) | (E & _)]]];
    rewrite E in H; inversion H; subst; simpl; auto.
Qed.

Lemma find_nearest_edge_point_total loc e :
  (forall p, point_dist loc p < nearest_distance_init)%Q ->
  exists p, find_nearest_edge_point loc e = Some p.
Proof.
  intros Hb.
  destruct (find_nearest_edge_point_cases loc e)
    as [(E & _) | [(E & _) | [(E & _) | (_ & L & _)]]]; eauto.
  exfalso. specialize (Hb (edge_center e)). lra.
Qed.

(** The center of a zero-length edge is its point, when an integral float
    is converted to that integer. *)
Lemma edge_center_degenerate m :
  (forall q z, q == inject_Z z -> coord_of_float q = z)%Q ->
  edge_center (Edge.new m m) = m.
Proof.
  intros Hc. destruct m as [mx my].
  unfold edge_center, Point_of_floats, halfway, Edge.x1, Edge.x2, Edge.y1,
    Edge.y2. simpl.
  rewrite !Z.ltb_irrefl, !Z.sub_diag.
  rewrite (Hc _ mx), (Hc _ my); [reflexivity | |];
    unfold Qeq; simpl; ring.
Qed.

End FinderProperties.

(** ** The feature finder *)

Section FinderClaims.

Context {G : PyaGeometry}.

(** [halfway] is the mean of its arguments. *)
Lemma halfway_mean a b :
  (halfway a b == (inject_Z a + inject_Z b) / 2)%Q.
Proof.
  unfold halfway.
  destruct (a <? b); unfold Z.sub; rewrite inject_Z_plus, inject_Z_opp;
    field.
Qed.

(** C3.  [find_nearest_edge_point] compares the distances
    [abs(p.distance(location))] of three points [p], in this order: the
    center of the edge, which is [pya.Point] of the two means of the end
    coordinates, then [p1], then [p2].  As soon as one of the three
    distances is below the initial value 9999999999 of [nearest_distance],
    it returns the first point of least distance: the point returned is
    strictly nearer than the points listed before it and at least as near
    as the points listed after it.  A tie between the center and an end
    point goes to the center when the other end point is not strictly
    nearer; when the other end point is strictly nearer than both, that end
    point is returned, tie or not. *)
Theorem find_nearest_edge_point_first_minimum loc e :
  (exists p, In p [edge_center e; Edge.p1 e; Edge.p2 e]
             /\ Qabs (Point_distance p loc) < 9999999999)%Q ->
  exists qx qy r earlier later,
    (qx == (inject_Z (Edge.x1 e) + inject_Z (Edge.x2 e)) / 2)%Q
    /\ (qy == (inject_Z (Edge.y1 e) + inject_Z (Edge.y2 e)) / 2)%Q
    /\ edge_center e = Point.new (coord_of_float qx) (coord_of_float qy)
    /\ find_nearest_edge_point loc e = Some r
    /\ [edge_center e; Edge.p1 e; Edge.p2 e] = earlier ++ r :: later
    /\ (forall p, In p earlier ->
          Qabs (Point_distance r loc) < Qabs (Point_distance p loc))%Q
    /\ (forall p, In p later ->
          Qabs (Point_distance r loc) <= Qabs (Point_distance p loc))%Q
    /\ (forall q q',
          (q = Edge.p1 e /\ q' = Edge.p2 e)
          \/ (q = Edge.p2 e /\ q' = Edge.p1 e) ->
          (Qabs (Point_distance (edge_center e) loc)
           == Qabs (Point_distance q loc))%Q ->
          (Qabs (Point_distance (edge_center e) loc)
           <= Qabs (Point_distance q' loc))%Q ->
          r = edge_center e)
    /\ ((Qabs (Point_distance (Edge.p2 e) loc)
         < Qabs (Point_distance (edge_center e) loc))%Q ->
        (Qabs (Point_distance (Edge.p2 e) loc)
         < Qabs (Point_distance (Edge.p1 e) loc))%Q ->
        r = Edge.p2 e)
    /\ ((Qabs (Point_distance (Edge.p1 e) loc)
         < Qabs (Point_distance (edge_center e) loc))%Q ->
        (Qabs (Point_distance (Edge.p1 e) loc)
         <= Qabs (Point_distance (Edge.p2 e) loc))%Q ->
        r = Edge.p1 e).
Proof.
  intros (p & Hin & Hp).
  exists (halfway (Edge.x1 e) (Edge.x2 e)), (halfway (Edge.y1 e) (Edge.y2 e)).
  pose proof (find_nearest_edge_point_cases loc e) as Hc.
  unfold point_dist, nearest_distance_init in Hc. cbv zeta in Hc.
  destruct Hc
    as [(E & L0 & L1 & L2) | [(E & L0 & L1 & L2) | [(E & L0 & L1 & L2)
       | (E & L0 & L1 & L2)]]].
  - exists (edge_center e), [], [Edge.p1 e; Edge.p2 e].
    split; [apply halfway_mean|]. split; [apply halfway_mean|].
    split; [reflexivity|].
    split; [exact E|]. split; [reflexivity|]. split; [intros q []|].
    split; [intros q [<-|[<-|[]]]; assumption|].
    split; [reflexivity|].
    split; intros A B; exfalso; lra.
  - exists (Edge.p1 e), [edge_center e], [Edge.p2 e].
    split; [apply halfway_mean|]. split; [apply halfway_mean|].
    split; [reflexivity|].
    split; [exact E|]. split; [reflexivity|].
    split; [intros q [<-|[]]; assumption|].
    split; [intros q [<-|[]]; assumption|].
    split; [|split].
    + intros q q' [[-> ->]|[-> ->]] A B; exfalso; lra.
    + intros A B. exfalso. lra.
    + reflexivity.
  - exists (Edge.p2 e), [edge_center e; Edge.p1 e], [].
    split; [apply halfway_mean|]. split; [apply halfway_mean|].
    split; [reflexivity|].
    split; [exact E|]. split; [reflexivity|].
    split; [intros q [<-|[<-|[]]]; assumption|].
    split; [intros q []|].
    split; [|split].
    + intros q q' [[-> ->]|[-> ->]] A B; exfalso; lra.
    + reflexivity.
    + intros A B. exfalso. lra.
  - exfalso. destruct Hin as [<-|[<-|[<-|[]]]]; lra.
Qed.

(** C10.  A feature returned by [find_selection] has an edge, and the clip
    of that edge against the search box of the feature is not empty.  One
    call of [consider_edge_selection] keeps this: when the current best is
    the initial one or has a clip, so is or has the next best. *)
Theorem find_selection_edge_has_clip view loc md rulers f sel n n' :
  find_selection view loc md rulers = Ok (Some f) ->
  consider_edge_selection (search_box_of loc md) loc sel n = Ok n' ->
  (edge n = None \/ clip_distance (search_box_of loc md) loc n <> None) ->
  (exists e i, edge f = Some e /\ Edge_clipped e (search_box f) = Some i)
  /\ (edge n' = None
      \/ clip_distance (search_box_of loc md) loc n' <> None).
Proof.
  intros Hf Hstep Hn. split.
  - apply find_selection_Some in Hf.
    destruct Hf as (w & e & np & Hscan & He & _ & ->).
    assert (Hne : edge w <> None) by congruence.
    destruct (scan_winner _ _ _ _ _ Hscan Hne)
      as (l1 & l2 & dn & Hreg & Hdn & _).
    assert (Hwf : well_formed_candidate (search_box_of loc md) loc w).
    { pose proof (registrations_well_formed view (search_box_of loc md)
                    loc rulers) as F.
      rewrite Forall_forall in F. apply F. rewrite Hreg.
      apply in_or_app. right. left. reflexivity. }
    destruct Hwf as (_ & Hsb & _).
    apply clip_distance_edge in Hdn. destruct Hdn as (e' & i & He' & Hi & _).
    assert (e' = e) by congruence. subst e'.
    exists e, i.
    destruct (Box_contains _ np); simpl; rewrite Hsb; auto.
  - apply consider_edge_selection_cases in Hstep.
    destruct Hstep as [[_ ->] | (d & Hd & [[_ ->] | (d0 & Hd0 & [[_ ->]
                       | [_ ->]])])]; auto; right; congruence.
Qed.

(** C2.  The snap point of a feature returned by [find_selection], when
    there is one, is inside the search box of the feature; and when the
    nearest point of the edge of the feature is outside the search box the
    feature has no snap point.  The interface is used by two of its laws: a
    zero-length edge has a clip only when its point is in the box, and an
    integral float is converted to that integer. *)
Theorem find_selection_snap_point_in_search_box view loc md rulers f :
  (forall p b, Edge_clipped (Edge.new p p) b <> None ->
               Box_contains b p = true) ->
  (forall q z, q == inject_Z z -> coord_of_float q = z)%Q ->
  find_selection view loc md rulers = Ok (Some f) ->
  (forall p, snap_point f = Some p -> Box_contains (search_box f) p = true)
  /\ (forall e np, edge f = Some e ->
        find_nearest_edge_point loc e = Some np ->
        Box_contains (search_box f) np = false ->
        snap_point f = None).
Proof.
  intros Hclip Hcoord Hf.
  apply find_selection_Some in Hf.
  destruct Hf as (w & e & np & Hscan & He & Hnp & ->).
  assert (Hne : edge w <> None) by congruence.
  destruct (scan_winner _ _ _ _ _ Hscan Hne)
    as (l1 & l2 & dn & Hreg & Hdn & _).
  assert (Hwf : well_formed_candidate (search_box_of loc md) loc w).
  { pose proof (registrations_well_formed view (search_box_of loc md)
                  loc rulers) as F.
    rewrite Forall_forall in F. apply F. rewrite Hreg.
    apply in_or_app. right. left. reflexivity. }
  destruct Hwf as (_ & Hsb & Hshape). rewrite He in Hshape.
  apply clip_distance_edge in Hdn. destruct Hdn as (e' & i & He' & Hi & _).
  assert (e' = e) by congruence. subst e'.
  (* a snap point set at construction is in the search box *)
  assert (Hpre : forall m, snap_point w = Some m ->
                   np = m /\ Box_contains (search_box_of loc md) m = true).
  { intros m Hm. rewrite Hm in Hshape. subst e. split.
    - apply find_nearest_edge_point_In in Hnp. unfold edge_points in Hnp.
      rewrite (edge_center_degenerate m Hcoord) in Hnp. simpl in Hnp.
      destruct Hnp as [<-|[<-|[<-|[]]]]; reflexivity.
    - apply Hclip. congruence. }
  destruct (Box_contains (search_box_of loc md) np) eqn:Ein.
  - split.
    + simpl. rewrite Hsb. intros p Hp. inversion Hp; subst. exact Ein.
    + simpl. rewrite Hsb. intros e2 np2 He2 Hnp2 Hout.
      assert (e2 = e) by congruence. subst e2.
      assert (np2 = np) by congruence. subst np2. congruence.
  - split.
    + rewrite Hsb. intros p Hp. apply (Hpre p Hp).
    + intros e2 np2 He2 Hnp2 Hout.
      destruct (snap_point w) as [m|] eqn:Em; [|reflexivity].
      destruct (Hpre m eq_refl) as [-> Hm]. congruence.
Qed.

(** C1, as amended.  [consider_edge_selection] ignores a candidate whose
    edge has no clip against the search box; a candidate with a clip
    replaces the current best when there is no best yet or when its clip is
    strictly nearer to the location than the clip of the current best, and
    in no other case.  So the feature that [find_selection] returns is, up to
    its snap point, the first registered of the candidates of least clip
    distance: strictly nearer than every candidate registered before it, at
    least as near as every candidate registered after it, the instances
    being registered before the shapes and these before the rulers. *)
Theorem first_nearest_candidate_is_returned view loc md rulers f sel n :
  find_selection view loc md rulers = Ok (Some f) ->
  edge sel <> None ->
  (edge n = None \/ clip_distance (search_box_of loc md) loc n <> None) ->
  let sb := search_box_of loc md in
  (exists n', consider_edge_selection sb loc sel n = Ok n'
     /\ match clip_distance sb loc sel with
        | None => n' = n
        | Some d =>
            match edge n, clip_distance sb loc n with
            | None, _ => n' = sel
            | Some _, Some d0 => n' = if d <? d0 then sel else n
            | Some _, None => False
            end
        end)
  /\ (exists earlier c later dc,
        registrations view sb loc rulers = earlier ++ c :: later
        /\ registrations view sb loc rulers
           = instance_registrations view sb loc
             ++ shape_registrations view sb loc
             ++ annotation_registrations view sb loc rulers
        /\ (f = c \/ exists p, f = set_snap_point c p)
        /\ clip_distance sb loc c = Some dc
        /\ (forall c' d, In c' earlier ->
              clip_distance sb loc c' = Some d -> dc < d)
        /\ (forall c' d, In c' later ->
              clip_distance sb loc c' = Some d -> dc <= d)).
Proof.
  intros Hf Hsel Hn sb. split.
  - destruct (consider_edge_selection_total sb loc sel n Hsel Hn)
      as (n' & E & _).
    exists n'. split; [exact E|].
    apply consider_edge_selection_cases in E.
    destruct E as [[-> ->] | (d & -> & [[-> ->] | (d0 & Hd0 & Hcmp)])];
      try reflexivity.
    rewrite Hd0.
    apply clip_distance_edge in Hd0. destruct Hd0 as (e0 & i0 & -> & _).
    destruct Hcmp as [[L ->] | [L ->]].
    + apply Z.ltb_lt in L. rewrite L. reflexivity.
    + apply Z.ltb_ge in L. rewrite L. reflexivity.
  - apply find_selection_Some in Hf.
    destruct Hf as (w & e & np & Hscan & He & _ & ->).
    assert (Hne : edge w <> None) by congruence.
    destruct (scan_winner _ _ _ _ _ Hscan Hne)
      as (l1 & l2 & dn & Hreg & Hdn & H1 & H2).
    exists l1, w, l2, dn.
    split; [exact Hreg|]. split; [reflexivity|].
    split; [|auto].
    destruct (Box_contains _ np); [right; eauto | left; reflexivity].
Qed.

(** C8.  Each capped loop visits the first 1000 positions of its iterator
    and no other, whatever the number of positions, and each has a count of
    its own, started at 0: the instance pass is the plain loop over the
    first 1000 positions of the instance iterator, and the shape pass is,
    for each visible layer in turn, the plain loop over the first 1000
    positions of the shape iterator of this layer, whatever the number of
    positions visited before on other layers or in the instance pass.  So
    the final candidate is the one of the candidates registered at these
    positions and at the rulers, a query gives what it gives on the view
    whose iterators stop after 1000 positions, and it does not raise: it
    returns a feature or none, as long as the distances to the location are
    below the initial value of [nearest_distance]. *)
Theorem iteration_cap_truncates_each_pass view loc md rulers :
  (forall p, point_dist loc p < nearest_distance_init)%Q ->
  let sb := search_box_of loc md in
  let lo := Z.max (min_hier_levels view - 1) 0 in
  let hi := Z.max (max_hier_levels view - 1) 0 in
  let insts :=
    firstn 1000 (begin_instances_rec_overlapping (cell view) sb lo hi) in
  let shapes (lyr : Z) :=
    firstn 1000 (begin_shapes_rec_overlapping (cell view) lyr sb lo hi) in
  (forall (A : Type) (body : A -> AlignToolSelection ->
                            Result AlignToolSelection) elems nearest,
     limited_loop elems body 0 nearest
     = for_each (firstn 1000 elems) body nearest)
  /\ (forall nearest,
        instance_pass view sb loc nearest
        = if max_hier_levels view >=? 1
          then for_each insts (instance_body view sb loc) nearest
          else Ok nearest)
  /\ (forall nearest,
        shape_pass view sb loc nearest
        = if max_hier_levels view >=? 1
          then for_each (visible_layer_indexes view)
                 (fun lyr nearest =>
                    for_each (shapes lyr) (shape_body sb loc lyr) nearest)
                 nearest
          else Ok nearest)
  /\ scan view sb loc rulers
     = for_each
         ((if max_hier_levels view >=? 1
           then flat_map (instance_registrations_at view sb loc) insts
           else [])
          ++ (if max_hier_levels view >=? 1
              then flat_map
                     (fun lyr =>
                        flat_map (shape_registrations_at sb loc lyr)
                          (shapes lyr))
                     (visible_layer_indexes view)
              else [])
          ++ annotation_registrations view sb loc rulers)
         (consider_edge_selection sb loc) (no_selection loc sb)
  /\ (forall nearest,
        instance_pass view sb loc nearest
        = instance_pass (truncate_view view) sb loc nearest)
  /\ (forall nearest,
        shape_pass view sb loc nearest
        = shape_pass (truncate_view view) sb loc nearest)
  /\ find_selection view loc md rulers
     = find_selection (truncate_view view) loc md rulers
  /\ exists r, find_selection view loc md rulers = Ok r.
Proof.
  intros Hb sb lo hi insts shapes.
  assert (Hi : forall nearest,
             instance_pass view sb loc nearest
             = instance_pass (truncate_view view) sb loc nearest).
  { intros nearest. unfold instance_pass, truncate_view, truncate_cell.
    cbn [cell max_hier_levels min_hier_levels
         begin_instances_rec_overlapping].
    destruct (max_hier_levels view >=? 1); [|reflexivity].
    rewrite !limited_loop_firstn, firstn_firstn, Nat.min_id. reflexivity. }
  assert (Hs : forall nearest,
             shape_pass view sb loc nearest
             = shape_pass (truncate_view view) sb loc nearest).
  { intros nearest. unfold shape_pass, visible_layer_indexes, truncate_view,
      truncate_cell.
    cbn [cell max_hier_levels min_hier_levels each_layer
         begin_shapes_rec_overlapping].
    destruct (max_hier_levels view >=? 1); [|reflexivity].
    apply for_each_ext. intros lyr s' _.
    rewrite !limited_loop_firstn, firstn_firstn, Nat.min_id. reflexivity. }
  split; [intros; apply limited_loop_firstn|].
  split.
  { intros nearest. unfold instance_pass.
    destruct (max_hier_levels view >=? 1); [|reflexivity].
    apply limited_loop_firstn. }
  split.
  { intros nearest. unfold shape_pass.
    destruct (max_hier_levels view >=? 1); [|reflexivity].
    apply for_each_ext. intros lyr s' _. apply limited_loop_firstn. }
  split; [exact (scan_registrations view sb loc rulers)|].
  split; [exact Hi|]. split; [exact Hs|]. split.
  - unfold find_selection. fold sb.
    change (is_cell_hidden (truncate_view view)
              (cell_index (cell (truncate_view view))))
      with (is_cell_hidden view (cell_index (cell view))).
    destruct (is_cell_hidden view _); [reflexivity|].
    unfold scan. rewrite Hi.
    destruct (instance_pass _ _ _ _) as [n1|]; simpl; [|reflexivity].
    rewrite Hs. reflexivity.
  - unfold find_selection. fold sb.
    destruct (is_cell_hidden view _); [eauto|].
    destruct (scan_total view sb loc rulers) as (n & -> & _). simpl.
    unfold finish. destruct (edge n) as [e|]; [|eauto].
    destruct (find_nearest_edge_point_total loc e Hb) as (p & ->).
    destruct (Box_contains sb p); eauto.
Qed.

End FinderClaims.

(** ** The alignment resolver *)

(** [py_round] gives a nearest integer. *)
Lemma py_round_nearest q : (Qabs (q - inject_Z (py_round q)) <= 1 # 2)%Q.
Proof.
  unfold py_round.
  pose proof (Qfloor_le q) as Hlo. pose proof (Qlt_floor q) as Hhi.
  rewrite inject_Z_plus in Hhi. change (inject_Z 1) with 1%Q in Hhi.
  apply Qabs_Qle_condition.
  destruct (q - inject_Z (Qfloor q) ?= 1 # 2)%Q eqn:E.
  - apply Qeq_alt in E.
    destruct (Z.even (Qfloor q));
      [|rewrite inject_Z_plus; change (inject_Z 1) with 1%Q]; lra.
  - apply Qlt_alt in E. lra.
  - apply Qgt_alt in E. rewrite inject_Z_plus.
    change (inject_Z 1) with 1%Q. lra.
Qed.

(** Of the two nearest integers of a tie, [py_round] gives the even one. *)
Lemma py_round_tie_even q :
  (q - inject_Z (Qfloor q) == 1 # 2)%Q -> Z.even (py_round q) = true.
Proof.
  intros H. unfold py_round. apply Qeq_alt in H. rewrite H.
  destruct (Z.even (Qfloor q)) eqn:E; [exact E|].
  rewrite Z.even_add, E. reflexivity.
Qed.

Lemma snap_to_grid_0 grid_dbu : snap_to_grid 0 grid_dbu = 0.
Proof.
  unfold snap_to_grid, py_round.
  destruct grid_dbu; reflexivity.
Qed.

(** The loop over the transformees transforms each of them when each has a
    [transform] method; otherwise it transforms those before the first one
    that has none. *)
Lemma transform_all_calls ts trans :
  exists applied,
    fst (transform_all ts trans) = map (fun t => Transform t trans) applied
    /\ (forallb transformable ts = true ->
        applied = ts /\ snd (transform_all ts trans) = Ok tt)
    /\ (snd (transform_all ts trans) = Ok tt -> applied = ts).
Proof.
  induction ts as [|t ts (applied & Hcalls & Hall & Hok)].
  - exists []. simpl. auto.
  - cbn [transform_all forallb].
    destruct (transform_all ts trans) as [calls r] eqn:E.
    destruct t; cbn [transformable andb fst snd] in *.
    + exists (PyInstance i :: applied). simpl. rewrite Hcalls.
      split; [reflexivity|]. split.
      * intros H. destruct (Hall H) as [-> ->]. auto.
      * intros H. rewrite (Hok H). reflexivity.
    + exists (PyShape sh :: applied). simpl. rewrite Hcalls.
      split; [reflexivity|]. split.
      * intros H. destruct (Hall H) as [-> ->]. auto.
      * intros H. rewrite (Hok H). reflexivity.
    + exists []. simpl. repeat split; discriminate.
    + exists []. simpl. repeat split; discriminate.
Qed.

Lemma transformed_objects_app c1 c2 :
  transformed_objects (c1 ++ c2)
  = transformed_objects c1 ++ transformed_objects c2.
Proof.
  induction c1 as [|c c1 IH]; simpl; [reflexivity|].
  destruct c; simpl; rewrite ?IH; reflexivity.
Qed.

Lemma transformed_objects_map ts trans :
  transformed_objects (map (fun t => Transform t trans) ts) = ts.
Proof. induction ts; simpl; congruence. Qed.

Section ResolverClaims.

Context {G : PyaGeometry}.

(** The calls of [commit_align] once an offset is found and the grid is not
    0: the transaction, the transformations by the snapped offset, the
    commit and the cancellation. *)
Lemma commit_align_offset self grid_dbu selection1 selection2 dx dy :
  offset_of selection1 selection2 = Ok (Some (dx, dy)) ->
  grid_dbu <> 0 ->
  let trans := {| trans_dx := snap_to_grid dx grid_dbu;
                  trans_dy := snap_to_grid dy grid_dbu |} in
  let in_range := coord_in_range (snap_to_grid dx grid_dbu)
                  && coord_in_range (snap_to_grid dy grid_dbu) in
  exists applied,
    fst (commit_align self grid_dbu selection1 selection2)
    = [Transaction "align"] ++ map (fun t => Transform t trans) applied
      ++ [Commit; SendEscapeKey]
    /\ (in_range = true ->
        forallb transformable (transformees_of self selection1) = true ->
        applied = transformees_of self selection1
        /\ snd (commit_align self grid_dbu selection1 selection2) = Ok tt)
    /\ (snd (commit_align self grid_dbu selection1 selection2) = Ok tt ->
        applied = transformees_of self selection1)
    /\ (in_range = false ->
        applied = []
        /\ snd (commit_align self grid_dbu selection1 selection2)
           = Raise TypeError).
Proof.
  intros Ho Hg trans in_range. unfold commit_align. rewrite Ho.
  apply Z.eqb_neq in Hg. rewrite Hg. unfold Trans_new. fold in_range.
  destruct in_range.
  - fold trans.
    destruct (transform_all_calls (transformees_of self selection1) trans)
      as (applied & Hcalls & Hall & Hok).
    destruct (transform_all _ trans) as [calls r]. simpl in *.
    exists applied. rewrite Hcalls.
    split; [reflexivity|]. split; [auto|]. split; [auto | discriminate].
  - exists []. simpl.
    split; [reflexivity|]. split; [discriminate|].
    split; [discriminate | auto].
Qed.

Lemma In_commit_align_transform self grid_dbu selection1 selection2 dx dy
    t tr :
  offset_of selection1 selection2 = Ok (Some (dx, dy)) ->
  grid_dbu <> 0 ->
  In (Transform t tr)
     (fst (commit_align self grid_dbu selection1 selection2)) ->
  tr = {| trans_dx := snap_to_grid dx grid_dbu;
          trans_dy := snap_to_grid dy grid_dbu |}.
Proof.
  intros Ho Hg Hin.
  destruct (commit_align_offset self grid_dbu _ _ _ _ Ho Hg)
    as (applied & E & _).
  rewrite E in Hin. simpl in Hin.
  destruct Hin as [Hin|Hin]; [discriminate|].
  apply in_app_or in Hin. destruct Hin as [Hin|Hin].
  - apply in_map_iff in Hin. destruct Hin as (t' & Ht & _).
    inversion Ht. reflexivity.
  - simpl in Hin. destruct Hin as [Hin|[Hin|[]]]; discriminate.
Qed.

(** C4, as amended.  When both selections are edge-like and their edges are
    not parallel, [commit_align] requests the warning dialog and cancels the
    session, and this is all it does: no object is transformed, and since the
    early return comes before the transaction is begun, no transaction is
    begun and none is committed on this path. *)
Theorem nonparallel_edges_abort_before_transaction
    self grid_dbu selection1 selection2 edge1 edge2 :
  snap_point selection1 = None -> snap_point selection2 = None ->
  edge selection1 = Some edge1 -> edge selection2 = Some edge2 ->
  Edge_is_parallel edge1 edge2 = false ->
  let calls := fst (commit_align self grid_dbu selection1 selection2) in
  commit_align self grid_dbu selection1 selection2
  = ([MessageBoxWarning "Unsupported use case"
        "Aligning non-parallel edges is not yet supported.";
      SendEscapeKey], Ok tt)
  /\ transformed_objects calls = []
  /\ (forall name, ~ In (Transaction name) calls)
  /\ ~ In Commit calls.
Proof.
  intros H1 H2 He1 He2 Hp calls.
  assert (E : commit_align self grid_dbu selection1 selection2
              = ([MessageBoxWarning "Unsupported use case"
                    "Aligning non-parallel edges is not yet supported.";
                  SendEscapeKey], Ok tt)).
  { unfold commit_align, offset_of. rewrite H1, H2, He1, He2, Hp.
    reflexivity. }
  subst calls. rewrite E. simpl. repeat split; [| ]; intros;
    intuition discriminate.
Qed.

(** C5.  A pre-selection that is not empty is the list of the transformees,
    whatever the selections; with an empty pre-selection the source
    selection decides: with an empty path its instance when it is the
    bounding box of one and its shape otherwise, with a path the instance of
    the first step of the path.  These are the objects that [commit_align]
    transforms when it runs its transaction to the end. *)
Theorem transformees_precedence
    self grid_dbu selection1 selection2 calls :
  commit_align self grid_dbu selection1 selection2 = (calls, Ok tt) ->
  In (Transaction "align") calls ->
  transformed_objects calls = transformees_of self selection1
  /\ (pre_selected_objects self <> [] ->
      transformees_of self selection1 = pre_selected_objects self)
  /\ (pre_selected_objects self = [] -> path selection1 = [] ->
      bbox_of_instance selection1 = None ->
      transformees_of self selection1
      = [object_of_shape (shape selection1)])
  /\ (forall inst1, pre_selected_objects self = [] ->
      path selection1 = [] -> bbox_of_instance selection1 = Some inst1 ->
      transformees_of self selection1 = [PyInstance inst1])
  /\ (forall p0 rest, pre_selected_objects self = [] ->
      path selection1 = p0 :: rest ->
      transformees_of self selection1 = [PyInstance (inst p0)]).
Proof.
  intros Hc Hin. split.
  - destruct (offset_of selection1 selection2) as [[[dx dy]|]|e] eqn:Ho.
    + destruct (Z.eq_dec grid_dbu 0) as [->|Hg].
      * unfold commit_align in Hc. rewrite Ho in Hc. discriminate.
      * destruct (commit_align_offset self grid_dbu _ _ _ _ Ho Hg)
          as (applied & E & _ & Hok & _).
        rewrite Hc in E, Hok. simpl in E, Hok. rewrite (Hok eq_refl) in E.
        rewrite E. simpl.
        rewrite transformed_objects_app, transformed_objects_map. simpl.
        apply app_nil_r.
    + unfold commit_align in Hc. rewrite Ho in Hc. inversion Hc; subst.
      simpl in Hin. destruct Hin as [Hin|[Hin|[]]]; discriminate.
    + unfold commit_align in Hc. rewrite Ho in Hc. discriminate.
  - unfold transformees_of. repeat split.
    + intros Hpre. destruct (pre_selected_objects self); [congruence|].
      reflexivity.
    + intros -> -> ->. reflexivity.
    + intros inst1 -> -> ->. reflexivity.
    + intros p0 rest -> ->. reflexivity.
Qed.

(** C6.  With two point-like selections the offset is the target snap point
    minus the source snap point, by component, and every transformation that
    [commit_align] applies is the translation by [round(d / grid) * grid] of
    each component.  When both snapped components are coordinates of 32 bits
    it is applied to each transformee; when one of them is not, [pya.Trans]
    raises [TypeError], no object is moved and the transaction is still
    committed.  Source (10,10) and target (13,17) give (3,7), snapped to
    (5,5) on a grid of 5. *)
Theorem point_to_point_offset_snapped
    self grid_dbu selection1 selection2 s1 s2 :
  snap_point selection1 = Some s1 -> snap_point selection2 = Some s2 ->
  grid_dbu <> 0 ->
  let dx := Point.x s2 - Point.x s1 in
  let dy := Point.y s2 - Point.y s1 in
  let trans :=
    {| trans_dx := py_round (inject_Z dx / inject_Z grid_dbu) * grid_dbu;
       trans_dy := py_round (inject_Z dy / inject_Z grid_dbu) * grid_dbu |}
  in
  offset_of selection1 selection2 = Ok (Some (dx, dy))
  /\ (forall t tr,
        In (Transform t tr)
           (fst (commit_align self grid_dbu selection1 selection2)) ->
        tr = trans)
  /\ (coord_in_range (trans_dx trans) && coord_in_range (trans_dy trans)
      = true ->
      forallb transformable (transformees_of self selection1) = true ->
      commit_align self grid_dbu selection1 selection2
      = ([Transaction "align"]
         ++ map (fun t => Transform t trans)
              (transformees_of self selection1)
         ++ [Commit; SendEscapeKey], Ok tt))
  /\ (coord_in_range (trans_dx trans) && coord_in_range (trans_dy trans)
      = false ->
      commit_align self grid_dbu selection1 selection2
      = ([Transaction "align"; Commit; SendEscapeKey], Raise TypeError))
  /\ (s1 = Point.new 10 10 -> s2 = Point.new 13 17 ->
      (dx, dy) = (3, 7)
      /\ (grid_dbu = 5 -> trans = {| trans_dx := 5; trans_dy := 5 |})).
Proof.
  intros H1 H2 Hg dx dy trans.
  assert (Ho : offset_of selection1 selection2 = Ok (Some (dx, dy))).
  { unfold offset_of. rewrite H1, H2. reflexivity. }
  split; [exact Ho|]. split; [|split; [|split]].
  - intros t tr Hin.
    apply (In_commit_align_transform _ _ _ _ _ _ _ _ Ho Hg Hin).
  - intros Hr Hall.
    destruct (commit_align_offset self grid_dbu _ _ _ _ Ho Hg)
      as (applied & E & Hall' & _).
    destruct (Hall' Hr Hall) as [-> Hres].
    destruct (commit_align _ _ _ _) as [calls r]. simpl in *.
    subst. reflexivity.
  - intros Hr.
    destruct (commit_align_offset self grid_dbu _ _ _ _ Ho Hg)
      as (applied & E & _ & _ & Hout).
    destruct (Hout Hr) as [-> Hres].
    destruct (commit_align _ _ _ _) as [calls r]. simpl in *.
    subst. reflexivity.
  - intros -> ->. split; [reflexivity|].
    intros ->. reflexivity.
Qed.

(** C7.  In the two mixed cases (a point-like and an edge-like selection)
    an edge that is neither horizontal nor vertical gives the offset (0, 0),
    so every transformation applied is the translation by (0, 0), and it is
    applied to each transformee; an offset other than (0, 0) comes from a
    horizontal or a vertical edge only. *)
Theorem mixed_alignment_diagonal_edge_zero_offset
    self grid_dbu selection1 selection2 s e :
  grid_dbu <> 0 ->
  (snap_point selection1 = Some s /\ snap_point selection2 = None
   /\ edge selection2 = Some e)
  \/ (snap_point selection1 = None /\ edge selection1 = Some e
      /\ snap_point selection2 = Some s) ->
  (Edge_dx e <> 0 -> Edge_dy e <> 0 ->
   offset_of selection1 selection2 = Ok (Some (0, 0))
   /\ (forall t tr,
         In (Transform t tr)
            (fst (commit_align self grid_dbu selection1 selection2)) ->
         tr = {| trans_dx := 0; trans_dy := 0 |})
   /\ (forallb transformable (transformees_of self selection1) = true ->
       commit_align self grid_dbu selection1 selection2
       = ([Transaction "align"]
          ++ map (fun t => Transform t {| trans_dx := 0; trans_dy := 0 |})
               (transformees_of self selection1)
          ++ [Commit; SendEscapeKey], Ok tt)))
  /\ (forall dx dy,
        offset_of selection1 selection2 = Ok (Some (dx, dy)) ->
        (dx, dy) <> (0, 0) -> Edge_dx e = 0 \/ Edge_dy e = 0).
Proof.
  intros Hg Hcase.
  assert (Ho : exists ax ay,
             offset_of selection1 selection2
             = Ok (Some (axis_offset e ax ay))).
  { unfold offset_of.
    destruct Hcase as [(H1 & H2 & He) | (H1 & He & H2)];
      rewrite H1, H2, He; eauto. }
  destruct Ho as (ax & ay & Ho). split.
  - intros Hdx Hdy.
    assert (Hz : axis_offset e ax ay = (0, 0)).
    { unfold axis_offset.
      apply Z.eqb_neq in Hdx, Hdy. rewrite Hdx, Hdy. reflexivity. }
    rewrite Hz in Ho. split; [exact Ho|]. split.
    + intros t tr Hin.
      rewrite (In_commit_align_transform _ _ _ _ _ _ _ _ Ho Hg Hin).
      rewrite snap_to_grid_0. reflexivity.
    + intros Hall.
      destruct (commit_align_offset self grid_dbu _ _ _ _ Ho Hg)
        as (applied & E & Hall' & _).
      rewrite snap_to_grid_0 in E, Hall'.
      destruct (Hall' eq_refl Hall) as [-> Hr].
      destruct (commit_align _ _ _ _) as [calls r]. simpl in *.
      subst. reflexivity.
  - intros dx dy Ho' Hnz. rewrite Ho in Ho'. inversion Ho' as [Ha].
    unfold axis_offset in Ha.
    destruct (Z.eqb_spec (Edge_dy e) 0) as [Hy|Hy]; [right; exact Hy|].
    destruct (Z.eqb_spec (Edge_dx e) 0) as [Hx|Hx]; [left; exact Hx|].
    congruence.
Qed.

End ResolverClaims.

(** ** The reference implementation satisfies the laws used above *)

Lemma Ref_clipped_point p b :
  Ref.clipped (Edge.new p p) b <> None -> Ref.contains b p = true.
Proof.
  destruct p as [px py], b as [l bt r t].
  unfold Ref.clipped, Ref.contains, Edge.x1, Edge.x2, Edge.y1, Edge.y2.
  cbn [Edge.p1 Edge.p2 Point.x Point.y Box.left Box.right Box.bottom Box.top].
  rewrite !Z.sub_diag. cbn [Z.opp].
  unfold Ref.clip_step at 4. cbn [Z.eqb].
  destruct (Z.ltb_spec (px - l) 0) as [H1|H1];
    [intros H; exfalso; apply H; reflexivity|].
  unfold Ref.clip_step at 3. cbn [Z.eqb].
  destruct (Z.ltb_spec (r - px) 0) as [H2|H2];
    [intros H; exfalso; apply H; reflexivity|].
  unfold Ref.clip_step at 2. cbn [Z.eqb].
  destruct (Z.ltb_spec (py - bt) 0) as [H3|H3];
    [intros H; exfalso; apply H; reflexivity|].
  unfold Ref.clip_step. cbn [Z.eqb].
  destruct (Z.ltb_spec (t - py) 0) as [H4|H4];
    [intros H; exfalso; apply H; reflexivity|].
  intros _. rewrite !andb_true_iff, !Z.leb_le. lia.
Qed.

Lemma Ref_coord_integral q z : (q == inject_Z z)%Q -> Ref.coord q = z.
Proof.
  unfold Qeq, Ref.coord. simpl. rewrite Z.mul_1_r. intros ->.
  apply Z.quot_mul. discriminate.
Qed.

Lemma int32_range z : - 2 ^ 31 <= Ref.int32 z < 2 ^ 31.
Proof.
  unfold Ref.int32.
  pose proof (Z.mod_pos_bound (z + 2 ^ 31) (2 ^ 32) eq_refl). lia.
Qed.

Lemma Ref_distance_bound p q :
  (Qabs (Ref.distance p q) < nearest_distance_init)%Q.
Proof.
  unfold Ref.distance.
  set (ddx := Ref.int32 (Point.x q) - Ref.int32 (Point.x p)).
  set (ddy := Ref.int32 (Point.y q) - Ref.int32 (Point.y p)).
  assert (Hx : - 2 ^ 32 < ddx < 2 ^ 32).
  { pose proof (int32_range (Point.x q)). pose proof (int32_range (Point.x p)).
    subst ddx. lia. }
  assert (Hy : - 2 ^ 32 < ddy < 2 ^ 32).
  { pose proof (int32_range (Point.y q)). pose proof (int32_range (Point.y p)).
    subst ddy. lia. }
  assert (Hn : 0 <= ddx * ddx + ddy * ddy < 9999999999 * 9999999999).
  { change (2 ^ 32) with 4294967296 in *. nia. }
  assert (Hs : 0 <= Z.sqrt (ddx * ddx + ddy * ddy) < 9999999999).
  { split; [apply Z.sqrt_nonneg|].
    apply Z.sqrt_lt_square; lia. }
  rewrite Qabs_pos.
  - unfold nearest_distance_init, Qlt. simpl. lia.
  - unfold Qle. simpl. lia.
Qed.

(** ** Concrete queries *)

(** C9 at a concrete query: the square lies alone on the visible layer 7;
    the feature found at the origin is derived from this shape, and its
    [layer] field is [None]. *)
Theorem polygon_midpoint_feature_without_layer :
  In 7 (visible_layer_indexes Scene.square_view)
  /\ begin_shapes_rec_overlapping Scene.square_cell 7 Scene.query_box 0 0
     = [{| iter_shape := Scene.square; iter_itrans := Scene.unit_trans;
           shape_iter_path := [] |}]
  /\ find_selection (G := RefGeometry) Scene.square_view Scene.origin 5 false
     = Ok (Some Scene.square_midpoint)
  /\ shape Scene.square_midpoint = Some (ShapeObj Scene.square)
  /\ layer Scene.square_midpoint = None.
Proof. vm_compute. auto. Qed.

(** C1 at a concrete query, against the claim as first stated: the center
    of [cover] is registered while there is no best yet, it is not
    installed, and the query returns no feature. *)
Lemma candidate_without_clip_is_not_installed :
  registrations (G := RefGeometry) Scene.cover_view Scene.query_box
    Scene.origin false
  = [Scene.cover_midpoint]
  /\ edge (no_selection Scene.origin Scene.query_box) = None
  /\ consider_edge_selection (G := RefGeometry) Scene.query_box Scene.origin
       Scene.cover_midpoint (no_selection Scene.origin Scene.query_box)
     = Ok (no_selection Scene.origin Scene.query_box)
  /\ Scene.cover_midpoint <> no_selection Scene.origin Scene.query_box
  /\ find_selection (G := RefGeometry) Scene.cover_view Scene.origin 5 false
     = Ok None.
Proof.
  repeat split; try (vm_compute; reflexivity).
  intros H. discriminate H.
Qed.

(** C4 at a concrete call, against the claim as first stated: with a
    horizontal source edge and a vertical target edge no transaction is
    begun and the commit is not called. *)
Lemma nonparallel_abort_calls_no_commit :
  Edge_is_parallel (PyaGeometry := RefGeometry)
    Scene.horizontal Scene.vertical = false
  /\ commit_align (G := RefGeometry) Scene.preselected_plugin 5
       (Scene.edge_selection Scene.horizontal)
       (Scene.edge_selection Scene.vertical)
     = ([MessageBoxWarning "Unsupported use case"
           "Aligning non-parallel edges is not yet supported.";
         SendEscapeKey], Ok tt)
  /\ ~ In Commit
         (fst (commit_align (G := RefGeometry) Scene.preselected_plugin 5
                 (Scene.edge_selection Scene.horizontal)
                 (Scene.edge_selection Scene.vertical)))
  /\ ~ In (Transaction "align")
         (fst (commit_align (G := RefGeometry) Scene.preselected_plugin 5
                 (Scene.edge_selection Scene.horizontal)
                 (Scene.edge_selection Scene.vertical))).
Proof.
  repeat split; try (vm_compute; reflexivity);
    vm_compute; intros [H|[H|[]]]; discriminate H.
Qed.

(** The query on the dense cell: the square, visited after 1000 other
    positions, is not looked at; the feature is an edge of the strip. *)
Example dense_view_query :
  find_selection (G := RefGeometry) Scene.dense_view Scene.origin 5 false
  = Ok (Some (set_snap_point Scene.strip_left_edge (Point.new 2 0)))
  /\ find_selection (G := RefGeometry) Scene.square_view Scene.origin 5 false
     = Ok (Some Scene.square_midpoint).
Proof. split; vm_compute; reflexivity. Qed.

(** ** The theorems at concrete inputs *)

(** C3 at [Scene.segment] and [Scene.between]: the center (4, 0) and the
    first end point are at the same distance, the second end point is
    farther, and the center is returned. *)
Lemma find_nearest_edge_point_first_minimum_witness :
  edge_center (G := RefGeometry) Scene.segment = Point.new 4 0
  /\ (Qabs (Point_distance (PyaGeometry := RefGeometry)
              (Point.new 4 0) Scene.between)
      == Qabs (Point_distance (PyaGeometry := RefGeometry)
                 (Point.new 0 0) Scene.between))%Q
  /\ (Qabs (Point_distance (PyaGeometry := RefGeometry)
              (Point.new 4 0) Scene.between)
      < Qabs (Point_distance (PyaGeometry := RefGeometry)
                (Point.new 8 0) Scene.between))%Q
  /\ find_nearest_edge_point (G := RefGeometry) Scene.between Scene.segment
     = Some (Point.new 4 0).
Proof.
  split; [vm_compute; reflexivity|].
  split; [vm_compute; reflexivity|].
  split; [vm_compute; reflexivity|].
  destruct (find_nearest_edge_point_first_minimum (G := RefGeometry)
              Scene.between Scene.segment)
    as (qx & qy & r & earlier & later & _ & _ & _ & E & _ & _ & _ & Htie
        & _).
  - exists (Point.new 0 0). split; [right; left; reflexivity|].
    vm_compute. reflexivity.
  - rewrite E. f_equal.
    apply (Htie (Edge.p1 Scene.segment) (Edge.p2 Scene.segment)).
    + left. split; reflexivity.
    + vm_compute. reflexivity.
    + vm_compute. discriminate.
Defined.

(** C3 at [Scene.short_segment] and [Scene.beyond], against the claim as
    first stated: the center, (0, 0) by the conversion of the mean 1/2, and
    the first end point are both at distance 5 from the location, and the
    function returns the second end point, at distance 4. *)
Lemma tie_of_center_and_end_point_lost_to_other_end_point :
  edge_center (G := RefGeometry) Scene.short_segment = Point.new 0 0
  /\ Edge.p1 Scene.short_segment = Point.new 0 0
  /\ Edge.p2 Scene.short_segment = Point.new 1 0
  /\ (Qabs (Point_distance (PyaGeometry := RefGeometry)
              (edge_center (G := RefGeometry) Scene.short_segment)
              Scene.beyond) == 5)%Q
  /\ (Qabs (Point_distance (PyaGeometry := RefGeometry)
              (Edge.p1 Scene.short_segment) Scene.beyond) == 5)%Q
  /\ (Qabs (Point_distance (PyaGeometry := RefGeometry)
              (Edge.p2 Scene.short_segment) Scene.beyond) == 4)%Q
  /\ find_nearest_edge_point (G := RefGeometry) Scene.beyond
       Scene.short_segment
     = Some (Point.new 1 0)
  /\ find_nearest_edge_point (G := RefGeometry) Scene.beyond
       Scene.short_segment
     <> Some (edge_center (G := RefGeometry) Scene.short_segment).
Proof.
  repeat split; try (vm_compute; reflexivity).
  vm_compute. intros H. discriminate H.
Qed.

(** C10 at the query on [Scene.tie_view]. *)
Lemma find_selection_edge_has_clip_witness :
  find_selection (G := RefGeometry) Scene.tie_view Scene.origin 5 false
  = Ok (Some Scene.macro_left_edge)
  /\ (exists e i,
        edge Scene.macro_left_edge = Some e
        /\ Edge_clipped (PyaGeometry := RefGeometry) e
             (search_box Scene.macro_left_edge) = Some i)
  /\ (edge Scene.macro_left_edge = None
      \/ clip_distance (G := RefGeometry) (search_box_of Scene.origin 5)
           Scene.origin Scene.macro_left_edge <> None).
Proof.
  split; [vm_compute; reflexivity|].
  apply (find_selection_edge_has_clip (G := RefGeometry)
           Scene.tie_view Scene.origin 5 false Scene.macro_left_edge
           Scene.macro_left_edge
           (no_selection Scene.origin (search_box_of Scene.origin 5))
           Scene.macro_left_edge).
  - vm_compute. reflexivity.
  - vm_compute. reflexivity.
  - left. reflexivity.
Defined.

(** C2 at the query on [Scene.tie_view]: the nearest point (2, 20) of the
    winning edge is outside the search box, the feature has no snap point. *)
Lemma find_selection_snap_point_in_search_box_witness :
  find_selection (G := RefGeometry) Scene.tie_view Scene.origin 5 false
  = Ok (Some Scene.macro_left_edge)
  /\ (forall p, snap_point Scene.macro_left_edge = Some p ->
        Box_contains (PyaGeometry := RefGeometry)
          (search_box Scene.macro_left_edge) p = true)
  /\ (forall e np, edge Scene.macro_left_edge = Some e ->
        find_nearest_edge_point (G := RefGeometry) Scene.origin e = Some np ->
        Box_contains (PyaGeometry := RefGeometry)
          (search_box Scene.macro_left_edge) np = false ->
        snap_point Scene.macro_left_edge = None).
Proof.
  split; [vm_compute; reflexivity|].
  apply (find_selection_snap_point_in_search_box (G := RefGeometry)
           Scene.tie_view Scene.origin 5 false Scene.macro_left_edge).
  - exact Ref_clipped_point.
  - exact Ref_coord_integral.
  - vm_compute. reflexivity.
Defined.

(** C1 at the query on [Scene.tie_view]: the left edges of the instance and
    of the strip are both at clip distance 2; the one of the instance,
    registered first, stays the best and is returned. *)
Lemma first_nearest_candidate_is_returned_witness :
  clip_distance (G := RefGeometry) (search_box_of Scene.origin 5)
    Scene.origin Scene.macro_left_edge = Some 2
  /\ clip_distance (G := RefGeometry) (search_box_of Scene.origin 5)
       Scene.origin Scene.strip_left_edge = Some 2
  /\ consider_edge_selection (G := RefGeometry)
       (search_box_of Scene.origin 5) Scene.origin
       Scene.strip_left_edge Scene.macro_left_edge
     = Ok Scene.macro_left_edge
  /\ exists earlier c later dc,
       registrations (G := RefGeometry) Scene.tie_view
         (search_box_of Scene.origin 5) Scene.origin false
       = earlier ++ c :: later
       /\ (Scene.macro_left_edge = c
           \/ exists p, Scene.macro_left_edge = set_snap_point c p)
       /\ clip_distance (G := RefGeometry) (search_box_of Scene.origin 5)
            Scene.origin c = Some dc
       /\ (forall c' d, In c' earlier ->
             clip_distance (G := RefGeometry) (search_box_of Scene.origin 5)
               Scene.origin c' = Some d -> dc < d)
       /\ (forall c' d, In c' later ->
             clip_distance (G := RefGeometry) (search_box_of Scene.origin 5)
               Scene.origin c' = Some d -> dc <= d).
Proof.
  split; [vm_compute; reflexivity|]. split; [vm_compute; reflexivity|].
  split; [vm_compute; reflexivity|].
  destruct (first_nearest_candidate_is_returned (G := RefGeometry)
              Scene.tie_view Scene.origin 5 false Scene.macro_left_edge
              Scene.strip_left_edge Scene.macro_left_edge)
    as (_ & earlier & c & later & dc & Hreg & _ & Hf & Hdc & H1 & H2).
  - vm_compute. reflexivity.
  - discriminate.
  - right. vm_compute. discriminate.
  - exists earlier, c, later, dc. auto.
Defined.

(** C8 at the queries on [Scene.dense_view], whose shape iterator of layer 7
    has 1001 positions, and on [Scene.layered_view], whose shape iterators
    have 1000 positions on layer 7 and one on layer 8: the square is not
    seen as the position 1001 of a layer, and it is seen as the first
    position of the second layer. *)
Lemma iteration_cap_truncates_each_pass_witness :
  (forall p, point_dist (G := RefGeometry) Scene.origin p
             < nearest_distance_init)%Q
  /\ find_selection (G := RefGeometry) Scene.dense_view Scene.origin 5 false
     = find_selection (G := RefGeometry) (truncate_view Scene.dense_view)
         Scene.origin 5 false
  /\ find_selection (G := RefGeometry) Scene.dense_view Scene.origin 5 false
     = Ok (Some (set_snap_point Scene.strip_left_edge (Point.new 2 0)))
  /\ shape_pass (G := RefGeometry) Scene.layered_view Scene.query_box
       Scene.origin (no_selection Scene.origin Scene.query_box)
     = for_each [7; 8]
         (fun lyr nearest =>
            for_each
              (firstn 1000
                 (begin_shapes_rec_overlapping Scene.layered_cell lyr
                    Scene.query_box 0 0))
              (shape_body (G := RefGeometry) Scene.query_box Scene.origin
                 lyr)
              nearest)
         (no_selection Scene.origin Scene.query_box)
  /\ find_selection (G := RefGeometry) Scene.layered_view Scene.origin 5
       false
     = Ok (Some Scene.square_midpoint).
Proof.
  assert (H : (forall p, point_dist (G := RefGeometry) Scene.origin p
                         < nearest_distance_init)%Q).
  { intros p. apply Ref_distance_bound. }
  split; [exact H|].
  destruct (iteration_cap_truncates_each_pass (G := RefGeometry)
              Scene.dense_view Scene.origin 5 false H)
    as (_ & _ & _ & _ & _ & _ & Heq & _).
  split; [exact Heq|].
  split; [vm_compute; reflexivity|].
  destruct (iteration_cap_truncates_each_pass (G := RefGeometry)
              Scene.layered_view Scene.origin 5 false H)
    as (_ & _ & Hs & _).
  split; [|vm_compute; reflexivity].
  exact (Hs (no_selection Scene.origin Scene.query_box)).
Defined.

(** C4 at a horizontal source edge and a vertical target edge. *)
Lemma nonparallel_edges_abort_before_transaction_witness :
  Edge_is_parallel (PyaGeometry := RefGeometry)
    Scene.horizontal Scene.vertical = false
  /\ commit_align (G := RefGeometry) Scene.preselected_plugin 5
       (Scene.edge_selection Scene.horizontal)
       (Scene.edge_selection Scene.vertical)
     = ([MessageBoxWarning "Unsupported use case"
           "Aligning non-parallel edges is not yet supported.";
         SendEscapeKey], Ok tt)
  /\ transformed_objects
       (fst (commit_align (G := RefGeometry) Scene.preselected_plugin 5
               (Scene.edge_selection Scene.horizontal)
               (Scene.edge_selection Scene.vertical))) = []
  /\ (forall name,
        ~ In (Transaction name)
            (fst (commit_align (G := RefGeometry) Scene.preselected_plugin 5
                    (Scene.edge_selection Scene.horizontal)
                    (Scene.edge_selection Scene.vertical))))
  /\ ~ In Commit
         (fst (commit_align (G := RefGeometry) Scene.preselected_plugin 5
                 (Scene.edge_selection Scene.horizontal)
                 (Scene.edge_selection Scene.vertical))).
Proof.
  split; [vm_compute; reflexivity|].
  apply (nonparallel_edges_abort_before_transaction (G := RefGeometry)
           Scene.preselected_plugin 5
           (Scene.edge_selection Scene.horizontal)
           (Scene.edge_selection Scene.vertical)
           Scene.horizontal Scene.vertical);
    reflexivity.
Defined.

(** C5 at a source selection in the top cell, without and with a
    pre-selection. *)
Lemma transformees_precedence_witness :
  commit_align (G := RefGeometry) Scene.preselected_plugin 5
    (Scene.point_selection (Point.new 10 10))
    (Scene.point_selection (Point.new 13 17))
  = ([Transaction "align";
      Transform (PyInstance Scene.macro) {| trans_dx := 5; trans_dy := 5 |};
      Transform (PyShape Scene.square) {| trans_dx := 5; trans_dy := 5 |};
      Commit; SendEscapeKey], Ok tt)
  /\ transformees_of Scene.preselected_plugin
       (Scene.point_selection (Point.new 10 10))
     = [PyInstance Scene.macro; PyShape Scene.square]
  /\ transformees_of Scene.plain_plugin
       (Scene.point_selection (Point.new 10 10))
     = [PyShape Scene.strip].
Proof.
  split; [vm_compute; reflexivity|].
  destruct (transformees_precedence (G := RefGeometry)
              Scene.preselected_plugin 5
              (Scene.point_selection (Point.new 10 10))
              (Scene.point_selection (Point.new 13 17))
              [Transaction "align";
               Transform (PyInstance Scene.macro)
                 {| trans_dx := 5; trans_dy := 5 |};
               Transform (PyShape Scene.square)
                 {| trans_dx := 5; trans_dy := 5 |};
               Commit; SendEscapeKey])
    as (_ & Hpre & _).
  - vm_compute. reflexivity.
  - left. reflexivity.
  - split.
    + apply Hpre. discriminate.
    + reflexivity.
Defined.

(** C6 at source (10, 10), target (13, 17) and a grid of 5, and at a source
    and a target four thousand million units apart, where the translation is
    not one of 32 bits. *)
Lemma point_to_point_offset_snapped_witness :
  offset_of (G := RefGeometry)
    (Scene.point_selection (Point.new 10 10))
    (Scene.point_selection (Point.new 13 17)) = Ok (Some (3, 7))
  /\ commit_align (G := RefGeometry) Scene.plain_plugin 5
       (Scene.point_selection (Point.new 10 10))
       (Scene.point_selection (Point.new 13 17))
     = ([Transaction "align";
         Transform (PyShape Scene.strip) {| trans_dx := 5; trans_dy := 5 |};
         Commit; SendEscapeKey], Ok tt)
  /\ commit_align (G := RefGeometry) Scene.plain_plugin 5
       (Scene.point_selection (Point.new (-2000000000) 0))
       (Scene.point_selection (Point.new 2000000000 0))
     = ([Transaction "align"; Commit; SendEscapeKey], Raise TypeError).
Proof.
  destruct (point_to_point_offset_snapped (G := RefGeometry)
              Scene.plain_plugin 5
              (Scene.point_selection (Point.new 10 10))
              (Scene.point_selection (Point.new 13 17))
              (Point.new 10 10) (Point.new 13 17))
    as (Ho & _ & Hc & _).
  - reflexivity.
  - reflexivity.
  - lia.
  - split; [exact Ho|]. split.
    + apply Hc; reflexivity.
    + destruct (point_to_point_offset_snapped (G := RefGeometry)
                  Scene.plain_plugin 5
                  (Scene.point_selection (Point.new (-2000000000) 0))
                  (Scene.point_selection (Point.new 2000000000 0))
                  (Point.new (-2000000000) 0) (Point.new 2000000000 0))
        as (_ & _ & _ & Hout & _).
      * reflexivity.
      * reflexivity.
      * lia.
      * apply Hout. reflexivity.
Defined.

(** C7 at a point-like source and a diagonal target edge. *)
Lemma mixed_alignment_diagonal_edge_zero_offset_witness :
  Edge_dx (PyaGeometry := RefGeometry) Scene.diagonal = 10
  /\ Edge_dy (PyaGeometry := RefGeometry) Scene.diagonal = 10
  /\ offset_of (G := RefGeometry)
       (Scene.point_selection (Point.new 4 4))
       (Scene.edge_selection Scene.diagonal) = Ok (Some (0, 0))
  /\ commit_align (G := RefGeometry) Scene.plain_plugin 5
       (Scene.point_selection (Point.new 4 4))
       (Scene.edge_selection Scene.diagonal)
     = ([Transaction "align";
         Transform (PyShape Scene.strip) {| trans_dx := 0; trans_dy := 0 |};
         Commit; SendEscapeKey], Ok tt).
Proof.
  split; [reflexivity|]. split; [reflexivity|].
  destruct (mixed_alignment_diagonal_edge_zero_offset (G := RefGeometry)
              Scene.plain_plugin 5
              (Scene.point_selection (Point.new 4 4))
              (Scene.edge_selection Scene.diagonal)
              (Point.new 4 4) Scene.diagonal)
    as (Hdiag & _).
  - lia.
  - left. repeat split.
  - destruct Hdiag as (Ho & _ & Hc).
    + vm_compute. discriminate.
    + vm_compute. discriminate.
    + split; [exact Ho|]. apply Hc. reflexivity.
Defined.

(** * Further properties of the finder *)

Section FinderExtras.

Context {G : PyaGeometry}.

(** X1.  [visible_layer_indexes] lists, in the order of the layer list, the
    indexes of the entries that are visible and valid, the index -1 left
    out: an index is listed exactly when it is not -1 and belongs to such an
    entry. *)
Theorem visible_layer_indexes_characterised view i :
  visible_layer_indexes view
  = map layer_index
      (filter (fun lref => visible lref && valid lref
                           && negb (layer_index lref =? -1))
         (each_layer view))
  /\ (In i (visible_layer_indexes view)
      <-> i <> -1
          /\ exists lref, In lref (each_layer view)
               /\ visible lref = true /\ valid lref = true
               /\ layer_index lref = i).
Proof.
  assert (E : visible_layer_indexes view
              = map layer_index
                  (filter (fun lref => visible lref && valid lref
                                       && negb (layer_index lref =? -1))
                     (each_layer view))).
  { unfold visible_layer_indexes.
    induction (each_layer view) as [|l ls IH]; simpl; [reflexivity|].
    destruct (visible l && valid l); simpl; [|exact IH].
    destruct (layer_index l =? -1); simpl; congruence. }
  split; [exact E|]. rewrite E, in_map_iff. split.
  - intros (l & <- & Hin). apply filter_In in Hin.
    destruct Hin as (Hin & Hc).
    rewrite !andb_true_iff, negb_true_iff, Z.eqb_neq in Hc.
    destruct Hc as ((Hv & Hd) & Hn). split; [exact Hn|].
    exists l. auto.
  - intros (Hn & l & Hin & Hv & Hd & <-). exists l. split; [reflexivity|].
    apply filter_In. split; [exact Hin|].
    rewrite Hv, Hd. simpl. apply negb_true_iff, Z.eqb_neq. exact Hn.
Qed.

(** X2.  [halfway] is the mean of its two arguments, whichever is the
    smaller one, and lies between them. *)
Theorem halfway_is_the_mean a b :
  (halfway a b == (inject_Z a + inject_Z b) / 2
   /\ halfway a b == halfway b a
   /\ inject_Z (Z.min a b) <= halfway a b <= inject_Z (Z.max a b))%Q.
Proof.
  assert (M : forall x y,
             (halfway x y == (inject_Z x + inject_Z y) / 2)%Q).
  { intros x y. unfold halfway.
    destruct (x <? y); unfold Z.sub; rewrite inject_Z_plus, inject_Z_opp;
      field. }
  split; [apply M|]. split.
  - rewrite (M a b), (M b a). field.
  - assert (K : (halfway a b * 2 == inject_Z a + inject_Z b)%Q)
      by (rewrite (M a b); field).
    assert (Ha : (inject_Z (Z.min a b) <= inject_Z a)%Q)
      by (rewrite <- Zle_Qle; lia).
    assert (Hb : (inject_Z (Z.min a b) <= inject_Z b)%Q)
      by (rewrite <- Zle_Qle; lia).
    assert (Hc : (inject_Z a <= inject_Z (Z.max a b))%Q)
      by (rewrite <- Zle_Qle; lia).
    assert (Hd : (inject_Z b <= inject_Z (Z.max a b))%Q)
      by (rewrite <- Zle_Qle; lia).
    split; lra.
Qed.

(** X3.  [find_nearest_edge_point] returns [None] exactly when none of the
    three distances is below the initial value 9999999999 of
    [nearest_distance]; a point it returns is the center or an end point of
    the edge and its distance is below that value. *)
Theorem find_nearest_edge_point_none_iff loc e :
  (find_nearest_edge_point loc e = None
   <-> forall p, In p (edge_points e) ->
         (nearest_distance_init <= point_dist loc p)%Q)
  /\ (forall r, find_nearest_edge_point loc e = Some r ->
        In r (edge_points e)
        /\ (point_dist loc r < nearest_distance_init)%Q).
Proof.
  destruct (find_nearest_edge_point_cases loc e)
    as [(E & L0 & L1 & L2) | [(E & L0 & L1 & L2) | [(E & L0 & L1 & L2)
       | (E & L0 & L1 & L2)]]]; rewrite E.
  - split; [split; [discriminate|] |].
    + intros H. specialize (H (edge_center e) (or_introl eq_refl)). lra.
    + intros r Hr. inversion Hr; subst. split; [left; reflexivity | lra].
  - split; [split; [discriminate|] |].
    + intros H. specialize (H (Edge.p1 e) (or_intror (or_introl eq_refl))).
      lra.
    + intros r Hr. inversion Hr; subst.
      split; [right; left; reflexivity | lra].
  - split; [split; [discriminate|] |].
    + intros H.
      specialize (H (Edge.p2 e)
                    (or_intror (or_intror (or_introl eq_refl)))). lra.
    + intros r Hr. inversion Hr; subst.
      split; [right; right; left; reflexivity | lra].
  - split; [split |].
    + intros _ p [<-|[<-|[<-|[]]]]; assumption.
    + reflexivity.
    + discriminate.
Qed.

(** The feature returned is a registered candidate with a clip, its snap
    point possibly set to a point of its edge. *)
Lemma find_selection_registered view loc md rulers f :
  find_selection view loc md rulers = Ok (Some f) ->
  exists c e,
    In c (registrations view (search_box_of loc md) loc rulers)
    /\ edge c = Some e
    /\ (f = c
        \/ exists p, In p (edge_points e) /\ f = set_snap_point c p).
Proof.
  intros Hf. apply find_selection_Some in Hf.
  destruct Hf as (w & e & np & Hscan & He & Hnp & ->).
  assert (Hne : edge w <> None) by congruence.
  destruct (scan_winner _ _ _ _ _ Hscan Hne) as (l1 & l2 & dn & Hreg & _).
  exists w, e. split.
  - rewrite Hreg. apply in_or_app. right. left. reflexivity.
  - split; [exact He|].
    destruct (Box_contains _ np); [right | left; reflexivity].
    exists np. split; [|reflexivity].
    apply (find_nearest_edge_point_In loc e np Hnp).
Qed.

(** X4.  A feature returned by [find_selection] carries the location and
    the search box of the query, and its snap point, when it has one, is the
    center or an end point of its edge. *)
Theorem find_selection_feature_of_query view loc md rulers f :
  find_selection view loc md rulers = Ok (Some f) ->
  location f = loc
  /\ search_box f = search_box_of loc md
  /\ exists e, edge f = Some e
       /\ forall p, snap_point f = Some p -> In p (edge_points e).
Proof.
  intros Hf. destruct (find_selection_registered _ _ _ _ _ Hf)
    as (c & e & Hin & He & Hfc).
  pose proof (registrations_well_formed view (search_box_of loc md)
                loc rulers) as F.
  rewrite Forall_forall in F. destruct (F c Hin) as (Hl & Hsb & Hshape).
  destruct Hfc as [-> | (p & Hp & ->)].
  - split; [exact Hl|]. split; [exact Hsb|]. exists e. split; [exact He|].
    intros p Hp. rewrite He, Hp in Hshape. subst e.
    unfold edge_points. simpl. auto.
  - split; [exact Hl|]. split; [exact Hsb|]. exists e. split; [exact He|].
    simpl. intros q Hq. inversion Hq; subst. exact Hp.
Qed.

(** X5.  With a top cell that is not hidden, [find_selection] returns no
    feature exactly when no registered candidate has a clip against the
    search box; it does not raise then. *)
Theorem find_selection_none_iff view loc md rulers :
  is_cell_hidden view (cell_index (cell view)) = false ->
  (find_selection view loc md rulers = Ok None
   <-> forall c, In c (registrations view (search_box_of loc md) loc rulers)
         -> clip_distance (search_box_of loc md) loc c = None).
Proof.
  intros Hvis. unfold find_selection. rewrite Hvis.
  destruct (scan_total view (search_box_of loc md) loc rulers)
    as (n & Hscan & _).
  rewrite Hscan. simpl.
  rewrite scan_registrations in Hscan.
  apply for_each_consider_first_min in Hscan.
  split.
  - intros Hfin.
    assert (Hedge : edge n = None).
    { unfold finish in Hfin. destruct (edge n) as [e|]; [|reflexivity].
      destruct (find_nearest_edge_point loc e); [|discriminate].
      destruct (Box_contains _ _); discriminate. }
    destruct Hscan as [[-> Hall] | (l1 & l2 & dn & _ & Hdn & _)].
    + intros c Hin.
      destruct (clip_distance (search_box_of loc md) loc c) as [d|] eqn:Ed;
        [|reflexivity].
      destruct (Hall c d Hin Ed) as (d0 & Hd0 & _). discriminate.
    + apply clip_distance_edge in Hdn. destruct Hdn as (e & i & He & _).
      congruence.
  - intros Hall.
    destruct Hscan as [[-> _] | (l1 & l2 & dn & Hreg & Hdn & _)].
    + reflexivity.
    + rewrite (Hall n) in Hdn; [discriminate|].
      rewrite Hreg. apply in_or_app. right. left. reflexivity.
Qed.

(** X6.  [find_selection] returns no feature, whatever the scene holds,
    when the top cell is hidden, and also when the view shows no hierarchy
    level below the top ([max_hier_levels] below 1) and the rulers are not
    considered. *)
Theorem find_selection_without_scan view loc md rulers :
  is_cell_hidden view (cell_index (cell view)) = true
  \/ (max_hier_levels view < 1 /\ rulers = false) ->
  find_selection view loc md rulers = Ok None.
Proof.
  intros [Hh | [Hl ->]].
  - unfold find_selection. rewrite Hh. reflexivity.
  - destruct (is_cell_hidden view (cell_index (cell view))) eqn:Hh.
    + unfold find_selection. rewrite Hh. reflexivity.
    + unfold find_selection. rewrite Hh. rewrite scan_registrations.
      unfold registrations, instance_registrations, shape_registrations,
        annotation_registrations.
      assert (E : (max_hier_levels view >=? 1) = false).
      { rewrite Z.geb_leb. apply Z.leb_gt. lia. }
      rewrite E. reflexivity.
Qed.

Lemma firstn_In {A} (x : A) n l : In x (firstn n l) -> In x l.
Proof.
  revert l. induction n as [|n IH]; intros l H.
  - simpl in H. contradiction.
  - destruct l as [|a l]; simpl in H; [contradiction|].
    destruct H as [H|H]; [left; exact H | right; apply IH, H].
Qed.

(** Where the candidates of each pass come from. *)
Lemma In_instance_registrations view sb loc c :
  In c (instance_registrations view sb loc) ->
  exists it,
    In it (begin_instances_rec_overlapping (cell view) sb
             (Z.max (min_hier_levels view - 1) 0)
             (Z.max (max_hier_levels view - 1) 0))
    /\ 1 <= max_hier_levels view
    /\ is_cell_hidden view (inst_cell_index (current_inst it)) = false
    /\ let bb := Box_transformed (inst_bbox (current_inst it))
                   (inst_iter_trans it) in
       (exists e, In e (Edges_of_box bb) /\ Edge_clipped e sb <> None
                  /\ c = inst_edge_selection sb loc it bb e)
       \/ c = inst_midpoint_selection sb loc it bb (Box_center bb).
Proof.
  unfold instance_registrations.
  destruct (max_hier_levels view >=? 1) eqn:E; [|intros []].
  apply Z.geb_le in E.
  intros Hin. apply in_flat_map in Hin. destruct Hin as (it & Hit & Hc).
  apply firstn_In in Hit. exists it. split; [exact Hit|].
  split; [lia|].
  unfold instance_registrations_at in Hc.
  destruct (is_cell_hidden view _) eqn:Hh; [destruct Hc|].
  split; [reflexivity|]. simpl in Hc.
  apply in_app_or in Hc. destruct Hc as [Hc | [<- | []]].
  - left. apply in_map_iff in Hc. destruct Hc as (e & <- & He).
    apply filter_In in He. destruct He as (He & Hm).
    exists e. split; [exact He|]. split; [|reflexivity].
    unfold meets in Hm. destruct (Edge_clipped e sb); congruence.
  - right. reflexivity.
Qed.

Lemma In_shape_registrations view sb loc c :
  In c (shape_registrations view sb loc) ->
  exists lyr it pg,
    In lyr (visible_layer_indexes view)
    /\ In it (begin_shapes_rec_overlapping (cell view) lyr sb
                (Z.max (min_hier_levels view - 1) 0)
                (Z.max (max_hier_levels view - 1) 0))
    /\ 1 <= max_hier_levels view
    /\ polygon (iter_shape it) = Some pg
    /\ let p := Polygon_transformed pg (iter_itrans it) in
       (exists e, In e (Polygon_each_edge p)
                  /\ c = shape_edge_selection sb loc it lyr e)
       \/ c = shape_midpoint_selection sb loc it (Box_center (Polygon_bbox p)).
Proof.
  unfold shape_registrations.
  destruct (max_hier_levels view >=? 1) eqn:E; [|intros []].
  apply Z.geb_le in E.
  intros Hin. apply in_flat_map in Hin. destruct Hin as (lyr & Hlyr & Hin).
  apply in_flat_map in Hin. destruct Hin as (it & Hit & Hc).
  apply firstn_In in Hit.
  unfold shape_registrations_at in Hc.
  destruct (polygon (iter_shape it)) as [pg|] eqn:Hpg; [|destruct Hc].
  exists lyr, it, pg. split; [exact Hlyr|]. split; [exact Hit|].
  split; [lia|]. split; [exact Hpg|]. simpl in Hc.
  apply in_app_or in Hc. destruct Hc as [Hc | [<- | []]].
  - left. apply in_map_iff in Hc. destruct Hc as (e & <- & He). eauto.
  - right. reflexivity.
Qed.

Lemma In_annotation_registrations view sb loc rulers c :
  In c (annotation_registrations view sb loc rulers) ->
  rulers = true
  /\ exists a, In a (each_annotation view)
       /\ ((outline a = OutlineBox
            /\ exists e, In e (Polygon_of_box_each_edge (ann_box a))
                 /\ c = ruler_edge_selection sb loc e)
           \/ (outline a <> OutlineBox
               /\ exists p, In p (ann_points a)
                    /\ Box_contains sb p = true
                    /\ c = ruler_point_selection sb loc p)).
Proof.
  unfold annotation_registrations. destruct rulers; [|intros []].
  intros Hin. split; [reflexivity|].
  apply in_flat_map in Hin. destruct Hin as (a & Ha & Hc).
  exists a. split; [exact Ha|].
  unfold annotation_registrations_at in Hc.
  destruct (outline a) eqn:Ho;
    try (right; split; [discriminate|];
         apply in_map_iff in Hc; destruct Hc as (p & <- & Hp);
         apply filter_In in Hp; destruct Hp as (Hp & Hb);
         exists p; auto).
  left. split; [reflexivity|].
  apply in_map_iff in Hc. destruct Hc as (e & <- & He).
  apply filter_In in He. destruct He as (He & _). eauto.
Qed.

(** X7.  Where a returned feature comes from.  It is (1) an edge or the
    center of the bounding box of an instance that the instance iterator
    visits and that is not hidden: the feature names that instance and its
    path and has no layer; or (2) an edge or the bounding box center of the
    polygon of a shape that the shape iterator of a visible layer visits: the
    feature names the shape and no instance, an edge carries the layer and
    the center carries none; or (3) with rulers considered, an edge or a
    point of a ruler: the feature has an empty path and neither shape nor
    instance nor layer.  The first two need [max_hier_levels] at least 1. *)
Theorem find_selection_provenance view loc md rulers f :
  find_selection view loc md rulers = Ok (Some f) ->
  let sb := search_box_of loc md in
  let lo := Z.max (min_hier_levels view - 1) 0 in
  let hi := Z.max (max_hier_levels view - 1) 0 in
  (exists it,
     In it (begin_instances_rec_overlapping (cell view) sb lo hi)
     /\ 1 <= max_hier_levels view
     /\ is_cell_hidden view (inst_cell_index (current_inst it)) = false
     /\ bbox_of_instance f = Some (current_inst it)
     /\ path f = inst_iter_path it
     /\ shape f = Some (BoxObj (Box_transformed (inst_bbox (current_inst it))
                                  (inst_iter_trans it)))
     /\ layer f = None)
  \/ (exists lyr it pg,
        In lyr (visible_layer_indexes view)
        /\ In it (begin_shapes_rec_overlapping (cell view) lyr sb lo hi)
        /\ 1 <= max_hier_levels view
        /\ polygon (iter_shape it) = Some pg
        /\ shape f = Some (ShapeObj (iter_shape it))
        /\ bbox_of_instance f = None
        /\ path f = shape_iter_path it
        /\ ((layer f = Some lyr
             /\ exists e, In e (Polygon_each_edge
                                  (Polygon_transformed pg (iter_itrans it)))
                  /\ edge f = Some e)
            \/ (layer f = None
                /\ let m := Box_center
                              (Polygon_bbox
                                 (Polygon_transformed pg (iter_itrans it))) in
                   edge f = Some (Edge.new m m))))
  \/ (rulers = true
      /\ path f = [] /\ shape f = None /\ bbox_of_instance f = None
      /\ layer f = None).
Proof.
  intros Hf sb lo hi.
  destruct (find_selection_registered _ _ _ _ _ Hf)
    as (c & e & Hin & He & Hfc).
  assert (Hsame : location f = location c /\ search_box f = search_box c
                  /\ edge f = edge c /\ path f = path c
                  /\ shape f = shape c
                  /\ bbox_of_instance f = bbox_of_instance c
                  /\ layer f = layer c).
  { destruct Hfc as [-> | (p & _ & ->)]; repeat split. }
  destruct Hsame as (_ & _ & E1 & E2 & E3 & E4 & E5).
  rewrite E1, E2, E3, E4, E5. clear Hfc E1 E2 E3 E4 E5 Hf He.
  unfold registrations in Hin.
  apply in_app_or in Hin. destruct Hin as [Hin|Hin];
    [|apply in_app_or in Hin; destruct Hin as [Hin|Hin]].
  - left. apply In_instance_registrations in Hin.
    destruct Hin as (it & Hit & Hl & Hh & Hc). exists it.
    destruct Hc as [(e' & _ & _ & ->) | ->]; repeat split; auto.
  - right. left. apply In_shape_registrations in Hin.
    destruct Hin as (lyr & it & pg & Hlyr & Hit & Hl & Hpg & Hc).
    exists lyr, it, pg.
    destruct Hc as [(e' & He' & ->) | ->]; simpl.
    + repeat split; auto. left. split; [reflexivity|]. eauto.
    + repeat split; auto.
  - right. right. apply In_annotation_registrations in Hin.
    destruct Hin as (-> & a & _ & [(_ & e' & _ & ->) | (_ & p & _ & _ & ->)]);
      repeat split.
Qed.

End FinderExtras.

(** * Further properties of the resolver *)

Lemma py_round_integral q k : (q == inject_Z k)%Q -> py_round q = k.
Proof.
  intros H. unfold py_round.
  assert (F : Qfloor q = k) by (rewrite H; apply Qfloor_Z).
  rewrite F.
  assert (C : (q - inject_Z k ?= 1 # 2)%Q = Lt).
  { rewrite <- Qlt_alt, H. lra. }
  rewrite C. reflexivity.
Qed.

Lemma Qabs_inject_Z z : Qabs (inject_Z z) = inject_Z (Z.abs z).
Proof. reflexivity. Qed.

Lemma snap_to_grid_multiple d grid_dbu :
  grid_dbu <> 0 -> (grid_dbu | d) -> snap_to_grid d grid_dbu = d.
Proof.
  intros Hg (k & ->). unfold snap_to_grid.
  rewrite (py_round_integral _ k); [reflexivity|].
  rewrite inject_Z_mult. field. unfold Qeq. simpl. lia.
Qed.

(** X8.  For a grid other than 0, [snap_to_grid] gives a multiple of the
    grid that is nearest to the offset, at most half a grid step away; an
    offset that is a multiple of the grid is kept. *)
Theorem snap_to_grid_nearest_multiple d grid_dbu :
  grid_dbu <> 0 ->
  (grid_dbu | snap_to_grid d grid_dbu)
  /\ 2 * Z.abs (snap_to_grid d grid_dbu - d) <= Z.abs grid_dbu
  /\ ((grid_dbu | d) -> snap_to_grid d grid_dbu = d).
Proof.
  intros Hg. unfold snap_to_grid.
  set (q := (inject_Z d / inject_Z grid_dbu)%Q).
  assert (Hgq : ~ (inject_Z grid_dbu == 0)%Q).
  { unfold Qeq. simpl. lia. }
  split; [apply Z.divide_factor_r|]. split.
  - pose proof (py_round_nearest q) as N.
    assert (E : (inject_Z (py_round q * grid_dbu - d)
                 == (inject_Z (py_round q) - q) * inject_Z grid_dbu)%Q).
    { unfold q, Z.sub.
      rewrite inject_Z_plus, inject_Z_opp, inject_Z_mult. field. exact Hgq. }
    assert (A : (Qabs (inject_Z (py_round q * grid_dbu - d))
                 <= (1 # 2) * Qabs (inject_Z grid_dbu))%Q).
    { rewrite E, Qabs_Qmult. apply Qmult_le_compat_r; [|apply Qabs_nonneg].
      rewrite Qabs_Qminus. exact N. }
    rewrite !Qabs_inject_Z in A.
    assert (B : (inject_Z (2 * Z.abs (py_round q * grid_dbu - d))
                 <= inject_Z (Z.abs grid_dbu))%Q).
    { rewrite inject_Z_mult. change (inject_Z 2) with 2%Q. lra. }
    rewrite <- Zle_Qle in B. exact B.
  - intros (k & ->).
    rewrite (py_round_integral q k); [reflexivity|].
    unfold q. rewrite inject_Z_mult. field. exact Hgq.
Qed.

Section ResolverExtras.

Context {G : PyaGeometry}.

(** X9.  With two point-like selections whose difference is a multiple of
    the grid in both components, every transformation applied moves the
    source snap point exactly onto the target snap point. *)
Theorem point_to_point_on_grid_lands_on_target
    self grid_dbu selection1 selection2 s1 s2 t tr :
  snap_point selection1 = Some s1 -> snap_point selection2 = Some s2 ->
  grid_dbu <> 0 ->
  (grid_dbu | Point.x s2 - Point.x s1) ->
  (grid_dbu | Point.y s2 - Point.y s1) ->
  In (Transform t tr)
     (fst (commit_align self grid_dbu selection1 selection2)) ->
  Point.new (Point.x s1 + trans_dx tr) (Point.y s1 + trans_dy tr) = s2.
Proof.
  intros H1 H2 Hg Hx Hy Hin.
  assert (Ho : offset_of selection1 selection2
               = Ok (Some (Point.x s2 - Point.x s1,
                           Point.y s2 - Point.y s1))).
  { unfold offset_of. rewrite H1, H2. reflexivity. }
  rewrite (In_commit_align_transform _ _ _ _ _ _ _ _ Ho Hg Hin). simpl.
  rewrite (snap_to_grid_multiple _ _ Hg Hx), (snap_to_grid_multiple _ _ Hg Hy).
  destruct s2 as [x2 y2]. simpl. f_equal; lia.
Qed.

(** The loop over the transformees, split at the first object that has no
    [transform] method. *)
Lemma transform_all_split ts trans :
  exists applied rest,
    ts = applied ++ rest
    /\ fst (transform_all ts trans)
       = map (fun t => Transform t trans) applied
    /\ forallb transformable applied = true
    /\ ((rest = [] /\ snd (transform_all ts trans) = Ok tt)
        \/ (exists t rest', rest = t :: rest'
              /\ transformable t = false
              /\ snd (transform_all ts trans) = Raise AttributeError)).
Proof.
  induction ts as [|t ts (applied & rest & E & Hc & Hall & Hr)].
  - exists [], []. simpl. repeat split; auto.
  - cbn [transform_all].
    destruct (transform_all ts trans) as [cs rr] eqn:Et.
    simpl in Hc, Hr.
    destruct t.
    + exists (PyInstance i :: applied), rest. simpl.
      rewrite E, Hc, Hall. repeat split; auto.
    + exists (PyShape sh :: applied), rest. simpl.
      rewrite E, Hc, Hall. repeat split; auto.
    + exists [], (PyBox b :: ts). simpl. repeat split; auto.
      right. exists (PyBox b), ts. auto.
    + exists [], (PyNone :: ts). simpl. repeat split; auto.
      right. exists PyNone, ts. auto.
Qed.

(** X10.  The host calls of [commit_align] have one of three shapes, for
    every input: none at all, the method ending by an exception; the warning
    and the cancellation, for edges that are not parallel; or the
    transaction, the transformation of the first transformees, the commit
    and the cancellation.  In the last shape the grid is not 0, and the
    commit and the cancellation are there in each of its three endings:
    every transformee is transformed; a transformee has no [transform]
    method and the loop ends by [AttributeError] at it; or a component of
    the snapped offset is not a coordinate of 32 bits, [pya.Trans] ends by
    [TypeError] and no object is transformed. *)
Theorem commit_align_calls_shape self grid_dbu selection1 selection2 :
  let calls := fst (commit_align self grid_dbu selection1 selection2) in
  let r := snd (commit_align self grid_dbu selection1 selection2) in
  (calls = [] /\ exists e, r = Raise e)
  \/ (calls = [MessageBoxWarning "Unsupported use case"
                 "Aligning non-parallel edges is not yet supported.";
               SendEscapeKey]
      /\ r = Ok tt)
  \/ (exists dx dy trans applied rest,
        offset_of selection1 selection2 = Ok (Some (dx, dy))
        /\ trans = {| trans_dx := snap_to_grid dx grid_dbu;
                      trans_dy := snap_to_grid dy grid_dbu |}
        /\ transformees_of self selection1 = applied ++ rest
        /\ calls = [Transaction "align"]
                   ++ map (fun t => Transform t trans) applied
                   ++ [Commit; SendEscapeKey]
        /\ grid_dbu <> 0
        /\ forallb transformable applied = true
        /\ ((coord_in_range (trans_dx trans)
             && coord_in_range (trans_dy trans) = true
             /\ rest = [] /\ r = Ok tt)
            \/ (coord_in_range (trans_dx trans)
                && coord_in_range (trans_dy trans) = true
                /\ exists t rest', rest = t :: rest'
                     /\ transformable t = false
                     /\ r = Raise AttributeError)
            \/ (coord_in_range (trans_dx trans)
                && coord_in_range (trans_dy trans) = false
                /\ applied = []
                /\ r = Raise TypeError))).
Proof.
  intros calls r. subst calls r. unfold commit_align.
  destruct (offset_of selection1 selection2) as [[[dx dy]|]|e].
  - destruct (Z.eqb_spec grid_dbu 0) as [Hg|Hg].
    + left. simpl. eauto.
    + right. right.
      set (trans := {| trans_dx := snap_to_grid dx grid_dbu;
                       trans_dy := snap_to_grid dy grid_dbu |}).
      exists dx, dy, trans.
      unfold Trans_new.
      change (snap_to_grid dx grid_dbu) with (trans_dx trans).
      change (snap_to_grid dy grid_dbu) with (trans_dy trans).
      destruct (coord_in_range (trans_dx trans)
                && coord_in_range (trans_dy trans)) eqn:Hr.
      * destruct (transform_all_split (transformees_of self selection1)
                    trans)
          as (applied & rest & E & Hc & Hall & Hres).
        exists applied, rest.
        change {| trans_dx := trans_dx trans; trans_dy := trans_dy trans |}
          with trans.
        destruct (transform_all _ trans) as [cs rr]. simpl in *.
        rewrite Hc.
        split; [reflexivity|]. split; [reflexivity|].
        split; [exact E|]. split; [reflexivity|]. split; [exact Hg|].
        split; [exact Hall|].
        destruct Hres as [[? ?]|?]; [left | right; left]; auto.
      * exists [], (transformees_of self selection1). simpl.
        split; [reflexivity|]. split; [reflexivity|].
        split; [reflexivity|]. split; [reflexivity|]. split; [exact Hg|].
        split; [reflexivity|]. right. right. auto.
  - right. left. simpl. auto.
  - left. simpl. eauto.
Qed.

(** X11.  When one of the selections is edge-like, the offset moves along
    one axis only, normal to the deciding edge: an offset with a vertical
    part comes from a horizontal edge, has no horizontal part and brings
    the reference point of the source to the height of the one of the
    target; an offset with a horizontal part comes from a vertical edge,
    has no vertical part and brings the reference point of the source to the
    abscissa of the one of the target. *)
Theorem edge_alignment_moves_normal_to_edge selection1 selection2 dx dy :
  snap_point selection1 = None \/ snap_point selection2 = None ->
  offset_of selection1 selection2 = Ok (Some (dx, dy)) ->
  exists r1 r2 e,
    reference_point selection1 = Some r1
    /\ reference_point selection2 = Some r2
    /\ deciding_edge selection1 selection2 = Some e
    /\ (dx = 0 \/ dy = 0)
    /\ (dy <> 0 -> Edge_dy e = 0 /\ dx = 0
                   /\ Point.y r1 + dy = Point.y r2)
    /\ (dx <> 0 -> Edge_dx e = 0 /\ Edge_dy e <> 0 /\ dy = 0
                   /\ Point.x r1 + dx = Point.x r2).
Proof.
  intros Hedge Ho.
  assert (A : forall e ax ay,
             axis_offset e ax ay = (dx, dy) ->
             (dx = 0 \/ dy = 0)
             /\ (dy <> 0 -> Edge_dy e = 0 /\ dx = 0 /\ dy = ay)
             /\ (dx <> 0 -> Edge_dx e = 0 /\ Edge_dy e <> 0 /\ dy = 0
                            /\ dx = ax)).
  { intros e ax ay. unfold axis_offset.
    destruct (Z.eqb_spec (Edge_dy e) 0) as [Hy|Hy];
      [|destruct (Z.eqb_spec (Edge_dx e) 0) as [Hx|Hx]];
      intros H; inversion H; subst; repeat split; auto; congruence. }
  unfold offset_of in Ho. unfold reference_point, deciding_edge.
  destruct (snap_point selection1) as [s1|] eqn:E1;
    destruct (snap_point selection2) as [s2|] eqn:E2.
  - destruct Hedge; discriminate.
  - destruct (edge selection2) as [edge2|]; [|discriminate].
    inversion Ho as [Ha]. apply A in Ha. destruct Ha as (Hz & Hy & Hx).
    exists s1, (Edge.p1 edge2), edge2. simpl.
    repeat split; auto.
    + apply Hy; assumption. + apply Hy; assumption.
    + destruct (Hy H) as (_ & _ & ->). unfold Edge.y1. lia.
    + apply Hx; assumption. + apply Hx; assumption.
    + apply Hx; assumption.
    + destruct (Hx H) as (_ & _ & _ & ->). unfold Edge.x1. lia.
  - destruct (edge selection1) as [edge1|]; [|discriminate].
    inversion Ho as [Ha]. apply A in Ha. destruct Ha as (Hz & Hy & Hx).
    exists (Edge.p1 edge1), s2, edge1. simpl.
    repeat split; auto.
    + apply Hy; assumption. + apply Hy; assumption.
    + destruct (Hy H) as (_ & _ & ->). unfold Edge.y1. lia.
    + apply Hx; assumption. + apply Hx; assumption.
    + apply Hx; assumption.
    + destruct (Hx H) as (_ & _ & _ & ->). unfold Edge.x1. lia.
  - destruct (edge selection1) as [edge1|]; [|discriminate].
    destruct (edge selection2) as [edge2|]; [|discriminate].
    destruct (Edge_is_parallel edge1 edge2); [|discriminate].
    inversion Ho as [Ha]. apply A in Ha. destruct Ha as (Hz & Hy & Hx).
    exists (Edge.p1 edge1), (Edge.p1 edge2), edge1. simpl.
    repeat split; auto.
    + apply Hy; assumption. + apply Hy; assumption.
    + destruct (Hy H) as (_ & _ & ->). unfold Edge.y1. lia.
    + apply Hx; assumption. + apply Hx; assumption.
    + apply Hx; assumption.
    + destruct (Hx H) as (_ & _ & _ & ->). unfold Edge.x1. lia.
Qed.

(** X12.  Two edge-like selections with parallel edges that are neither
    horizontal nor vertical raise no warning: the offset is (0, 0), the
    transaction runs, and every transformation applied is the translation
    by (0, 0). *)
Theorem parallel_diagonal_edges_are_not_moved
    self grid_dbu selection1 selection2 edge1 edge2 :
  snap_point selection1 = None -> snap_point selection2 = None ->
  edge selection1 = Some edge1 -> edge selection2 = Some edge2 ->
  Edge_is_parallel edge1 edge2 = true ->
  Edge_dx edge1 <> 0 -> Edge_dy edge1 <> 0 ->
  grid_dbu <> 0 ->
  let calls := fst (commit_align self grid_dbu selection1 selection2) in
  offset_of selection1 selection2 = Ok (Some (0, 0))
  /\ In (Transaction "align") calls
  /\ (forall title text, ~ In (MessageBoxWarning title text) calls)
  /\ (forall t tr, In (Transform t tr) calls ->
        tr = {| trans_dx := 0; trans_dy := 0 |}).
Proof.
  intros H1 H2 He1 He2 Hp Hdx Hdy Hg calls.
  assert (Ho : offset_of selection1 selection2 = Ok (Some (0, 0))).
  { unfold offset_of, axis_offset. rewrite H1, H2, He1, He2, Hp.
    apply Z.eqb_neq in Hdx, Hdy. rewrite Hdx, Hdy. reflexivity. }
  split; [exact Ho|].
  destruct (commit_align_offset self grid_dbu _ _ _ _ Ho Hg)
    as (applied & E & _).
  subst calls. split; [rewrite E; left; reflexivity|]. split.
  - intros title text Hin. rewrite E in Hin. simpl in Hin.
    destruct Hin as [Hin|Hin]; [discriminate|].
    apply in_app_or in Hin. destruct Hin as [Hin|Hin].
    + apply in_map_iff in Hin. destruct Hin as (x & Hx & _). discriminate.
    + simpl in Hin. destruct Hin as [Hin|[Hin|[]]]; discriminate.
  - intros t tr Hin.
    rewrite (In_commit_align_transform _ _ _ _ _ _ _ _ Ho Hg Hin).
    rewrite snap_to_grid_0. reflexivity.
Qed.

End ResolverExtras.

(** * The plugin and its events *)

Lemma selected_objects_flat_map h :
  selected_objects h
  = flat_map
      (fun o =>
         if oip_is_cell_inst o then [PyInstance (oip_inst o)]
         else match oip_shape o with
              | Some sh => [PyShape sh]
              | None => []
              end)
      (each_object_selected h).
Proof.
  unfold selected_objects.
  set (f := fun o =>
              if oip_is_cell_inst o then [PyInstance (oip_inst o)]
              else match oip_shape o with
                   | Some sh => [PyShape sh]
                   | None => []
                   end).
  assert (K : forall l acc,
             fold_left
               (fun l o =>
                  if oip_is_cell_inst o then l ++ [PyInstance (oip_inst o)]
                  else match oip_shape o with
                       | Some sh => l ++ [PyShape sh]
                       | None => l
                       end) l acc
             = acc ++ flat_map f l).
  { induction l as [|o l IH]; intros acc; simpl.
    - symmetry. apply app_nil_r.
    - rewrite IH. unfold f.
      destruct (oip_is_cell_inst o); [rewrite <- app_assoc; reflexivity|].
      destruct (oip_shape o); [rewrite <- app_assoc|]; reflexivity. }
  apply K.
Qed.

Lemma selected_objects_transformable h :
  forallb transformable (selected_objects h) = true.
Proof.
  rewrite selected_objects_flat_map.
  induction (each_object_selected h) as [|o l IH]; simpl; [reflexivity|].
  rewrite forallb_app, IH, andb_true_r.
  destruct (oip_is_cell_inst o); [reflexivity|].
  destruct (oip_shape o); reflexivity.
Qed.

Section PluginProperties.

Context {G : PyaGeometry}.

Lemma find_selection_has_edge view loc md rulers f :
  find_selection view loc md rulers = Ok (Some f) -> edge f <> None.
Proof.
  intros Hf. destruct (find_selection_registered _ _ _ _ _ Hf)
    as (c & e & _ & He & [-> | (p & _ & ->)]); simpl; congruence.
Qed.

(** Without the rulers, a feature names an object of the scene. *)
Lemma find_selection_names_scene_object view loc md f :
  find_selection view loc md false = Ok (Some f) -> names_scene_object f.
Proof.
  intros Hf. split; [apply (find_selection_has_edge _ _ _ _ _ Hf)|].
  destruct (find_selection_registered _ _ _ _ _ Hf)
    as (c & e & Hin & _ & Hfc).
  assert (Hc : bbox_of_instance c = None ->
               exists sh, shape c = Some (ShapeObj sh)).
  { unfold registrations in Hin.
    apply in_app_or in Hin. destruct Hin as [Hin|Hin];
      [|apply in_app_or in Hin; destruct Hin as [Hin|Hin]].
    - apply In_instance_registrations in Hin.
      destruct Hin as (it & _ & _ & _ & [(e' & _ & _ & ->) | ->]);
        simpl; discriminate.
    - apply In_shape_registrations in Hin.
      destruct Hin as (lyr & it & pg & _ & _ & _ & _
                       & [(e' & _ & ->) | ->]); simpl; eauto.
    - apply In_annotation_registrations in Hin.
      destruct Hin as (Hr & _). discriminate. }
  destruct Hfc as [-> | (p & _ & ->)]; exact Hc.
Qed.

Lemma markers_agree_nil : markers_agree None [].
Proof. reflexivity. Qed.

Ltac split8 :=
  split; [|split; [|split; [|split; [|split; [|split; [|split]]]]]].

(** The goal [dock_agrees] of a plugin whose dock is known, from the
    agreement [I6] of the plugin before. *)
Ltac dock_tac I6 :=
  let d := fresh "d" in
  let Hd := fresh "Hd" in
  let A := fresh "A" in
  let B := fresh "B" in
  let C := fresh "C" in
  intros d Hd; simpl in Hd; try discriminate Hd; injection Hd as <-;
  first [ destruct (I6 _ eq_refl) as (A & B & C); simpl in *;
          repeat split; solve [auto]
        | simpl; repeat split; reflexivity ].

Lemma new_plugin_invariant : plugin_invariant new_plugin.
Proof.
  split8; try discriminate; reflexivity.
Qed.

Lemma activated_invariant h self :
  plugin_invariant self -> plugin_invariant (fst (activated h self)).
Proof.
  intros I. unfold activated.
  destruct (widget_visible h); simpl; [|exact I].
  destruct I as (I1 & I2 & I3 & I4 & I5 & I6 & I7 & I8).
  destruct (setupDock self) as [dock|] eqn:Ed; simpl;
    (split8;
     [ discriminate | apply selected_objects_transformable | exact I3
     | exact I4 | exact I5
     | intros d Hd; injection Hd as <-; simpl; repeat split; reflexivity
     | exact I7 | exact I8 ]).
Qed.

Lemma deactivated_invariant self :
  plugin_invariant self -> plugin_invariant (fst (deactivated self)).
Proof.
  intros (I1 & I2 & I3 & I4 & I5 & I6 & I7 & I8).
  unfold deactivated. simpl.
  split8; try discriminate; try reflexivity; try exact I3.
  unfold dock_agrees. simpl.
  destruct (setupDock self) as [dock|]; simpl; [|discriminate].
  intros d Hd; injection Hd as <-; simpl; repeat split; reflexivity.
Qed.

Lemma mouse_moved_invariant h self loc buttons prio :
  plugin_invariant self ->
  plugin_invariant (fst (fst (mouse_moved_event h self loc buttons prio))).
Proof.
  intros I. unfold mouse_moved_event.
  destruct prio; [|exact I].
  destruct (state self) eqn:Est.
  - destruct (find_selection _ _ _ _) as [[f|]|e]; exact I.
  - destruct (find_selection _ _ _ false) as [[f|]|e] eqn:Ef; try exact I.
    pose proof (find_selection_names_scene_object _ _ _ _ Ef) as Hf.
    destruct I as (I1 & I2 & I3 & I4 & I5 & I6 & I7 & I8).
    unfold _clear_markers_selection1, _clear_markers_selection2. simpl.
    destruct (preview_markers_for_selection h f) as [ms|e] eqn:Em; simpl.
    + split8; auto.
      * intros s Hs. injection Hs as <-. exact Hf.
      * exists h. exact Em.
    + split8; auto; try discriminate; reflexivity.
  - destruct (find_selection _ _ _ true) as [[f|]|e] eqn:Ef; try exact I.
    pose proof (find_selection_has_edge _ _ _ _ _ Ef) as Hf.
    destruct I as (I1 & I2 & I3 & I4 & I5 & I6 & I7 & I8).
    unfold _clear_markers_selection1, _clear_markers_selection2. simpl.
    destruct (preview_markers_for_selection h f) as [ms|e] eqn:Em; simpl.
    + split8; auto.
      * intros s Hs. injection Hs as <-. exact Hf.
      * exists h. exact Em.
    + split8; auto; try discriminate; reflexivity.
Qed.

Lemma click_reset_invariant self buttons :
  plugin_invariant self -> plugin_invariant (fst (click_reset self buttons)).
Proof.
  intros I. unfold click_reset.
  destruct ((buttons =? 16) || (buttons =? 32)); [|exact I].
  destruct I as (I1 & I2 & I3 & I4 & I5 & I6 & I7 & I8).
  simpl.
  split8; try discriminate; try reflexivity; try exact I2.
  unfold dock_agrees, state in *. simpl.
  destruct (setupDock self) as [dock|]; simpl; [|discriminate].
  dock_tac I6.
Qed.

Lemma mouse_click_invariant h self loc buttons prio :
  plugin_invariant self ->
  plugin_invariant (fst (fst (mouse_click_event h self loc buttons prio))).
Proof.
  intros I. unfold mouse_click_event.
  destruct prio; [|exact I].
  destruct (buttons =? 8).
  - destruct (state self) eqn:Est; [exact I | |].
    + destruct (preview_selection1 self) as [p|] eqn:Ep; [|exact I].
      assert (J : plugin_invariant
                    (set_state (set_selection1 self (Some p))
                       PENDING_SELECTION2)).
      { destruct I as (I1 & I2 & I3 & I4 & I5 & I6 & I7 & I8).
        split8; auto.
        - discriminate.
        - simpl. intros s Hs. injection Hs as <-. apply I4, Ep.
        - unfold dock_agrees, state in *. simpl.
          destruct (setupDock self) as [dock|]; simpl; [|discriminate].
          dock_tac I6. }
      pose proof (click_reset_invariant _ buttons J) as R.
      destruct (click_reset _ buttons) as [t' c']. exact R.
    + destruct (preview_selection2 self) as [p2|] eqn:Ep; [|exact I].
      assert (J : plugin_invariant
                    (set_selection1 (set_state self INACTIVE) None)).
      { destruct I as (I1 & I2 & I3 & I4 & I5 & I6 & I7 & I8).
        split8; auto; try discriminate.
        unfold dock_agrees, state in *. simpl.
        destruct (setupDock self) as [dock|]; simpl; [|discriminate].
        dock_tac I6. }
      destruct (selection1 self) as [s1|]; [|exact J].
      destruct (commit_align _ _ s1 p2) as [calls [u|e]]; [|exact J].
      pose proof (click_reset_invariant _ buttons J) as R.
      destruct (click_reset _ buttons) as [t' c']. exact R.
  - pose proof (click_reset_invariant self buttons I) as R.
    destruct (click_reset self buttons) as [t' c']. exact R.
Qed.

(** Every sequence of events keeps the invariant. *)
Lemma run_invariant evs : plugin_invariant (run evs).
Proof.
  unfold run.
  assert (K : forall self, plugin_invariant self ->
               plugin_invariant
                 (fold_left (fun self ev => handle ev self) evs self)).
  { induction evs as [|ev evs IH]; intros self I; simpl; [exact I|].
    apply IH. destruct ev; simpl.
    - apply activated_invariant, I.
    - apply deactivated_invariant, I.
    - apply mouse_moved_invariant, I.
    - apply mouse_click_invariant, I. }
  apply K, new_plugin_invariant.
Qed.

End PluginProperties.

(** X13.  [selected_objects] collects, in the order of the selection, the
    instance of every entry that is a cell instance and the shape of every
    other entry that has one; entries with neither are left out.  So every
    object it returns is an instance or a shape, and there are at most as
    many as entries. *)
Theorem selected_objects_are_instances_and_shapes h :
  selected_objects h
  = flat_map
      (fun o =>
         if oip_is_cell_inst o then [PyInstance (oip_inst o)]
         else match oip_shape o with
              | Some sh => [PyShape sh]
              | None => []
              end)
      (each_object_selected h)
  /\ forallb transformable (selected_objects h) = true
  /\ (List.length (selected_objects h)
      <= List.length (each_object_selected h))%nat.
Proof.
  split; [apply selected_objects_flat_map|].
  split; [apply selected_objects_transformable|].
  rewrite selected_objects_flat_map.
  induction (each_object_selected h) as [|o l IH]; simpl; [lia|].
  rewrite length_app.
  destruct (oip_is_cell_inst o); simpl; [lia|].
  destruct (oip_shape o); simpl; lia.
Qed.

Section PluginClaims.

Context {G : PyaGeometry}.

(** [commit_align] reads the plugin by its pre-selection only. *)
Lemma commit_align_pre_selection a b grid s1 s2 :
  _pre_selected_objects a = _pre_selected_objects b ->
  commit_align a grid s1 s2 = commit_align b grid s1 s2.
Proof.
  intros H. unfold commit_align, transformees_of, pre_selected_objects.
  rewrite H. reflexivity.
Qed.

Lemma transformees_transformable self s1 :
  forallb transformable (_pre_selected_objects self) = true ->
  names_scene_object s1 ->
  forallb transformable (transformees_of self s1) = true.
Proof.
  intros Hpre (_ & Hs). unfold transformees_of, pre_selected_objects.
  destruct (1 <=? List.length (_pre_selected_objects self))%nat;
    [exact Hpre|].
  destruct (List.length (path s1) =? 0)%nat.
  - destruct (bbox_of_instance s1); [reflexivity|].
    destruct (Hs eq_refl) as (sh & ->). reflexivity.
  - destruct (1 <=? List.length (path s1))%nat; [|reflexivity].
    destruct (path s1); reflexivity.
Qed.

(** With edges on both sides, transformees that can be transformed, a grid
    other than 0 and a snapped offset of 32 bits, [commit_align] ends
    without an exception. *)
Lemma commit_align_ok self grid s1 s2 :
  edge s1 <> None -> edge s2 <> None ->
  forallb transformable (transformees_of self s1) = true ->
  grid <> 0 ->
  (forall dx dy,
     offset_of s1 s2 = Ok (Some (dx, dy)) ->
     coord_in_range (snap_to_grid dx grid)
     && coord_in_range (snap_to_grid dy grid) = true) ->
  snd (commit_align self grid s1 s2) = Ok tt.
Proof.
  intros H1 H2 Hall Hg Hr.
  destruct (offset_of s1 s2) as [[[dx dy]|]|e] eqn:Ho.
  - destruct (commit_align_offset self grid _ _ _ _ Ho Hg)
      as (applied & _ & Hok & _).
    apply Hok; [apply Hr; reflexivity | exact Hall].
  - unfold commit_align. rewrite Ho. reflexivity.
  - exfalso. unfold offset_of in Ho.
    destruct (snap_point s1), (snap_point s2), (edge s1), (edge s2);
      try discriminate; try congruence.
    destruct (Edge_is_parallel t t0); discriminate.
Qed.

(** With a grid other than 0 and a snapped offset with a component that is
    not of 32 bits, [commit_align] ends by [TypeError], having opened and
    committed the transaction and transformed no object. *)
Lemma commit_align_out_of_range self grid s1 s2 dx dy :
  offset_of s1 s2 = Ok (Some (dx, dy)) ->
  grid <> 0 ->
  coord_in_range (snap_to_grid dx grid)
  && coord_in_range (snap_to_grid dy grid) = false ->
  commit_align self grid s1 s2
  = ([Transaction "align"; Commit; SendEscapeKey], Raise TypeError).
Proof.
  intros Ho Hg Hr.
  destruct (commit_align_offset self grid _ _ _ _ Ho Hg)
    as (applied & E & _ & _ & Hout).
  destruct (Hout Hr) as [-> Hres].
  destruct (commit_align _ _ _ _) as [calls r]. simpl in *.
  subst. reflexivity.
Qed.

(** The primary click of a plugin that awaits the target and has a
    preview and a committed source. *)
Lemma target_click_eq h self loc s1 s2 :
  state self = PENDING_SELECTION2 ->
  preview_selection2 self = Some s2 ->
  selection1 self = Some s1 ->
  mouse_click_event h self loc 8 true
  = (set_selection1 (set_state self INACTIVE) None,
     map Resolve (fst (commit_align (core self) (grid_dbu h) s1 s2)),
     match snd (commit_align (core self) (grid_dbu h) s1 s2) with
     | Ok _ => Ok true
     | Raise e => Raise e
     end).
Proof.
  intros Hst Hp Hs. unfold mouse_click_event.
  change (8 =? 8) with true. cbv iota. rewrite Hst, Hp, Hs. cbv zeta.
  rewrite (commit_align_pre_selection
             (core (set_selection1 (set_state self INACTIVE) None))
             (core self)) by reflexivity.
  destruct (commit_align (core self) (grid_dbu h) s1 s2) as [calls [u|e]];
    [|reflexivity].
  unfold click_reset. simpl. rewrite app_nil_r. reflexivity.
Qed.

(** X14.  After every sequence of events, a plugin that awaits the target
    has a committed source, and this source was found without the rulers:
    it has an edge, and it names an instance or a shape of the scene. *)
Theorem pending_target_has_scene_source evs :
  state (run evs) = PENDING_SELECTION2 ->
  exists s1,
    selection1 (run evs) = Some s1
    /\ edge s1 <> None
    /\ (bbox_of_instance s1 = None ->
        exists sh, shape s1 = Some (ShapeObj sh)).
Proof.
  intros Hst.
  destruct (run_invariant evs) as (I1 & _ & I3 & _).
  destruct (selection1 (run evs)) as [s1|] eqn:E.
  - exists s1. split; [reflexivity|]. apply (I3 s1 eq_refl).
  - exfalso. apply (I1 Hst). reflexivity.
Qed.

(** X15.  After every sequence of events the labels of the dock, when the
    dock exists, show the state and the pre-selection of the plugin: no
    status in state INACTIVE, the mark of the next step at the source in
    PENDING_SELECTION1, the check mark at the source and the mark of the
    next step at the target in PENDING_SELECTION2, and the text of
    [updatePreSelection] for the current pre-selection. *)
Theorem dock_labels_show_the_state evs dock :
  setupDock (run evs) = Some dock ->
  let w := setupWidget dock in
  (selection1_status_label w, selection2_status_label w)
  = match state (run evs) with
    | INACTIVE => (""%string, ""%string)
    | PENDING_SELECTION1 => (next_status, ""%string)
    | PENDING_SELECTION2 => (done_status, next_status)
    end
  /\ pre_selection_label w
     = pre_selection_text (_pre_selected_objects (core (run evs))).
Proof.
  intros Hd w.
  destruct (run_invariant evs) as (_ & _ & _ & _ & _ & I6 & _).
  destruct (I6 dock Hd) as (A & B & C). fold w in A, B, C.
  split; [|exact C].
  rewrite A, B. destruct (state (run evs)); reflexivity.
Qed.

(** X16.  After every sequence of events the markers of a slot are those of
    its preview: no marker without a preview; with a preview, the marker of
    its edge first, then the box marker of its snap point when it has one,
    and the marker of its search box last. *)
Theorem markers_are_those_of_the_preview evs :
  let self := run evs in
  let shown (preview : option AlignToolSelection) (markers : list Marker) :=
    match preview with
    | None => markers = []
    | Some s =>
        exists e, edge s = Some e
          /\ hd_error markers
             = Some {| line_style := 0; line_width := 2; vertex_size := 0;
                       dither_pattern := 2; marker_shape := MarkerEdge e |}
          /\ last markers {| line_style := 0; line_width := 0;
                             vertex_size := 0; dither_pattern := 0;
                             marker_shape := MarkerEdge e |}
             = {| line_style := 2; line_width := 1; vertex_size := 0;
                  dither_pattern := -1;
                  marker_shape := MarkerBox (search_box s) |}
          /\ List.length markers
             = match snap_point s with Some _ => 3%nat | None => 2%nat end
    end in
  shown (preview_selection1 self) (markers_selection1 self)
  /\ shown (preview_selection2 self) (markers_selection2 self).
Proof.
  intros self shown.
  assert (K : forall preview markers,
             markers_agree preview markers -> shown preview markers).
  { intros [s|] markers; simpl; [|auto].
    intros (h & Hm). unfold preview_markers_for_selection in Hm.
    destruct (edge s) as [e|]; [|discriminate].
    exists e. split; [reflexivity|].
    destruct (snap_point s); inversion Hm; subst; repeat split. }
  destruct (run_invariant evs) as (_ & _ & _ & _ & _ & _ & I7 & I8).
  split; apply K; assumption.
Qed.

(** X17.  After every sequence of events, a primary click on a plugin that
    awaits the target and has a preview has a committed source, leaves the
    plugin INACTIVE with no committed source, and makes the calls of
    [commit_align] for the committed source and the preview.  With a grid
    other than 0 the outcome depends on the snapped offset only: when its
    components are coordinates of 32 bits the alignment ends normally and
    the handler returns [True]; when one of them is not, [pya.Trans] ends
    by [TypeError], which the handler lets through, and the calls made are
    the opening and the commit of the transaction and the cancellation, no
    object being transformed. *)
Theorem target_click_commits_safely evs h loc s2 :
  state (run evs) = PENDING_SELECTION2 ->
  preview_selection2 (run evs) = Some s2 ->
  grid_dbu h <> 0 ->
  exists s1,
    selection1 (run evs) = Some s1
    /\ ((forall dx dy,
           offset_of s1 s2 = Ok (Some (dx, dy)) ->
           coord_in_range (snap_to_grid dx (grid_dbu h))
           && coord_in_range (snap_to_grid dy (grid_dbu h)) = true) ->
        snd (commit_align (core (run evs)) (grid_dbu h) s1 s2) = Ok tt
        /\ snd (mouse_click_event h (run evs) loc 8 true) = Ok true)
    /\ (forall dx dy,
          offset_of s1 s2 = Ok (Some (dx, dy)) ->
          coord_in_range (snap_to_grid dx (grid_dbu h))
          && coord_in_range (snap_to_grid dy (grid_dbu h)) = false ->
          snd (mouse_click_event h (run evs) loc 8 true) = Raise TypeError
          /\ snd (fst (mouse_click_event h (run evs) loc 8 true))
             = [Resolve (Transaction "align"); Resolve Commit;
                Resolve SendEscapeKey])
    /\ snd (fst (mouse_click_event h (run evs) loc 8 true))
       = map Resolve
           (fst (commit_align (core (run evs)) (grid_dbu h) s1 s2))
    /\ state (fst (fst (mouse_click_event h (run evs) loc 8 true)))
       = INACTIVE
    /\ selection1 (fst (fst (mouse_click_event h (run evs) loc 8 true)))
       = None.
Proof.
  intros Hst Hp Hg.
  destruct (run_invariant evs) as (I1 & I2 & I3 & _ & I5 & _).
  destruct (selection1 (run evs)) as [s1|] eqn:E1;
    [|exfalso; apply (I1 Hst); reflexivity].
  exists s1. split; [reflexivity|].
  pose proof (I3 s1 eq_refl) as Hs1.
  rewrite (target_click_eq h (run evs) loc s1 s2 Hst Hp E1).
  split; [|split].
  - intros Hr.
    assert (Hok : snd (commit_align (core (run evs)) (grid_dbu h) s1 s2)
                  = Ok tt).
    { apply commit_align_ok; auto.
      - apply Hs1.
      - apply transformees_transformable; assumption. }
    split; [exact Hok|]. simpl. rewrite Hok. reflexivity.
  - intros dx dy Ho Hr.
    rewrite (commit_align_out_of_range _ _ _ _ _ _ Ho Hg Hr).
    split; reflexivity.
  - repeat split.
Qed.

(** X18.  A click with button 16 or 32 resets the plugin from every state,
    INACTIVE included: the markers of both slots are destroyed, the previews
    and the committed source are dropped, the state is PENDING_SELECTION1 and
    the pre-selection is kept; the handler returns [True]. *)
Theorem secondary_click_resets h self loc buttons :
  buttons = 16 \/ buttons = 32 ->
  let after := fst (fst (mouse_click_event h self loc buttons true)) in
  mouse_click_event h self loc buttons true
  = (after,
     map DestroyMarker (markers_selection1 self)
     ++ map DestroyMarker (markers_selection2 self),
     Ok true)
  /\ state after = PENDING_SELECTION1
  /\ selection1 after = None
  /\ preview_selection1 after = None /\ preview_selection2 after = None
  /\ markers_selection1 after = [] /\ markers_selection2 after = []
  /\ _pre_selected_objects (core after) = _pre_selected_objects (core self).
Proof.
  intros Hb after. subst after. unfold mouse_click_event, click_reset.
  destruct Hb as [-> | ->]; simpl; repeat split.
Qed.

(** X19.  A pointer move that finds no feature keeps the preview and the
    markers of the pending slot, so the primary click that follows commits
    the feature found before: here in state PENDING_SELECTION1, where the
    move shows the hint and returns [False], and the click makes the old
    preview the source and awaits the target. *)
Theorem move_without_feature_keeps_preview
    h h' self loc loc' buttons p :
  state self = PENDING_SELECTION1 ->
  preview_selection1 self = Some p ->
  find_selection (host_view h) loc (max_distance h) false = Ok None ->
  mouse_moved_event h self loc buttons true
  = (self, [ShowToolTip "Select shape feature to align"], Ok false)
  /\ let after :=
       fst (fst (mouse_click_event h'
                   (fst (fst (mouse_moved_event h self loc buttons true)))
                   loc' 8 true)) in
     selection1 after = Some p
     /\ state after = PENDING_SELECTION2
     /\ markers_selection1 after = markers_selection1 self.
Proof.
  intros Hst Hp Hf.
  assert (E : mouse_moved_event h self loc buttons true
              = (self, [ShowToolTip "Select shape feature to align"],
                 Ok false)).
  { unfold mouse_moved_event. rewrite Hst, Hf. reflexivity. }
  split; [exact E|]. rewrite E. simpl.
  unfold mouse_click_event. simpl. rewrite Hst, Hp.
  unfold click_reset. simpl. repeat split.
Qed.

(** The three steps that lead to the click on the target. *)
Lemma moved_found_source h self loc b f :
  state self = PENDING_SELECTION1 ->
  find_selection (host_view h) loc (max_distance h) false = Ok (Some f) ->
  let after := handle (MouseMoved h loc b true) self in
  core after = core self /\ preview_selection1 after = Some f
  /\ preview_selection2 after = preview_selection2 self.
Proof.
  intros Hst Hf. simpl. unfold mouse_moved_event. rewrite Hst, Hf.
  pose proof (find_selection_has_edge _ _ _ _ _ Hf) as He.
  unfold _clear_markers_selection1, preview_markers_for_selection.
  destruct (edge f); [|congruence]. simpl. repeat split.
Qed.

Lemma moved_found_target h self loc b f :
  state self = PENDING_SELECTION2 ->
  find_selection (host_view h) loc (max_distance h) true = Ok (Some f) ->
  let after := handle (MouseMoved h loc b true) self in
  core after = core self /\ preview_selection2 after = Some f.
Proof.
  intros Hst Hf. simpl. unfold mouse_moved_event. rewrite Hst, Hf.
  pose proof (find_selection_has_edge _ _ _ _ _ Hf) as He.
  unfold _clear_markers_selection2, preview_markers_for_selection.
  destruct (edge f); [|congruence]. simpl. repeat split.
Qed.

Lemma click_source h self loc p :
  state self = PENDING_SELECTION1 ->
  preview_selection1 self = Some p ->
  let after := handle (MouseClick h loc 8 true) self in
  state after = PENDING_SELECTION2 /\ selection1 after = Some p
  /\ _pre_selected_objects (core after) = _pre_selected_objects (core self)
  /\ preview_selection2 after = preview_selection2 self
  /\ markers_selection1 after = markers_selection1 self.
Proof.
  intros Hst Hp. simpl. unfold mouse_click_event. simpl. rewrite Hst, Hp.
  unfold click_reset. simpl. repeat split.
Qed.

(** X20.  A session, from a plugin that awaits the source: a pointer move
    that finds [f1] (the rulers not considered), a primary click, a pointer
    move that finds [f2] (the rulers considered) and a primary click call
    [commit_align] with [f1] as the source and [f2] as the target, under the
    pre-selection of the plugin and the grid of the last event; the plugin
    ends INACTIVE with no committed source, and the last handler returns
    [True] unless [commit_align] raises. *)
Theorem session_commits_source_then_target
    self h1 h2 h3 h4 loc1 loc2 loc3 loc4 b1 b3 f1 f2 :
  state self = PENDING_SELECTION1 ->
  find_selection (host_view h1) loc1 (max_distance h1) false
  = Ok (Some f1) ->
  find_selection (host_view h3) loc3 (max_distance h3) true
  = Ok (Some f2) ->
  let self3 :=
    handle (MouseMoved h3 loc3 b3 true)
      (handle (MouseClick h2 loc2 8 true)
         (handle (MouseMoved h1 loc1 b1 true) self)) in
  let last := mouse_click_event h4 self3 loc4 8 true in
  state self3 = PENDING_SELECTION2
  /\ selection1 self3 = Some f1
  /\ preview_selection2 self3 = Some f2
  /\ snd (fst last)
     = map Resolve (fst (commit_align (core self) (grid_dbu h4) f1 f2))
  /\ snd last
     = match snd (commit_align (core self) (grid_dbu h4) f1 f2) with
       | Ok _ => Ok true
       | Raise e => Raise e
       end
  /\ state (fst (fst last)) = INACTIVE
  /\ selection1 (fst (fst last)) = None.
Proof.
  intros Hst Hf1 Hf3 self3 last.
  pose proof (find_selection_has_edge _ _ _ _ _ Hf1) as He1.
  pose proof (find_selection_has_edge _ _ _ _ _ Hf3) as He2.
  assert (E3 : state self3 = PENDING_SELECTION2
               /\ selection1 self3 = Some f1
               /\ preview_selection2 self3 = Some f2
               /\ _pre_selected_objects (core self3)
                  = _pre_selected_objects (core self)).
  { destruct (moved_found_source h1 self loc1 b1 f1 Hst Hf1)
      as (A1 & A2 & _).
    assert (Hst1 : state (handle (MouseMoved h1 loc1 b1 true) self)
                   = PENDING_SELECTION1).
    { unfold state. rewrite A1. exact Hst. }
    destruct (click_source h2 _ loc2 f1 Hst1 A2) as (B1 & B2 & B3 & _).
    destruct (moved_found_target h3 _ loc3 b3 f2 B1 Hf3) as (C1 & C2).
    subst self3. unfold state, selection1 in *. rewrite C1.
    repeat split; auto. rewrite B3, A1. reflexivity. }
  destruct E3 as (S3 & C3 & P3 & Q3).
  split; [exact S3|]. split; [exact C3|]. split; [exact P3|].
  subst last. rewrite (target_click_eq h4 self3 loc4 f1 f2 S3 P3 C3).
  rewrite (commit_align_pre_selection (core self3) (core self)) by exact Q3.
  simpl. repeat split.
Qed.

End PluginClaims.

(** ** The further properties at concrete inputs *)

(** X4 at the query on [Scene.dense_view]. *)
Lemma find_selection_feature_of_query_witness :
  find_selection (G := RefGeometry) Scene.dense_view Scene.origin 5 false
  = Ok (Some (set_snap_point Scene.strip_left_edge (Point.new 2 0)))
  /\ location (set_snap_point Scene.strip_left_edge (Point.new 2 0))
     = Scene.origin
  /\ search_box (set_snap_point Scene.strip_left_edge (Point.new 2 0))
     = search_box_of Scene.origin 5
  /\ exists e,
       edge (set_snap_point Scene.strip_left_edge (Point.new 2 0)) = Some e
       /\ forall p,
            snap_point (set_snap_point Scene.strip_left_edge (Point.new 2 0))
            = Some p ->
            In p (edge_points (G := RefGeometry) e).
Proof.
  split; [vm_compute; reflexivity|].
  apply (find_selection_feature_of_query (G := RefGeometry)
           Scene.dense_view Scene.origin 5 false).
  vm_compute. reflexivity.
Defined.

(** X5 at the query on [Scene.cover_view]: the only candidate has no
    clip. *)
Lemma find_selection_none_iff_witness :
  is_cell_hidden Scene.cover_view (cell_index (cell Scene.cover_view)) = false
  /\ (find_selection (G := RefGeometry) Scene.cover_view Scene.origin 5 false
      = Ok None
      <-> forall c,
            In c (registrations (G := RefGeometry) Scene.cover_view
                    (search_box_of Scene.origin 5) Scene.origin false) ->
            clip_distance (G := RefGeometry) (search_box_of Scene.origin 5)
              Scene.origin c = None).
Proof.
  split; [reflexivity|].
  apply (find_selection_none_iff (G := RefGeometry)
           Scene.cover_view Scene.origin 5 false).
  reflexivity.
Defined.

(** X6 at [Scene.flat_view]. *)
Lemma find_selection_without_scan_witness :
  max_hier_levels Scene.flat_view < 1
  /\ find_selection (G := RefGeometry) Scene.flat_view Scene.origin 5 false
     = Ok None.
Proof.
  split; [reflexivity|].
  apply (find_selection_without_scan (G := RefGeometry)
           Scene.flat_view Scene.origin 5 false).
  right. split; [reflexivity | reflexivity].
Defined.

(** X7 at the query on [Scene.tie_view]: the feature is an edge of the
    bounding box of [Scene.macro]. *)
Lemma find_selection_provenance_witness :
  find_selection (G := RefGeometry) Scene.tie_view Scene.origin 5 false
  = Ok (Some Scene.macro_left_edge)
  /\ exists it,
       In it (begin_instances_rec_overlapping (cell Scene.tie_view)
                (search_box_of Scene.origin 5) 0 0)
       /\ is_cell_hidden Scene.tie_view (inst_cell_index (current_inst it))
          = false
       /\ bbox_of_instance Scene.macro_left_edge = Some (current_inst it)
       /\ layer Scene.macro_left_edge = None.
Proof.
  split; [vm_compute; reflexivity|].
  destruct (find_selection_provenance (G := RefGeometry)
              Scene.tie_view Scene.origin 5 false Scene.macro_left_edge)
    as [(it & Hit & _ & Hh & Hb & _ & _ & Hl)
       | [(lyr & it & pg & _ & _ & _ & _ & _ & Hb & _)
         | (Hr & _)]].
  - vm_compute. reflexivity.
  - exists it. repeat split; assumption.
  - discriminate Hb.
  - discriminate Hr.
Defined.

(** X8 at offset 7 and grid 5, and at offset 15. *)
Lemma snap_to_grid_nearest_multiple_witness :
  (5 | snap_to_grid 7 5)
  /\ 2 * Z.abs (snap_to_grid 7 5 - 7) <= Z.abs 5
  /\ snap_to_grid 7 5 = 5
  /\ snap_to_grid 15 5 = 15.
Proof.
  destruct (snap_to_grid_nearest_multiple 7 5) as (A & B & _); [lia|].
  destruct (snap_to_grid_nearest_multiple 15 5) as (_ & _ & C); [lia|].
  split; [exact A|]. split; [exact B|]. split; [reflexivity|].
  apply C. exists 3. reflexivity.
Defined.

(** X9 at source (10, 10), target (20, 25) and a grid of 5. *)
Lemma point_to_point_on_grid_lands_on_target_witness :
  In (Transform (PyShape Scene.strip) {| trans_dx := 10; trans_dy := 15 |})
     (fst (commit_align (G := RefGeometry) Scene.plain_plugin 5
             (Scene.point_selection (Point.new 10 10))
             (Scene.point_selection (Point.new 20 25))))
  /\ Point.new (10 + 10) (10 + 15) = Point.new 20 25.
Proof.
  assert (H : In (Transform (PyShape Scene.strip)
                    {| trans_dx := 10; trans_dy := 15 |})
                 (fst (commit_align (G := RefGeometry) Scene.plain_plugin 5
                         (Scene.point_selection (Point.new 10 10))
                         (Scene.point_selection (Point.new 20 25))))).
  { vm_compute. right. left. reflexivity. }
  split; [exact H|].
  apply (point_to_point_on_grid_lands_on_target (G := RefGeometry)
           Scene.plain_plugin 5
           (Scene.point_selection (Point.new 10 10))
           (Scene.point_selection (Point.new 20 25))
           (Point.new 10 10) (Point.new 20 25)
           (PyShape Scene.strip) {| trans_dx := 10; trans_dy := 15 |}).
  - reflexivity.
  - reflexivity.
  - lia.
  - exists 2. reflexivity.
  - exists 3. reflexivity.
  - exact H.
Defined.

(** X11 at the source point (4, 4) and the horizontal target edge from
    (0, 10) to (20, 10): the offset is (0, 6). *)
Lemma edge_alignment_moves_normal_to_edge_witness :
  offset_of (G := RefGeometry) (Scene.point_selection (Point.new 4 4))
    (Scene.edge_selection Scene.rail) = Ok (Some (0, 6))
  /\ exists r1 r2 e,
       reference_point (Scene.point_selection (Point.new 4 4)) = Some r1
       /\ reference_point (Scene.edge_selection Scene.rail) = Some r2
       /\ deciding_edge (Scene.point_selection (Point.new 4 4))
            (Scene.edge_selection Scene.rail) = Some e
       /\ Edge_dy (PyaGeometry := RefGeometry) e = 0
       /\ Point.y r1 + 6 = Point.y r2.
Proof.
  split; [reflexivity|].
  destruct (edge_alignment_moves_normal_to_edge (G := RefGeometry)
              (Scene.point_selection (Point.new 4 4))
              (Scene.edge_selection Scene.rail) 0 6)
    as (r1 & r2 & e & H1 & H2 & He & _ & Hy & _).
  - right. reflexivity.
  - reflexivity.
  - exists r1, r2, e.
    destruct Hy as (A & _ & B); [discriminate|]. auto.
Defined.

(** X12 at two parallel diagonal edges. *)
Lemma parallel_diagonal_edges_are_not_moved_witness :
  Edge_is_parallel (PyaGeometry := RefGeometry)
    Scene.diagonal Scene.diagonal_shifted = true
  /\ commit_align (G := RefGeometry) Scene.plain_plugin 5
       (Scene.edge_selection Scene.diagonal)
       (Scene.edge_selection Scene.diagonal_shifted)
     = ([Transaction "align";
         Transform (PyShape Scene.strip) {| trans_dx := 0; trans_dy := 0 |};
         Commit; SendEscapeKey], Ok tt)
  /\ offset_of (G := RefGeometry)
       (Scene.edge_selection Scene.diagonal)
       (Scene.edge_selection Scene.diagonal_shifted) = Ok (Some (0, 0)).
Proof.
  split; [reflexivity|]. split; [vm_compute; reflexivity|].
  apply (parallel_diagonal_edges_are_not_moved (G := RefGeometry)
           Scene.plain_plugin 5
           (Scene.edge_selection Scene.diagonal)
           (Scene.edge_selection Scene.diagonal_shifted)
           Scene.diagonal Scene.diagonal_shifted);
    try reflexivity; vm_compute; discriminate.
Defined.

(** X14 after [Session.to_target]. *)
Lemma pending_target_has_scene_source_witness :
  state (run (G := RefGeometry) Session.to_target) = PENDING_SELECTION2
  /\ selection1 (run (G := RefGeometry) Session.to_target)
     = Some Scene.macro_left_edge
  /\ exists s1,
       selection1 (run (G := RefGeometry) Session.to_target) = Some s1
       /\ edge s1 <> None
       /\ (bbox_of_instance s1 = None ->
           exists sh, shape s1 = Some (ShapeObj sh)).
Proof.
  split; [vm_compute; reflexivity|]. split; [vm_compute; reflexivity|].
  apply (pending_target_has_scene_source (G := RefGeometry)
           Session.to_target).
  vm_compute. reflexivity.
Defined.

(** X15 after [Session.to_target]. *)
Lemma dock_labels_show_the_state_witness :
  exists dock,
    setupDock (run (G := RefGeometry) Session.to_target) = Some dock
    /\ (selection1_status_label (setupWidget dock),
        selection2_status_label (setupWidget dock))
       = (done_status, next_status)
    /\ pre_selection_label (setupWidget dock) = pre_selection_text [].
Proof.
  destruct (setupDock (run (G := RefGeometry) Session.to_target))
    as [dock|] eqn:E; [|vm_compute in E; discriminate E].
  exists dock. split; [reflexivity|].
  destruct (dock_labels_show_the_state (G := RefGeometry)
              Session.to_target dock E) as (A & B).
  split.
  - rewrite A. reflexivity.
  - rewrite B. reflexivity.
Defined.

(** X17 after [Session.to_target]: the click moves [Scene.macro] by the
    snapped offset (0, 0) of two equal edges. *)
Lemma target_click_commits_safely_witness :
  state (run (G := RefGeometry) Session.to_target) = PENDING_SELECTION2
  /\ preview_selection2 (run (G := RefGeometry) Session.to_target)
     = Some Scene.macro_left_edge
  /\ snd (mouse_click_event (G := RefGeometry) Session.host
            (run (G := RefGeometry) Session.to_target) Scene.origin 8 true)
     = Ok true
  /\ snd (fst (mouse_click_event (G := RefGeometry) Session.host
                 (run (G := RefGeometry) Session.to_target)
                 Scene.origin 8 true))
     = [Resolve (Transaction "align");
        Resolve (Transform (PyInstance Scene.macro)
                   {| trans_dx := 0; trans_dy := 0 |});
        Resolve Commit; Resolve SendEscapeKey].
Proof.
  split; [vm_compute; reflexivity|]. split; [vm_compute; reflexivity|].
  destruct (target_click_commits_safely (G := RefGeometry)
              Session.to_target Session.host Scene.origin
              Scene.macro_left_edge)
    as (s1 & Hs1 & Hr & _).
  - vm_compute. reflexivity.
  - vm_compute. reflexivity.
  - vm_compute. discriminate.
  - vm_compute in Hs1. injection Hs1 as <-.
    split; [|vm_compute; reflexivity].
    apply Hr. intros dx dy Ho. vm_compute in Ho.
    injection Ho as <- <-. vm_compute. reflexivity.
Defined.

(** X18 at a click with button 16 after [Session.to_target]. *)
Lemma secondary_click_resets_witness :
  state (fst (fst (mouse_click_event (G := RefGeometry) Session.host
                     (run (G := RefGeometry) Session.to_target)
                     Scene.origin 16 true)))
  = PENDING_SELECTION1
  /\ selection1 (fst (fst (mouse_click_event (G := RefGeometry) Session.host
                             (run (G := RefGeometry) Session.to_target)
                             Scene.origin 16 true)))
     = None.
Proof.
  destruct (secondary_click_resets (G := RefGeometry) Session.host
              (run (G := RefGeometry) Session.to_target) Scene.origin 16)
    as (_ & A & B & _).
  - left. reflexivity.
  - split; [exact A | exact B].
Defined.

(** X19 after [Session.to_source], on a host with nothing to find. *)
Lemma move_without_feature_keeps_preview_witness :
  state (run (G := RefGeometry) Session.to_source) = PENDING_SELECTION1
  /\ find_selection (G := RefGeometry) (host_view Session.empty_host)
       Scene.origin (max_distance Session.empty_host) false = Ok None
  /\ selection1
       (fst (fst (mouse_click_event (G := RefGeometry) Session.host
                    (fst (fst (mouse_moved_event (G := RefGeometry)
                                 Session.empty_host
                                 (run (G := RefGeometry) Session.to_source)
                                 Scene.origin 0 true)))
                    Scene.origin 8 true)))
     = Some Scene.macro_left_edge.
Proof.
  split; [vm_compute; reflexivity|]. split; [vm_compute; reflexivity|].
  destruct (move_without_feature_keeps_preview (G := RefGeometry)
              Session.empty_host Session.host
              (run (G := RefGeometry) Session.to_source)
              Scene.origin Scene.origin 0 Scene.macro_left_edge)
    as (_ & A & _).
  - vm_compute. reflexivity.
  - vm_compute. reflexivity.
  - vm_compute. reflexivity.
  - exact A.
Defined.

(** X20 from the plugin after its activation. *)
Lemma session_commits_source_then_target_witness :
  state (run (G := RefGeometry) [Activated Session.host])
  = PENDING_SELECTION1
  /\ snd (fst (mouse_click_event (G := RefGeometry) Session.host
                 (run (G := RefGeometry) Session.to_target)
                 Scene.origin 8 true))
     = map Resolve
         (fst (commit_align (G := RefGeometry)
                 (core (run (G := RefGeometry) [Activated Session.host]))
                 (grid_dbu Session.host)
                 Scene.macro_left_edge Scene.macro_left_edge)).
Proof.
  split; [vm_compute; reflexivity|].
  destruct (session_commits_source_then_target (G := RefGeometry)
              (run (G := RefGeometry) [Activated Session.host])
              Session.host Session.host Session.host Session.host
              Scene.origin Scene.origin Scene.origin Scene.origin 0 0
              Scene.macro_left_edge Scene.macro_left_edge)
    as (_ & _ & _ & A & _).
  - vm_compute. reflexivity.
  - vm_compute. reflexivity.
  - vm_compute. reflexivity.
  - exact A.
Defined.

Section PreSelection.

Context {G : PyaGeometry}.

Lemma click_reset_pre_selection self buttons :
  _pre_selected_objects (core (fst (click_reset self buttons)))
  = _pre_selected_objects (core self).
Proof.
  unfold click_reset.
  destruct ((buttons =? 16) || (buttons =? 32)); reflexivity.
Qed.

(** X21.  The pre-selection of the plugin is captured when the plugin is
    activated on a visible view: it is then what [selected_objects] returns
    and the plugin awaits the source; activation on a view that is not
    visible changes nothing.  No pointer event changes the pre-selection,
    whatever the state, the buttons and the outcome of the event, and
    deactivation empties it. *)
Theorem pre_selection_is_captured_at_activation h self :
  (widget_visible h = true ->
   _pre_selected_objects (core (handle (Activated h) self))
   = selected_objects h
   /\ state (handle (Activated h) self) = PENDING_SELECTION1)
  /\ (widget_visible h = false -> handle (Activated h) self = self)
  /\ (forall h' loc buttons prio,
        _pre_selected_objects
          (core (handle (MouseMoved h' loc buttons prio) self))
        = _pre_selected_objects (core self)
        /\ _pre_selected_objects
             (core (handle (MouseClick h' loc buttons prio) self))
           = _pre_selected_objects (core self))
  /\ _pre_selected_objects (core (handle Deactivated self)) = [].
Proof.
  split; [|split; [|split]].
  - intros Hv. simpl. unfold activated. rewrite Hv. simpl.
    destruct (setupDock self); simpl; split; reflexivity.
  - intros Hv. simpl. unfold activated. rewrite Hv. reflexivity.
  - intros h' loc buttons prio. split.
    + simpl. unfold mouse_moved_event.
      destruct prio; [|reflexivity].
      destruct (find_selection _ _ _ _) as [[f|]|e];
        destruct (state self); try reflexivity;
        unfold _clear_markers_selection1, _clear_markers_selection2; simpl;
        destruct (preview_markers_for_selection h' f); reflexivity.
    + simpl. unfold mouse_click_event.
      destruct prio; [|reflexivity].
      destruct (buttons =? 8).
      * destruct (state self); [reflexivity | |].
        -- destruct (preview_selection1 self); [|reflexivity].
           match goal with
           | |- context [click_reset ?t buttons] =>
               pose proof (click_reset_pre_selection t buttons) as R;
               destruct (click_reset t buttons) as [t' c']
           end.
           simpl in *. exact R.
        -- destruct (preview_selection2 self); [|reflexivity].
           destruct (selection1 self); [|reflexivity].
           destruct (commit_align _ _ _ _) as [calls [u|e]];
             [|reflexivity].
           match goal with
           | |- context [click_reset ?t buttons] =>
               pose proof (click_reset_pre_selection t buttons) as R;
               destruct (click_reset t buttons) as [t' c']
           end.
           simpl in *. exact R.
      * pose proof (click_reset_pre_selection self buttons) as R.
        destruct (click_reset self buttons) as [t' c']. exact R.
  - reflexivity.
Qed.

End PreSelection.

(** * The boxes of a preview *)


Section PreviewBoxes.

Context {G : PyaGeometry}.



End PreviewBoxes.

